(** * The Qubes global-clipboard widget: transfer decoding, classification,
      staging writes and the inotify watch controller.

    Shallow embedding of [qui/clipboard.py], of the clipboard writer and
    the choice of action of [qubes_virtual_browser/virtual_browser.py],
    and of the menu dismisser of
    [qui/tray/gtk3_xwayland_menu_dismisser.py].  Python values decoded from
    the metadata file are kept dynamically typed, exceptions are explicit,
    and everything that touches the staging directory, the advisory lock,
    the inotify watch manager or the notification service is a state
    transformer over a [world]. *)

From Stdlib Require Import ZArith List String Ascii Bool Lia.
From Stdlib Require Import DecimalString DecimalPos DecimalFacts.
Import ListNotations.

Local Open Scope string_scope.
Local Open Scope Z_scope.

(** ** Characters that a Rocq string literal cannot spell *)

Definition nl : string := String "010"%char "".
Definition dq : string := String "034"%char "".
Definition quoted (s : string) : string := dq ++ s ++ dq.

(** ** Python values, exceptions and the operators the widget applies *)

Module Py.

(** [OSError] stands for the whole class ([FileNotFoundError],
    [PermissionError], [IsADirectoryError], ...): the handlers of the
    source catch the class, never a subclass. *)
Inductive exn : Type :=
| OSError
| KeyError (key : string)
| TypeError
| ValueError
| JSONDecodeError
| UnicodeDecodeError
| UnicodeEncodeError
| OverflowError.

(** Outcome of evaluating a Python expression.  [Unmodelled] marks the
    few inputs whose Python value lies outside this development (floats,
    non-ASCII text, the [repr] of containers); it is never used to stand
    for an exception. *)
Inductive res (A : Type) : Type :=
| Ok (a : A)
| Raise (e : exn)
| Unmodelled.
Arguments Ok {A} a.
Arguments Raise {A} e.
Arguments Unmodelled {A}.

Definition rbind {A B} (m : res A) (k : A -> res B) : res B :=
  match m with
  | Ok a => k a
  | Raise e => Raise e
  | Unmodelled => Unmodelled
  end.

Local Set Warnings "-register-all".

(** What [json.loads] can return (floats apart), which is also what the
    legacy branch of the handler stores in its dict. *)
Inductive val : Type :=
| PyNone
| PyBool (b : bool)
| PyInt (z : Z)
| PyStr (s : string)
| PyList (l : list val)
| PyDict (d : list (string * val)).

(** A dict is an association list in insertion order with unique keys. *)
Definition dict : Type := list (string * val).

Fixpoint dict_get (k : string) (d : dict) : option val :=
  match d with
  | [] => None
  | (k', v) :: d' => if String.eqb k k' then Some v else dict_get k d'
  end.

(** [d[k] = v]: overwrite in place, or append a new key. *)
Fixpoint dict_set (k : string) (v : val) (d : dict) : dict :=
  match d with
  | [] => [(k, v)]
  | (k', v') :: d' =>
      if String.eqb k k' then (k', v) :: d' else (k', v') :: dict_set k v d'
  end.

Definition dict_has (k : string) (d : dict) : bool :=
  match dict_get k d with Some _ => true | None => false end.

(** [bool(v)] *)
Definition truthy (v : val) : bool :=
  match v with
  | PyNone => false
  | PyBool b => b
  | PyInt z => negb (z =? 0)
  | PyStr s => negb (String.eqb s "")
  | PyList l => match l with [] => false | _ => true end
  | PyDict d => match d with [] => false | _ => true end
  end.

(** [v[k]] for a string key [k]: only a dict can be indexed by a string. *)
Definition subscript (v : val) (k : string) : res val :=
  match v with
  | PyDict d =>
      match dict_get k d with
      | Some x => Ok x
      | None => Raise (KeyError k)
      end
  | _ => Raise TypeError
  end.

Definition Z_of_bool (b : bool) : Z := if b then 1 else 0.

(** [a == b] *)
Fixpoint py_eq (a b : val) {struct a} : bool :=
  match a, b with
  | PyNone, PyNone => true
  | PyBool x, PyBool y => Bool.eqb x y
  | PyBool x, PyInt y => Z_of_bool x =? y
  | PyInt x, PyBool y => x =? Z_of_bool y
  | PyInt x, PyInt y => x =? y
  | PyStr x, PyStr y => String.eqb x y
  | PyList l, PyList m =>
      (fix all2 (l m : list val) {struct l} : bool :=
         match l, m with
         | [], [] => true
         | x :: l', y :: m' => py_eq x y && all2 l' m'
         | _, _ => false
         end) l m
  | PyDict d, PyDict e =>
      (Nat.eqb (List.length d) (List.length e)) &&
      (fix incl (d : list (string * val)) {struct d} : bool :=
         match d with
         | [] => true
         | (k, v) :: d' =>
             match dict_get k e with
             | Some w => py_eq v w && incl d'
             | None => false
             end
         end) d
  | _, _ => false
  end.

(** Three-way ordering behind [<], [<=], [>], [>=]: numbers (with bools
    as 0 and 1), strings and lists are ordered; everything else raises
    [TypeError].  Lists compare at their first pair of unequal items. *)
Fixpoint py_cmp (a b : val) {struct a} : res comparison :=
  match a, b with
  | PyBool x, PyBool y => Ok (Z_of_bool x ?= Z_of_bool y)
  | PyBool x, PyInt y => Ok (Z_of_bool x ?= y)
  | PyInt x, PyBool y => Ok (x ?= Z_of_bool y)
  | PyInt x, PyInt y => Ok (x ?= y)
  | PyStr x, PyStr y => Ok (String.compare x y)
  | PyList l, PyList m =>
      (fix lex (l m : list val) {struct l} : res comparison :=
         match l, m with
         | [], [] => Ok Eq
         | [], _ :: _ => Ok Lt
         | _ :: _, [] => Ok Gt
         | x :: l', y :: m' => if py_eq x y then lex l' m' else py_cmp x y
         end) l m
  | _, _ => Raise TypeError
  end.

(** [a >= b] *)
Definition py_ge (a b : val) : res bool :=
  rbind (py_cmp a b) (fun c => Ok (match c with Lt => false | _ => true end)).

(** [a > b] *)
Definition py_gt (a b : val) : res bool :=
  rbind (py_cmp a b) (fun c => Ok (match c with Gt => true | _ => false end)).

(** [str(z)] for an int. *)
Definition str_of_Z (z : Z) : string := NilZero.string_of_int (Z.to_int z).

(** [str(v)], which is also what [str.format] inserts for a [{field}]
    without a format spec.  The [repr] of containers is not modelled. *)
Definition py_str (v : val) : res string :=
  match v with
  | PyNone => Ok "None"
  | PyBool true => Ok "True"
  | PyBool false => Ok "False"
  | PyInt z => Ok (str_of_Z z)
  | PyStr s => Ok s
  | PyList _ | PyDict _ => Unmodelled
  end.

(** [template.format] with keyword arguments [args]: [{{] and [}}] are literal braces,
    [{name}] is replaced by [str(args[name])].  A lone [}] or an unclosed
    [{] is a [ValueError], an unknown name a [KeyError]. *)
Fixpoint format_from (args : dict) (tpl : string) (field : option string)
  : res string :=
  match tpl with
  | "" => match field with None => Ok "" | Some _ => Raise ValueError end
  | String c rest =>
      match field with
      | Some f =>
          if Ascii.eqb c "}"
          then match dict_get f args with
               | None => Raise (KeyError f)
               | Some v =>
                   rbind (py_str v) (fun s =>
                   rbind (format_from args rest None) (fun r => Ok (s ++ r)))
               end
          else format_from args rest (Some (f ++ String c ""))
      | None =>
          if Ascii.eqb c "{" then
            match rest with
            | String "{" rest' =>
                rbind (format_from args rest' None) (fun r => Ok (String "{" r))
            | _ => format_from args rest (Some "")
            end
          else if Ascii.eqb c "}" then
            match rest with
            | String "}" rest' =>
                rbind (format_from args rest' None) (fun r => Ok (String "}" r))
            | _ => Raise ValueError
            end
          else rbind (format_from args rest None) (fun r => Ok (String c r))
      end
  end.

Definition format (tpl : string) (args : dict) : res string :=
  format_from args tpl None.

End Py.
Import Py.

(** ** [json.loads], as the handler calls it (default decoder, strict) *)

Module Json.

Definition is_ws (c : ascii) : bool :=
  Ascii.eqb c " " || Ascii.eqb c "009" || Ascii.eqb c "010" || Ascii.eqb c "013".

Fixpoint skip_ws (s : string) : string :=
  match s with
  | String c r => if is_ws c then skip_ws r else s
  | "" => ""
  end.

Definition is_digit (c : ascii) : bool :=
  let n := N_of_ascii c in (48 <=? n)%N && (n <=? 57)%N.

Definition digit_val (c : ascii) : Z := Z.of_N (N_of_ascii c) - 48.

Definition is_hex (c : ascii) : bool :=
  let n := N_of_ascii c in
  is_digit c || ((65 <=? n)%N && (n <=? 70)%N) || ((97 <=? n)%N && (n <=? 102)%N).

Definition starts_with_digit (s : string) : bool :=
  match s with String c _ => is_digit c | "" => false end.

(** The characters a backslash may introduce, [u] apart. *)
Definition unescape (c : ascii) : option ascii :=
  if Ascii.eqb c "034" then Some "034"%char
  else if Ascii.eqb c "\" then Some "\"%char
  else if Ascii.eqb c "/" then Some "/"%char
  else if Ascii.eqb c "b" then Some "008"%char
  else if Ascii.eqb c "f" then Some "012"%char
  else if Ascii.eqb c "n" then Some "010"%char
  else if Ascii.eqb c "r" then Some "013"%char
  else if Ascii.eqb c "t" then Some "009"%char
  else None.

Definition four_hex (s : string) : bool :=
  match s with
  | String a (String b (String c (String d _))) =>
      is_hex a && is_hex b && is_hex c && is_hex d
  | _ => false
  end.

(** [scanstring], entered just after the opening quote: the decoded text
    and what follows the closing quote.  Control characters are refused
    (strict mode).  A well-formed [\uXXXX] escape may denote a character
    outside ASCII and is left unmodelled. *)
Fixpoint scanstring (s : string) : res (string * string) :=
  match s with
  | "" => Raise JSONDecodeError
  | String c r =>
      if Ascii.eqb c "034" then Ok ("", r)
      else if Ascii.eqb c "\" then
        match r with
        | "" => Raise JSONDecodeError
        | String e r' =>
            if Ascii.eqb e "u"
            then (if four_hex r' then Unmodelled else Raise JSONDecodeError)
            else match unescape e with
                 | Some ch =>
                     rbind (scanstring r') (fun '(t, rest) => Ok (String ch t, rest))
                 | None => Raise JSONDecodeError
                 end
        end
      else if (N_of_ascii c <? 32)%N then Raise JSONDecodeError
      else rbind (scanstring r) (fun '(t, rest) => Ok (String c t, rest))
  end.

(** Longest run of decimal digits: its value, its length, the rest. *)
Fixpoint take_digits (s : string) (acc : Z) (cnt : nat) : Z * nat * string :=
  match s with
  | String c r =>
      if is_digit c then take_digits r (10 * acc + digit_val c) (S cnt)
      else (acc, cnt, s)
  | "" => (acc, cnt, s)
  end.

(** CPython refuses to convert more decimal digits than this to an int
    (the interpreter's default; it can be reconfigured, so longer literals
    are left unmodelled). *)
Definition int_max_str_digits : nat := 4300.

Definition is_float_tail (s : string) : bool :=
  match s with
  | String c r =>
      if Ascii.eqb c "." then starts_with_digit r
      else if Ascii.eqb c "e" || Ascii.eqb c "E" then
        match r with
        | String sg r' =>
            if Ascii.eqb sg "+" || Ascii.eqb sg "-" then starts_with_digit r'
            else is_digit sg
        | "" => false
        end
      else false
  | "" => false
  end.

(** [NUMBER_RE.match]: an optional minus sign, then either a single 0
    or a nonzero digit followed by any digits; then an optional fraction
    and an optional exponent.  [None] when the pattern does not match at
    the head of [s]; a literal with a fraction or an exponent is a float
    and left unmodelled. *)
Definition match_number (s : string) : option (res (val * string)) :=
  let '(neg, body) :=
    match s with
    | String "-" r => (true, r)
    | _ => (false, s)
    end in
  match body with
  | String c r =>
      if negb (is_digit c) then None
      else
        let '(n, cnt, rest) :=
          if Ascii.eqb c "0" then (0, 1%nat, r) else take_digits body 0 0 in
        Some (if is_float_tail rest then Unmodelled
              else if (int_max_str_digits <? cnt)%nat then Unmodelled
              else Ok (PyInt (if neg then - n else n), rest))
  | "" => None
  end.

Fixpoint drop (n : nat) (s : string) : string :=
  match n, s with
  | S n', String _ r => drop n' r
  | _, _ => s
  end.

(** Nesting the model follows; CPython gives up with [RecursionError]
    at a depth that depends on the interpreter's state, far above this. *)
Definition max_depth : nat := 100.

Section Containers.

(** The scanner for nested values, one level down. *)
Variable scan : string -> res (val * string).

(** [JSONObject]'s loop, entered just after the opening quote of a
    key, with the pairs seen so far.  [n] bounds the number of members
    by the length of the text. *)
Fixpoint members (n : nat) (s : string) (acc : dict) {struct n}
  : res (val * string) :=
  match n with
  | O => Unmodelled
  | S n' =>
      rbind (scanstring s) (fun '(key, r2) =>
      match skip_ws r2 with
      | String ":" r3 =>
          rbind (scan (skip_ws r3)) (fun '(v, r4) =>
          let acc' := dict_set key v acc in
          match skip_ws r4 with
          | String c5 r5 =>
              if Ascii.eqb c5 "}" then Ok (PyDict acc', r5)
              else if Ascii.eqb c5 "," then
                match skip_ws r5 with
                | String "034" r6 => members n' r6 acc'
                | _ => Raise JSONDecodeError
                end
              else Raise JSONDecodeError
          | "" => Raise JSONDecodeError
          end)
      | _ => Raise JSONDecodeError
      end)
  end.

(** [JSONArray]'s loop, entered at the head of an item. *)
Fixpoint elements (n : nat) (s : string) (acc : list val) {struct n}
  : res (val * string) :=
  match n with
  | O => Unmodelled
  | S n' =>
      rbind (scan s) (fun '(v, r2) =>
      match skip_ws r2 with
      | String c3 r3 =>
          if Ascii.eqb c3 "]" then Ok (PyList (rev (v :: acc)), r3)
          else if Ascii.eqb c3 "," then elements n' (skip_ws r3) (v :: acc)
          else Raise JSONDecodeError
      | "" => Raise JSONDecodeError
      end)
  end.

End Containers.

(** [scan_once]: one JSON value at the head of [s] and the text after
    it.  Every syntax error is a [JSONDecodeError]. *)
Fixpoint scan_once (depth : nat) (s : string) {struct depth}
  : res (val * string) :=
  match depth with
  | O => Unmodelled
  | S d =>
      match s with
      | "" => Raise JSONDecodeError
      | String c r =>
          if Ascii.eqb c "034" then
            rbind (scanstring r) (fun '(t, rest) => Ok (PyStr t, rest))
          else if Ascii.eqb c "{" then
            match skip_ws r with
            | String c1 r1 =>
                if Ascii.eqb c1 "}" then Ok (PyDict [], r1)
                else if Ascii.eqb c1 "034"
                then members (scan_once d) (S (String.length r1)) r1 []
                else Raise JSONDecodeError
            | "" => Raise JSONDecodeError
            end
          else if Ascii.eqb c "[" then
            match skip_ws r with
            | String "]" r1 => Ok (PyList [], r1)
            | r1 => elements (scan_once d) (S (String.length r1)) r1 []
            end
          else if String.prefix "null" s then Ok (PyNone, drop 4 s)
          else if String.prefix "true" s then Ok (PyBool true, drop 4 s)
          else if String.prefix "false" s then Ok (PyBool false, drop 5 s)
          else
            match match_number s with
            | Some r => r
            | None =>
                if String.prefix "NaN" s || String.prefix "Infinity" s
                   || String.prefix "-Infinity" s
                then Unmodelled
                else Raise JSONDecodeError
            end
      end
  end.

(** [json.loads(s)]: leading whitespace, one value, trailing whitespace,
    and nothing else. *)
Definition loads (s : string) : res val :=
  rbind (scan_once max_depth (skip_ws s)) (fun '(v, rest) =>
  match skip_ws rest with
  | "" => Ok v
  | _ => Raise JSONDecodeError
  end).

End Json.

(** ** The staging directory and the rest of the widget's environment *)

Definition DATA : string := "/var/run/qubes/qubes-clipboard.bin".
Definition METADATA : string := "/var/run/qubes/qubes-clipboard.bin.metadata".
Definition FROM : string := "/var/run/qubes/qubes-clipboard.bin.source".
Definition FROM_DIR : string := "/var/run/qubes/".
Definition XEVENT : string := "/var/run/qubes/qubes-clipboard.bin.xevent".
Definition APPVIEWER_LOCK : string := "/var/run/qubes/appviewer.lock".

(** What a path resolves to.  [mtime] is the value [os.path.getmtime]
    reports (only its order matters); [Special] is anything that is not a
    regular file: [os.path.isfile] is false for it and it cannot be read as
    text. *)
Inductive node : Type :=
| RegFile (mtime : Z) (readable : bool) (content : string)
| Special (mtime : Z) (size : Z).

Inductive watch_mask : Type := IN_CREATE | ALL_EVENTS.

(** Effects that leave the process or that other processes can see. *)
Inductive io_event : Type :=
| EvLockEx
| EvLockUn
| EvTruncate (path : string)
| EvWrite (path content : string)
| EvLabel (markup : string)
| EvNotify (body : string) (icon : option string).

Record world : Type := mkWorld {
  files : string -> option node;
  can_write : string -> bool;        (* [open(path, "w")] succeeds *)
  lock_openable : bool;              (* [os.open(APPVIEWER_LOCK, ...)] succeeds *)
  now : Z;                           (* mtime given to a file written now *)
  lock_held : bool;                  (* this process holds the flock *)
  paste_shortcut : string;           (* [gtk_app.paste_shortcut] *)
  temporary_watch : option (list (string * Z));
  watches : list (Z * (string * watch_mask));   (* wd, path, mask *)
  next_wd : Z;
  loop_running : bool;
  trace : list io_event              (* newest first *)
}.

Definition set_files (f : string -> option node) (w : world) : world :=
  mkWorld f (can_write w) (lock_openable w) (now w) (lock_held w)
          (paste_shortcut w) (temporary_watch w) (watches w) (next_wd w)
          (loop_running w) (trace w).

Definition set_lock_held (b : bool) (w : world) : world :=
  mkWorld (files w) (can_write w) (lock_openable w) (now w) b
          (paste_shortcut w) (temporary_watch w) (watches w) (next_wd w)
          (loop_running w) (trace w).

Definition set_watches (ws : list (Z * (string * watch_mask))) (n : Z)
  (w : world) : world :=
  mkWorld (files w) (can_write w) (lock_openable w) (now w) (lock_held w)
          (paste_shortcut w) (temporary_watch w) ws n
          (loop_running w) (trace w).

Definition set_temporary_watch (t : option (list (string * Z))) (w : world)
  : world :=
  mkWorld (files w) (can_write w) (lock_openable w) (now w) (lock_held w)
          (paste_shortcut w) t (watches w) (next_wd w)
          (loop_running w) (trace w).

Definition set_loop_running (b : bool) (w : world) : world :=
  mkWorld (files w) (can_write w) (lock_openable w) (now w) (lock_held w)
          (paste_shortcut w) (temporary_watch w) (watches w) (next_wd w)
          b (trace w).

Definition log (e : io_event) (w : world) : world :=
  mkWorld (files w) (can_write w) (lock_openable w) (now w) (lock_held w)
          (paste_shortcut w) (temporary_watch w) (watches w) (next_wd w)
          (loop_running w) (e :: trace w).

(** *** Computations over the world that may raise *)

Definition M (A : Type) : Type := world -> res A * world.

Definition ret {A} (a : A) : M A := fun w => (Ok a, w).

Definition bind {A B} (m : M A) (k : A -> M B) : M B :=
  fun w =>
    match m w with
    | (Ok a, w') => k a w'
    | (Raise e, w') => (Raise e, w')
    | (Unmodelled, w') => (Unmodelled, w')
    end.

Notation "x <- m ;; k" := (bind m (fun x => k))
  (at level 61, m at next level, right associativity).
Notation "' pat <- m ;; k" := (bind m (fun pat => k))
  (at level 61, pat pattern, m at next level, right associativity).
Notation "m ;;; k" := (bind m (fun _ => k))
  (at level 61, right associativity).

Definition lift {A} (r : res A) : M A := fun w => (r, w).
Definition raise {A} (e : exn) : M A := lift (Raise e).
Definition effect (e : io_event) : M unit := fun w => (Ok tt, log e w).

(** [try: m  except OSError: h] *)
Definition except_OSError {A} (m : M A) (h : M A) : M A :=
  fun w =>
    match m w with
    | (Raise OSError, w') => h w'
    | other => other
    end.

(** *** Files *)

Definition isfile (p : string) : M bool :=
  fun w => (Ok (match files w p with Some (RegFile _ _ _) => true | _ => false end), w).

Definition exists_ (p : string) : M bool :=
  fun w => (Ok (match files w p with Some _ => true | None => false end), w).

Definition getmtime (p : string) : M Z :=
  fun w =>
    match files w p with
    | Some (RegFile t _ _) | Some (Special t _) => (Ok t, w)
    | None => (Raise OSError, w)
    end.

Definition getsize (p : string) : M Z :=
  fun w =>
    match files w p with
    | Some (RegFile _ _ c) => (Ok (Z.of_nat (String.length c)), w)
    | Some (Special _ n) => (Ok n, w)
    | None => (Raise OSError, w)
    end.

Fixpoint all_ascii (s : string) : bool :=
  match s with
  | "" => true
  | String c r => (N_of_ascii c <? 128)%N && all_ascii r
  end.

(** Text mode with the default [newline=None]: [\r\n] and a lone [\r]
    are read as [\n]. *)
Fixpoint universal_newlines (s : string) : string :=
  match s with
  | "" => ""
  | String c r =>
      if Ascii.eqb c "013" then
        match r with
        | String "010" r' => String "010" (universal_newlines r')
        | _ => String "010" (universal_newlines r)
        end
      else String c (universal_newlines r)
  end.

(** [open(p, "r", encoding="ascii")] followed by the decoding of the whole
    file; [file.read()] does exactly this.  ([readline] decodes the file in
    chunks of 8192 bytes and stops at the first line end, so for a longer
    file it can miss a bad byte that this finds.) *)
Definition read_ascii (p : string) : M string :=
  fun w =>
    match files w p with
    | Some (RegFile _ true c) =>
        if all_ascii c then (Ok (universal_newlines c), w)
        else (Raise UnicodeDecodeError, w)
    | _ => (Raise OSError, w)
    end.

(** [file.readline()]: up to and including the first [\n]. *)
Fixpoint first_line (s : string) : string :=
  match s with
  | "" => ""
  | String c r => if Ascii.eqb c "010" then String c "" else String c (first_line r)
  end.

Fixpoint lstrip_nl (s : string) : string :=
  match s with
  | String "010" r => lstrip_nl r
  | _ => s
  end.

Fixpoint string_rev_onto (s acc : string) : string :=
  match s with
  | "" => acc
  | String c r => string_rev_onto r (String c acc)
  end.

Definition string_rev (s : string) : string := string_rev_onto s "".

(** [s.strip("\n")] *)
Definition strip_nl (s : string) : string :=
  string_rev (lstrip_nl (string_rev (lstrip_nl s))).

(** [open(p, "w", encoding=...)]: creates or truncates.  A path that
    holds something other than a regular file is taken to be a directory. *)
Definition open_w (p : string) : M unit :=
  fun w =>
    match can_write w p, files w p with
    | false, _ | _, Some (Special _ _) => (Raise OSError, w)
    | true, node =>
        let readable :=
          match node with
          | Some (RegFile _ r _) => r
          | _ => true
          end in
        (Ok tt,
         log (EvTruncate p)
             (set_files (fun q => if String.eqb q p
                                  then Some (RegFile (now w) readable "")
                                  else files w q) w))
    end.

(** [f.write(text)] and the close that flushes it, on a file just opened
    by [open_w].  Text that the encoding cannot express raises and leaves
    the file empty. *)
Definition write_text (ascii_only : bool) (p text : string) : M unit :=
  fun w =>
    if ascii_only && negb (all_ascii text) then (Raise UnicodeEncodeError, w)
    else
      let readable :=
        match files w p with
        | Some (RegFile _ r _) => r
        | _ => true
        end in
      (Ok tt,
       log (EvWrite p text)
           (set_files (fun q => if String.eqb q p
                                then Some (RegFile (now w) readable text)
                                else files w q) w)).

(** *** The advisory lock *)

(** [with appviewer_lock(): body].  The lock file is opened before the
    [try], so a failure there raises with nothing to undo; once the lock is
    taken it is released on every way out of [body]. *)
Definition appviewer_lock {A} (body : M A) : M A :=
  fun w =>
    if lock_openable w then
      let '(r, w') := body (log EvLockEx (set_lock_held true w)) in
      (r, log EvLockUn (set_lock_held false w'))
    else (Raise OSError, w).

(** ** Messages (the untranslated msgids; [_] falls back to them) *)

Definition ERROR_MALFORMED_DATA : string :=
  "Malformed clipboard data received from qube: <b>{vmname}</b>".
Definition ERROR_ON_COPY : string :=
  "Failed to fetch clipboard data from qube: <b>{vmname}</b>".
Definition ERROR_ON_PASTE : string :=
  "Failed to paste global clipboard contents to qube: <b>{vmname}</b>".
Definition ERROR_OVERSIZED_DATA : string :=
  "Global clipboard size exceeded." ++ nl ++
  "qube: <b>{vmname}</b> attempted to send {size} bytes to global clipboard."
  ++ nl ++ "Current global clipboard limit is {limit}, increase limit or use "
  ++ "<i>qvm-copy</i> to transfer large amounts of data between qubes.".
Definition WARNING_POSSIBLE_TRUNCATION : string :=
  "Global clipboard size limit exceed." ++ nl ++
  "qube: <b>{vmname}</b> attempted to send {size} bytes to global clipboard."
  ++ nl ++ "Global clipboard might have been truncated." ++ nl ++
  "<small>Use <i>qvm-copy</i> to transfer large amounts of data between "
  ++ "qubes.</small>".
Definition WARNING_EMPTY_CLIPBOARD : string :=
  "Empty source qube clipboard." ++ nl ++
  "qube: <b>{vmname}</b> attempted to send <b>0</b> bytes to global "
  ++ "clipboard.".
Definition MSG_COPY_SUCCESS : string :=
  "Clipboard contents fetched from qube: <b>'{vmname}'</b>" ++ nl ++
  "Copied <b>{size}</b> to the global clipboard." ++ nl ++
  "<small>Press {shortcut} in qube to paste to local clipboard.</small>".
Definition MSG_WIPED : string :=
  nl ++ "<small>Global clipboard has been wiped</small>".
Definition MSG_PASTE_SUCCESS_METADATA : string :=
  "Global clipboard copied <b>{size}</b> to <b>{vmname}</b>." ++ nl ++
  "Global clipboard has been wiped." ++ nl ++
  "<small>Paste normally in qube (e.g. Ctrl+V).</small>".
Definition MSG_PASTE_SUCCESS_LEGACY : string :=
  "Global clipboard copied to qube and wiped.<i/>" ++ nl ++
  "<small>Paste normally in qube (e.g. Ctrl+V).</small>".

(** ** [clipboard_formatted_size] *)

Definition units : list string := ["B"; "KiB"; "MiB"; "GiB"].

(** [min(int(math.log(file_size) / math.log(2) * 0.1), len(units) - 1)]
    for [file_size > 0], in exact arithmetic.  The double-precision value
    can only differ where [log2(file_size) / 10] is an integer below the
    cap, that is at 2^10, 2^20 and 2^30, and CPython computes 1, 2 and 3
    there, as this does. *)
Definition magnitude_of (file_size : Z) : Z :=
  Z.min (Z.log2 file_size / 10) (Z.of_nat (List.length units) - 1).

(** The double nearest to a positive int (ties to even), as an exact
    integer: what [file_size / 2.0 ** k] converts its left operand to.
    Ints too large for a double raise [OverflowError]. *)
Definition float_of_int (n : Z) : res Z :=
  let bits := Z.log2 n + 1 in
  if bits <=? 53 then Ok n
  else
    let sh := bits - 53 in
    let q := Z.shiftr n sh in
    let r := n - Z.shiftl q sh in
    let half := Z.shiftl 1 (sh - 1) in
    let q' := if (half <? r) || ((r =? half) && Z.odd q) then q + 1 else q in
    let v := Z.shiftl q' sh in
    if Z.shiftl 1 1024 <=? v then Raise OverflowError else Ok v.

Definition round_half_even (num den : Z) : Z :=
  let q := num / den in
  let r2 := 2 * (num mod den) in
  if den <? r2 then q + 1
  else if (r2 =? den) && Z.odd q then q + 1
  else q.

(** ["%.1f" % (num / den)] for the exactly representable quotient of a
    non-negative [num] by a power of two [den]. *)
Definition percent_1f (num den : Z) : string :=
  let t := round_half_even (10 * num) den in
  str_of_Z (t / 10) ++ "." ++ str_of_Z (t mod 10).

Definition number_of (v : val) : res Z :=
  match v with
  | PyInt z => Ok z
  | PyBool b => Ok (Z_of_bool b)
  | _ => Raise TypeError
  end.

(** [size] is the argument as passed: [PyNone] for the default.  The
    source builds [formatted_bytes] before it tests [file_size > 0]; [str]
    has no effect and cannot fail, so the text is built here only where it
    is returned ([file_size > 0] raises for every value whose [str] is not
    modelled). *)
Definition clipboard_formatted_size (size : val) : M string :=
  fs <- except_OSError
          (if truthy size then ret (Some size)
           else n <- getsize DATA ;; ret (Some (PyInt n)))
          (ret None) ;;
  match fs with
  | None => ret "? bytes"
  | Some file_size =>
      let formatted_bytes : res string :=
        if py_eq file_size (PyInt 1) then Ok "1 byte"
        else rbind (py_str file_size) (fun s => Ok (s ++ " bytes")) in
      positive <- lift (py_gt file_size (PyInt 0)) ;;
      if positive : bool then
        n <- lift (number_of file_size) ;;
        let magnitude := magnitude_of n in
        if 0 <? magnitude then
          x <- lift (float_of_int n) ;;
          fb <- lift formatted_bytes ;;
          ret (fb ++ " (" ++ percent_1f x (Z.shiftl 1 (10 * magnitude)) ++ " "
                  ++ nth (Z.to_nat magnitude) units "" ++ ")")
        else lift formatted_bytes
      else lift formatted_bytes
  end.

(** ** The presentation side, as far as it can be observed *)

Definition send_notify (body : string) (icon : option string) : M unit :=
  effect (EvNotify body icon).

(** [vm] and [size] default to [None] and [0]. *)
Definition update_clipboard_contents (vm size : val) (message icon : option string)
  : M unit :=
  (if negb (truthy vm) || negb (truthy size)
   then effect (EvLabel "<i>Global clipboard is empty</i>")
   else
     markup <- lift (format "<i>Global clipboard contents: {0} from <b>{1}</b></i>"
                            [("0", size); ("1", vm)]) ;;
     effect (EvLabel markup)) ;;;
  match message with
  | Some body => if String.eqb body "" then ret tt else send_notify body icon
  | None => ret tt
  end.

(** ** The classifier: [EventHandler._copy] and [EventHandler._paste] *)

Definition item (metadata : val) (key : string) : M val :=
  lift (subscript metadata key).

(** [key in metadata.keys()]; only reached after [metadata] has been
    indexed by a string, hence on a dict. *)
Definition has_key (metadata : val) (key : string) : M bool :=
  match metadata with
  | PyDict d => ret (dict_has key d)
  | _ => raise TypeError
  end.

Definition _copy (metadata : val) : M unit :=
  sent_size <- item metadata "sent_size" ;;
  size <- clipboard_formatted_size sent_size ;;
  malformed <- item metadata "malformed_request" ;;
  '(body, icon) <-
    (if truthy malformed then
       vmname <- item metadata "vmname" ;;
       body <- lift (format ERROR_MALFORMED_DATA [("vmname", vmname)]) ;;
       ret (body, "dialog-error")
     else
       qrexec <- item metadata "qrexec_clipboard" ;;
       truncated <-
         (if truthy qrexec then
            sent <- item metadata "sent_size" ;;
            buffer <- item metadata "buffer_size" ;;
            lift (py_ge sent buffer)
          else ret false) ;;
       if truncated : bool then
         (* Microsoft Windows clipboard case *)
         vmname <- item metadata "vmname" ;;
         body <- lift (format WARNING_POSSIBLE_TRUNCATION
                              [("vmname", vmname); ("size", PyStr size)]) ;;
         ret (body, "dialog-warning")
       else
         oversized <- item metadata "oversized_request" ;;
         if truthy oversized then
           vmname <- item metadata "vmname" ;;
           buffer <- item metadata "buffer_size" ;;
           limit <- clipboard_formatted_size buffer ;;
           body <- lift (format ERROR_OVERSIZED_DATA
                                [("vmname", vmname); ("size", PyStr size);
                                 ("limit", PyStr limit)]) ;;
           ret (body, "dialog-error")
         else
           successful <- item metadata "successful" ;;
           empty <-
             (if truthy successful then
                cleared <- item metadata "cleared" ;;
                if truthy cleared then
                  sent <- item metadata "sent_size" ;;
                  ret (py_eq sent (PyInt 0))
                else ret false
              else ret false) ;;
           if empty : bool then
             vmname <- item metadata "vmname" ;;
             body <- lift (format WARNING_EMPTY_CLIPBOARD [("vmname", vmname)]) ;;
             ret (body, "dialog-warning")
           else
             successful <- item metadata "successful" ;;
             if negb (truthy successful) then
               vmname <- item metadata "vmname" ;;
               body <- lift (format ERROR_ON_COPY [("vmname", vmname)]) ;;
               ret (body, "dialog-error")
             else
               vmname <- item metadata "vmname" ;;
               shortcut <- (fun w => (Ok (paste_shortcut w), w)) ;;
               body <- lift (format MSG_COPY_SUCCESS
                                    [("vmname", vmname); ("size", PyStr size);
                                     ("shortcut", PyStr shortcut)]) ;;
               ret (body, "dialog-information")) ;;
  cleared <- item metadata "cleared" ;;
  let body := if truthy cleared then body ++ MSG_WIPED else body in
  vmname <- item metadata "vmname" ;;
  update_clipboard_contents vmname (PyStr size) (Some body) (Some icon).

Definition _paste (metadata : val) : M unit :=
  successful <- item metadata "successful" ;;
  failed <-
    (if negb (truthy successful) then ret true
     else malformed <- item metadata "malformed_request" ;;
          ret (truthy malformed)) ;;
  '(body, icon) <-
    (if failed : bool then
       vmname <- item metadata "vmname" ;;
       body <- lift (format ERROR_ON_PASTE [("vmname", vmname)]) ;;
       ret (body ++ MSG_WIPED, "dialog-error")
     else
       modern <-
         (present <- has_key metadata "protocol_version_xside" ;;
          if present : bool then
            version <- item metadata "protocol_version_xside" ;;
            lift (py_ge version (PyInt 65544))      (* 0x00010008 *)
          else ret false) ;;
       if modern : bool then
         sent_size <- item metadata "sent_size" ;;
         size <- clipboard_formatted_size sent_size ;;
         vmname <- item metadata "vmname" ;;
         body <- lift (format MSG_PASTE_SUCCESS_METADATA
                              [("size", PyStr size); ("vmname", vmname)]) ;;
         ret (body, "dialog-information")
       else ret (MSG_PASTE_SUCCESS_LEGACY, "dialog-information")) ;;
  update_clipboard_contents PyNone (PyInt 0) (Some body) (Some icon).

(** ** The decoder and dispatcher: [EventHandler.process_IN_CLOSE_WRITE] *)

(** The structured branch: [None] is the early [return] of the two
    [except] clauses.  [UnicodeDecodeError] is neither an [OSError] nor a
    [JSONDecodeError] and passes through. *)
Definition decode_structured : M (option val) :=
  fun w =>
    match (text <- read_ascii METADATA ;; lift (Json.loads text)) w with
    | (Ok v, w') => (Ok (Some v), w')
    | (Raise OSError, w') => (Ok None, w')
    | (Raise JSONDecodeError, w') => (Ok None, w')
    | (Raise e, w') => (Raise e, w')
    | (Unmodelled, w') => (Unmodelled, w')
    end.

(** The legacy branch: metadata synthesised from the source and payload
    files, key by key as the source assigns them. *)
Definition decode_legacy : M (option val) :=
  text <- read_ascii FROM ;;
  let vmname := strip_nl (first_line text) in
  let copy_action := negb (String.eqb vmname "") in
  let paste_action := String.eqb vmname "" in
  sent_size <- except_OSError (getsize DATA) (ret 0) ;;
  let metadata := dict_set "vmname" (PyStr vmname) [] in
  let metadata := dict_set "copy_action" (PyBool copy_action) metadata in
  let metadata := dict_set "paste_action" (PyBool paste_action) metadata in
  let metadata := dict_set "sent_size" (PyInt sent_size) metadata in
  let metadata := dict_set "cleared" (PyBool (sent_size =? 0)) metadata in
  let metadata := dict_set "qrexec_clipboard" (PyBool false) metadata in
  let metadata := dict_set "malformed_request" (PyBool false) metadata in
  let metadata := dict_set "oversized_request" (PyBool (65000 <=? sent_size)) metadata in
  let metadata := dict_set "buffer_size" (PyInt 65000) metadata in
  let metadata :=
    if copy_action && (sent_size =? 0)
    then dict_set "successful" (PyBool false) metadata
    else dict_set "successful" (PyBool true) metadata in
  ret (Some (PyDict metadata)).

(** The body of the [with appviewer_lock():] block. *)
Definition decode : M (option val) :=
  is_file <- isfile METADATA ;;
  structured <-
    (if is_file : bool then
       m <- getmtime METADATA ;;
       d <- getmtime DATA ;;
       ret (d <=? m)
     else ret false) ;;
  if structured : bool then decode_structured else decode_legacy.

(** Reacts to modifications of the FROM file. *)
Definition process_IN_CLOSE_WRITE : M unit :=
  decoded <- appviewer_lock decode ;;
  match decoded with
  | None => ret tt
  | Some metadata =>
      copy_action <- item metadata "copy_action" ;;
      if truthy copy_action then _copy metadata
      else
        paste_action <- item metadata "paste_action" ;;
        if truthy paste_action then _paste metadata else ret tt
  end.

(** ** The watch controller *)

(** [wm.add_watch(path, mask)] with pyinotify's defaults: the answer maps
    the path to its watch descriptor, negative when the path cannot be
    watched; watching a path again updates its mask. *)
Definition add_watch (path : string) (mask : watch_mask)
  : M (list (string * Z)) :=
  fun w =>
    match files w path with
    | None => (Ok [(path, -1)], w)
    | Some _ =>
        match find (fun e => String.eqb (fst (snd e)) path) (watches w) with
        | Some (wd, _) =>
            (Ok [(path, wd)],
             set_watches
               (map (fun e => if Z.eqb (fst e) wd then (wd, (path, mask)) else e)
                    (watches w))
               (next_wd w) w)
        | None =>
            (Ok [(path, next_wd w)],
             set_watches ((next_wd w, (path, mask)) :: watches w) (next_wd w + 1) w)
        end
    end.

(** [wm.rm_watch(wd)]; an unknown descriptor is only logged. *)
Definition rm_watch (wd : Z) : M unit :=
  fun w =>
    (Ok tt,
     set_watches (filter (fun e => negb (Z.eqb (fst e) wd)) (watches w))
                 (next_wd w) w).

Fixpoint for_each {A} (f : A -> M unit) (l : list A) : M unit :=
  match l with
  | [] => ret tt
  | x :: l' => f x ;;; for_each f l'
  end.

Definition setup_watcher : M unit :=
  tw <- (fun w => (Ok (temporary_watch w), w)) ;;
  match tw with
  | Some ((_ :: _) as d) => for_each (fun e => rm_watch (snd e)) d
  | _ => ret tt
  end ;;;
  add_watch FROM ALL_EVENTS ;;; ret tt.

(** The part of [NotificationApp.__init__] that installs the first watch. *)
Definition init_watch : M unit :=
  present <- exists_ FROM ;;
  if present : bool then setup_watcher
  else
    d <- add_watch FROM_DIR IN_CREATE ;;
    fun w => (Ok tt, set_temporary_watch (Some d) w).

Definition process_IN_CREATE (pathname : string) : M unit :=
  if String.eqb pathname FROM
  then process_IN_CLOSE_WRITE ;;; setup_watcher
  else ret tt.

(** Stop loop if file is moved *)
Definition process_IN_MOVE_SELF : M unit :=
  fun w => (Ok tt, set_loop_running false w).

(** Stop loop if file is deleted *)
Definition process_IN_DELETE : M unit :=
  fun w => (Ok tt, set_loop_running false w).

(** The two states of the controller, read off the watch manager. *)
Definition unarmed (w : world) : bool :=
  match watches w, temporary_watch w with
  | [(wd, (p, IN_CREATE))], Some [(p', wd')] =>
      String.eqb p FROM_DIR && String.eqb p' FROM_DIR && Z.eqb wd wd'
  | _, _ => false
  end.

Definition armed (w : world) : bool :=
  match watches w with
  | [(_, (p, ALL_EVENTS))] => String.eqb p FROM
  | _ => false
  end.

(** ** The writers of the staging files *)

(** The template of [copy_dom0_clipboard], the adjacent literals joined. *)
Definition dom0_metadata_template : string :=
  "{{" ++ nl ++
  quoted "vmname" ++ ":" ++ quoted "dom0" ++ "," ++ nl ++
  quoted "xevent_timestamp" ++ ":{xevent_timestamp}," ++ nl ++
  quoted "successful" ++ ":1," ++ nl ++
  quoted "copy_action" ++ ":1," ++ nl ++
  quoted "paste_action" ++ ":0," ++ nl ++
  quoted "malformed_request" ++ ":0," ++ nl ++
  quoted "cleared" ++ ":0," ++ nl ++
  quoted "qrexec_clipboard" ++ ":0," ++ nl ++
  quoted "sent_size" ++ ":{sent_size}," ++ nl ++
  quoted "buffer_size" ++ ":{buffer_size}," ++ nl ++
  quoted "protocol_version_xside" ++ ":65544," ++ nl ++
  quoted "protocol_version_vmside" ++ ":65544," ++ nl ++
  "}}" ++ nl.

(** [NotificationApp.copy_dom0_clipboard].  [text] is what
    [clipboard.wait_for_text()] returned, as UTF-8 bytes; [event_time] is
    [Gtk.get_current_event_time()]. *)
Definition copy_dom0_clipboard (text : option string) (event_time : Z) : M unit :=
  match text with
  | Some (String _ _ as text) =>
      fun w =>
        match
          appviewer_lock
            (open_w DATA ;;; write_text false DATA text ;;;
             open_w FROM ;;; write_text true FROM "dom0" ;;;
             open_w XEVENT ;;; write_text true XEVENT (str_of_Z event_time) ;;;
             open_w METADATA ;;;
             sent_size <- getsize DATA ;;
             metadata <- lift (format dom0_metadata_template
                                 [("xevent_timestamp", PyStr (str_of_Z event_time));
                                  ("sent_size", PyInt sent_size);
                                  ("buffer_size", PyStr "256000")]) ;;
             write_text true METADATA metadata) w
        with
        | (Raise _, w') =>       (* except Exception *)
            send_notify "Error while accessing global clipboard!"
                        (Some "dialog-error") w'
        | other => other
        end
  | _ => send_notify "Dom0 clipboard is empty!" (Some "dialog-information")
  end.

(** The text that results, spelled out. *)
Definition dom0_metadata (event_time sent_size : Z) : string :=
  "{" ++ nl ++
  quoted "vmname" ++ ":" ++ quoted "dom0" ++ "," ++ nl ++
  quoted "xevent_timestamp" ++ ":" ++ str_of_Z event_time ++ "," ++ nl ++
  quoted "successful" ++ ":1," ++ nl ++
  quoted "copy_action" ++ ":1," ++ nl ++
  quoted "paste_action" ++ ":0," ++ nl ++
  quoted "malformed_request" ++ ":0," ++ nl ++
  quoted "cleared" ++ ":0," ++ nl ++
  quoted "qrexec_clipboard" ++ ":0," ++ nl ++
  quoted "sent_size" ++ ":" ++ str_of_Z sent_size ++ "," ++ nl ++
  quoted "buffer_size" ++ ":256000," ++ nl ++
  quoted "protocol_version_xside" ++ ":65544," ++ nl ++
  quoted "protocol_version_vmside" ++ ":65544," ++ nl ++
  "}" ++ nl.

(** The text [_copy_to_global_clipboard] writes: plain literals keep their
    doubled braces, only the f-string pieces are interpolated. *)
Definition virtual_browser_metadata (vmname : string) (sent_size : Z) : string :=
  "{{" ++ nl ++
  quoted "vmname" ++ ":" ++ quoted vmname ++ "," ++ nl ++
  quoted "xevent_timestamp" ++ ":0," ++ nl ++
  quoted "successful" ++ ":1," ++ nl ++
  quoted "copy_action" ++ ":1," ++ nl ++
  quoted "paste_action" ++ ":0," ++ nl ++
  quoted "malformed_request" ++ ":0," ++ nl ++
  quoted "cleared" ++ ":0," ++ nl ++
  quoted "qrexec_clipboard" ++ ":0," ++ nl ++
  quoted "sent_size" ++ ":" ++ str_of_Z sent_size ++ "," ++ nl ++
  quoted "buffer_size" ++ ":2048," ++ nl ++
  quoted "protocol_version_xside" ++ ":65544," ++ nl ++
  quoted "protocol_version_vmside" ++ ":65544," ++ nl ++
  "}}" ++ nl.

(** [_copy_to_global_clipboard] of the virtual browser. *)
Definition _copy_to_global_clipboard (url vmname : string) (event_time : Z)
  : M unit :=
  open_w DATA ;;; write_text false DATA url ;;;
  open_w FROM ;;; write_text true FROM vmname ;;;
  open_w XEVENT ;;; write_text true XEVENT (str_of_Z event_time) ;;;
  open_w METADATA ;;;
  sent_size <- getsize DATA ;;
  write_text true METADATA (virtual_browser_metadata vmname sent_size).

(** *** The locking discipline, read off a trace *)

(** Scanning the events oldest first from a state in which the lock is
    [held] or not: every truncation and every write happens while the lock
    is held. *)
Fixpoint writes_under_lock (held : bool) (events : list io_event) : bool :=
  match events with
  | [] => true
  | EvLockEx :: rest => writes_under_lock true rest
  | EvLockUn :: rest => writes_under_lock false rest
  | EvTruncate _ :: rest | EvWrite _ _ :: rest => held && writes_under_lock held rest
  | _ :: rest => writes_under_lock held rest
  end.

(** The events a computation adds to the trace, oldest first. *)
Definition emitted {A} (m : M A) (w : world) : list io_event :=
  let w' := snd (m w) in
  rev (firstn (List.length (trace w') - List.length (trace w)) (trace w')).

Definition lock_acquisitions (w : world) : nat :=
  List.length (filter (fun e => match e with EvLockEx => true | _ => false end)
                      (trace w)).

Definition last_notify (w : world) : option (string * option string) :=
  match trace w with
  | EvNotify body icon :: _ => Some (body, icon)
  | _ => None
  end.

Definition notifications (w : world) : list io_event :=
  filter (fun e => match e with EvNotify _ _ => true | _ => false end) (trace w).

(** ** The data model of the specification, related to the dicts of the code *)

(** TransferMetadata, field by field as the specification lists it.  The
    code never builds such a record: it passes a dict around. *)
Record TransferMetadata : Type := mkMetadata {
  vmname : string;
  copy_action : bool;
  paste_action : bool;
  successful : bool;
  malformed_request : bool;
  cleared : bool;
  qrexec_clipboard : bool;
  oversized_request : bool;
  sent_size : Z;
  buffer_size : Z;
  protocol_version_xside : option Z;
  protocol_version_vmside : option Z
}.

(** A flag is stored as a bool (legacy branch) or as 0/1 (the producers of
    the structured file). *)
Definition flag_is (v : val) (b : bool) : bool :=
  match v with
  | PyBool x => Bool.eqb x b
  | PyInt z => Bool.eqb (negb (z =? 0)) b
  | _ => false
  end.

Definition int_is (v : val) (z : Z) : bool :=
  match v with PyInt x => x =? z | _ => false end.

Definition str_is (v : val) (s : string) : bool :=
  match v with PyStr x => String.eqb x s | _ => false end.

Definition field_is {A} (check : val -> A -> bool) (d : dict) (k : string) (a : A)
  : bool :=
  match dict_get k d with
  | Some v => check v a
  | None => false
  end.

Definition optional_is {A} (check : val -> A -> bool) (d : dict) (k : string)
  (a : option A) : bool :=
  match dict_get k d, a with
  | Some v, Some x => check v x
  | None, None => true
  | _, _ => false
  end.

(** The dict [md] carries exactly the record [r]. *)
Definition represents (md : val) (r : TransferMetadata) : bool :=
  match md with
  | PyDict d =>
      field_is str_is d "vmname" (vmname r)
      && field_is flag_is d "copy_action" (copy_action r)
      && field_is flag_is d "paste_action" (paste_action r)
      && field_is flag_is d "successful" (successful r)
      && field_is flag_is d "malformed_request" (malformed_request r)
      && field_is flag_is d "cleared" (cleared r)
      && field_is flag_is d "qrexec_clipboard" (qrexec_clipboard r)
      && field_is flag_is d "oversized_request" (oversized_request r)
      && field_is int_is d "sent_size" (sent_size r)
      && field_is int_is d "buffer_size" (buffer_size r)
      && optional_is int_is d "protocol_version_xside" (protocol_version_xside r)
      && optional_is int_is d "protocol_version_vmside" (protocol_version_vmside r)
  | _ => false
  end.

Definition set_optional (k : string) (o : option Z) (d : dict) : dict :=
  match o with Some z => dict_set k (PyInt z) d | None => d end.

(** One dict that carries [r], with the flags as bools. *)
Definition to_dict (r : TransferMetadata) : val :=
  PyDict
    (set_optional "protocol_version_vmside" (protocol_version_vmside r)
    (set_optional "protocol_version_xside" (protocol_version_xside r)
      [("vmname", PyStr (vmname r));
       ("copy_action", PyBool (copy_action r));
       ("paste_action", PyBool (paste_action r));
       ("successful", PyBool (successful r));
       ("malformed_request", PyBool (malformed_request r));
       ("cleared", PyBool (cleared r));
       ("qrexec_clipboard", PyBool (qrexec_clipboard r));
       ("oversized_request", PyBool (oversized_request r));
       ("sent_size", PyInt (sent_size r));
       ("buffer_size", PyInt (buffer_size r))])).

(** [z] is below 2^1023: its conversion to a double cannot overflow. *)
Definition float_range (z : Z) : bool := Z.log2 z <? 1023.

Definition node_size (n : node) : Z :=
  match n with
  | RegFile _ _ c => Z.of_nat (String.length c)
  | Special _ k => k
  end.

(** File sizes are [off_t] values, far below that bound. *)
Definition payload_size_ok (w : world) : bool :=
  match files w DATA with
  | Some n => float_range (node_size n)
  | None => true
  end.

(** What [clipboard_formatted_size] prints for a known [file_size]. *)
Definition size_text (file_size : Z) : string :=
  let formatted_bytes :=
    if file_size =? 1 then "1 byte" else str_of_Z file_size ++ " bytes" in
  if (0 <? file_size) && (0 <? magnitude_of file_size) then
    match float_of_int file_size with
    | Ok x =>
        formatted_bytes ++ " ("
          ++ percent_1f x (Z.shiftl 1 (10 * magnitude_of file_size)) ++ " "
          ++ nth (Z.to_nat (magnitude_of file_size)) units "" ++ ")"
    | _ => formatted_bytes
    end
  else formatted_bytes.

(** What it prints for the argument [size]: a zero is taken for "no size
    given" and the payload file is measured instead. *)
Definition size_shown (w : world) (size : Z) : string :=
  if size =? 0 then
    match files w DATA with
    | Some n => size_text (node_size n)
    | None => "? bytes"
    end
  else size_text size.

(** The rows of the copy table in the order the code tests them. *)
Definition copy_case (r : TransferMetadata) : nat :=
  if malformed_request r then 1
  else if qrexec_clipboard r && (buffer_size r <=? sent_size r) then 2
  else if oversized_request r then 3
  else if successful r && cleared r && (sent_size r =? 0) then 4
  else if negb (successful r) then 5
  else 6.

Definition copy_base (w : world) (r : TransferMetadata) : res string * string :=
  let vm := ("vmname", PyStr (vmname r)) in
  let size := ("size", PyStr (size_shown w (sent_size r))) in
  match copy_case r with
  | 1 => (format ERROR_MALFORMED_DATA [vm], "dialog-error")
  | 2 => (format WARNING_POSSIBLE_TRUNCATION [vm; size], "dialog-warning")
  | 3 => (format ERROR_OVERSIZED_DATA
            [vm; size; ("limit", PyStr (size_shown w (buffer_size r)))],
          "dialog-error")
  | 4 => (format WARNING_EMPTY_CLIPBOARD [vm], "dialog-warning")
  | 5 => (format ERROR_ON_COPY [vm], "dialog-error")
  | _ => (format MSG_COPY_SUCCESS
            [vm; size; ("shortcut", PyStr (paste_shortcut w))],
          "dialog-information")
  end%nat.

(** The rows of the paste table. *)
Definition paste_case (r : TransferMetadata) : nat :=
  if negb (successful r) || malformed_request r then 1
  else match protocol_version_xside r with
       | Some version => if 65544 <=? version then 2 else 3
       | None => 3
       end.

Definition paste_base (w : world) (r : TransferMetadata) : res string * string :=
  let vm := ("vmname", PyStr (vmname r)) in
  match paste_case r with
  | 1 => (rbind (format ERROR_ON_PASTE [vm]) (fun b => Ok (b ++ MSG_WIPED)),
          "dialog-error")
  | 2 => (format MSG_PASTE_SUCCESS_METADATA
            [("size", PyStr (size_shown w (sent_size r))); vm],
          "dialog-information")
  | _ => (Ok MSG_PASTE_SUCCESS_LEGACY, "dialog-information")
  end%nat.

Definition copy_label (w : world) (r : TransferMetadata) : string :=
  if String.eqb (vmname r) "" then "<i>Global clipboard is empty</i>"
  else "<i>Global clipboard contents: " ++ size_shown w (sent_size r)
         ++ " from <b>" ++ vmname r ++ "</b></i>".

(** Which branch of the decoder a state of the staging directory selects;
    [None] when the test itself raises (metadata file without payload). *)
Definition decode_mode (w : world) : option bool :=
  match files w METADATA with
  | Some (RegFile m _ _) =>
      match files w DATA with
      | Some (RegFile d _ _) | Some (Special d _) => Some (d <=? m)
      | None => None
      end
  | _ => Some false
  end.

(** The record the specification asks the legacy branch to synthesise from
    the first line of the source file and the size of the payload. *)
Definition legacy_record (vm : string) (size : Z) : TransferMetadata :=
  let copy := negb (String.eqb vm "") in
  mkMetadata vm copy (String.eqb vm "")
             (negb (copy && (size =? 0)))     (* successful *)
             false                            (* malformed_request *)
             (size =? 0)                      (* cleared *)
             false                            (* qrexec_clipboard *)
             (65000 <=? size)                 (* oversized_request *)
             size 65000 None None.

(** What [represents] asserts, field by field, in the form the proofs use:
    the lookups the classifier makes and the truth value of each flag. *)
Record carried (d : dict) (r : TransferMetadata) : Prop := {
  c_vmname : dict_get "vmname" d = Some (PyStr (vmname r));
  c_copy : exists v, dict_get "copy_action" d = Some v /\ truthy v = copy_action r;
  c_paste : exists v, dict_get "paste_action" d = Some v /\ truthy v = paste_action r;
  c_successful : exists v, dict_get "successful" d = Some v /\ truthy v = successful r;
  c_malformed :
    exists v, dict_get "malformed_request" d = Some v /\ truthy v = malformed_request r;
  c_cleared : exists v, dict_get "cleared" d = Some v /\ truthy v = cleared r;
  c_qrexec :
    exists v, dict_get "qrexec_clipboard" d = Some v /\ truthy v = qrexec_clipboard r;
  c_oversized :
    exists v, dict_get "oversized_request" d = Some v /\ truthy v = oversized_request r;
  c_sent : dict_get "sent_size" d = Some (PyInt (sent_size r));
  c_buffer : dict_get "buffer_size" d = Some (PyInt (buffer_size r));
  c_xside :
    dict_get "protocol_version_xside" d
    = match protocol_version_xside r with Some z => Some (PyInt z) | None => None end
}.

(** *** States of the staging directory on which a pass cannot raise *)




(** The world while the lock is held, and once it has been released. *)
Definition locked (w : world) : world := log EvLockEx (set_lock_held true w).
Definition released (w : world) : world :=
  log EvLockUn (set_lock_held false (locked w)).

(** *** Computations that only touch the presentation side *)

Definition add_trace (delta : list io_event) (w : world) : world :=
  mkWorld (files w) (can_write w) (lock_openable w) (now w) (lock_held w)
          (paste_shortcut w) (temporary_watch w) (watches w) (next_wd w)
          (loop_running w) (delta ++ trace w).

Definition is_ui (e : io_event) : bool :=
  match e with
  | EvLabel _ | EvNotify _ _ => true
  | _ => false
  end.

(** Whatever it returns or raises, [m] leaves the world as it found it but
    for labels and notifications added to the trace. *)
Definition quiet {A} (m : M A) : Prop :=
  forall w, exists delta,
    snd (m w) = add_trace delta w /\ forallb is_ui delta = true.



(** ** Concrete states used below *)

Definition staging (data metadata source : option node) : string -> option node :=
  fun p =>
    if String.eqb p DATA then data
    else if String.eqb p METADATA then metadata
    else if String.eqb p FROM then source
    else if String.eqb p FROM_DIR then Some (Special 0 4096)
    else None.

Definition world_with (fs : string -> option node) : world :=
  mkWorld fs (fun _ => true) true 100 false "Ctrl+Shift+V" None [] 1 true [].

Fixpoint replicate (n : nat) (c : ascii) : string :=
  match n with
  | O => ""
  | S n' => String c (replicate n' c)
  end.

(** An empty payload, no metadata file, source file naming [work]. *)
Definition wiped_world : world :=
  world_with (staging (Some (RegFile 10 true ""))
                      None
                      (Some (RegFile 10 true ("work" ++ nl)))).

(** A payload of 42 bytes from [work], with a metadata file left over from
    an earlier transfer (older than the payload). *)
Definition legacy_world : world :=
  world_with (staging (Some (RegFile 20 true (replicate 42 "x")))
                      (Some (RegFile 10 true "{}"))
                      (Some (RegFile 20 true ("work" ++ nl)))).

(** Well-formed structured metadata whose two action flags are both set. *)
Definition both_flags_metadata : string :=
  "{" ++ quoted "vmname" ++ ":" ++ quoted "work" ++ ","
      ++ quoted "copy_action" ++ ":1," ++ quoted "paste_action" ++ ":1,"
      ++ quoted "successful" ++ ":1," ++ quoted "malformed_request" ++ ":0,"
      ++ quoted "cleared" ++ ":0," ++ quoted "qrexec_clipboard" ++ ":0,"
      ++ quoted "oversized_request" ++ ":0," ++ quoted "sent_size" ++ ":42,"
      ++ quoted "buffer_size" ++ ":256000,"
      ++ quoted "protocol_version_xside" ++ ":65544,"
      ++ quoted "protocol_version_vmside" ++ ":65544}" ++ nl.

Definition both_flags_world : world :=
  world_with (staging (Some (RegFile 20 true (replicate 42 "x")))
                      (Some (RegFile 20 true both_flags_metadata))
                      (Some (RegFile 20 true ("work" ++ nl)))).

(** Structured metadata that is a JSON object without any field. *)
Definition no_fields_world : world :=
  world_with (staging (Some (RegFile 20 true (replicate 42 "x")))
                      (Some (RegFile 20 true "{}"))
                      (Some (RegFile 20 true ("work" ++ nl)))).



(** No payload file at all. *)
Definition no_files_world : world := world_with (staging None None None).

(** The widget was started before the source file existed (so it watches
    the directory), and the staging files have been created since. *)
Definition started_early (data metadata source : option node) : world :=
  set_files (staging data metadata source)
            (snd (init_watch (world_with (staging None None None)))).

Definition unarmed_world : world :=
  started_early (Some (RegFile 20 true (replicate 42 "x")))
                None
                (Some (RegFile 20 true ("work" ++ nl))).

Definition unarmed_no_fields_world : world :=
  started_early (Some (RegFile 20 true (replicate 42 "x")))
                (Some (RegFile 20 true "{}"))
                (Some (RegFile 20 true ("work" ++ nl))).

(** A copy of nothing that cleared the clipboard (row 4 of the table). *)
Definition empty_copy : TransferMetadata :=
  mkMetadata "work" true false true false true false false 0 65000 None None.

(** The same over the qrexec channel with a zero-sized buffer. *)
Definition empty_qrexec_copy : TransferMetadata :=
  mkMetadata "work" true false true false true true false 0 0 None None.

(** A payload of 42 bytes and a source file holding an empty line. *)
Definition legacy_paste_world : world :=
  world_with (staging (Some (RegFile 20 true (replicate 42 "x")))
                      None
                      (Some (RegFile 20 true nl))).

(** A malformed request with every other flag against it as well. *)
Definition malformed_copy : TransferMetadata :=
  mkMetadata "work" true false false true true true true 7 3 None None.

(** A paste reported by a daemon that speaks protocol 1.8. *)
Definition modern_paste : TransferMetadata :=
  mkMetadata "work" false true true false true false false 42 256000
             (Some 65544) (Some 65544).

(** A metadata file that holds one byte outside ASCII. *)
Definition latin1_world : world :=
  world_with (staging (Some (RegFile 20 true "x"))
                      (Some (RegFile 20 true (String "233" "")))
                      (Some (RegFile 20 true ("work" ++ nl)))).

(** *** Computations that only write staging files *)

Definition is_write (e : io_event) : bool :=
  match e with
  | EvTruncate _ | EvWrite _ _ => true
  | _ => false
  end.

(** Whatever it returns or raises, [m] adds only truncations and writes
    to the trace, leaves the lock alone, and stays within what is
    modelled. *)
Definition writer {A} (m : M A) : Prop :=
  forall w, exists delta,
    trace (snd (m w)) = (delta ++ trace w)%list /\
    forallb is_write delta = true /\
    lock_held (snd (m w)) = lock_held w /\
    fst (m w) <> Unmodelled.

(** The permission bits a file keeps when it is truncated. *)
Definition readable_at (w : world) (p : string) : bool :=
  match files w p with
  | Some (RegFile _ r _) => r
  | _ => true
  end.

(** [p] holds [text], written now. *)
Definition put (p text : string) (w : world) : world :=
  set_files (fun q => if String.eqb q p
                      then Some (RegFile (now w) (readable_at w p) text)
                      else files w q) w.

(** The world after [with open(p, "w") as f: f.write(text)] went through. *)
Definition written (p text : string) (w : world) : world :=
  log (EvWrite p text) (put p text (log (EvTruncate p) (put p "" w))).

(** [open(p, "w")] would succeed. *)
Definition writable (w : world) (p : string) : bool :=
  can_write w p &&
  match files w p with
  | Some (Special _ _) => false
  | _ => true
  end.

Definition content_of (w : world) (p : string) : option string :=
  match files w p with
  | Some (RegFile _ _ c) => Some c
  | _ => None
  end.

(** The lock file cannot be opened (a read-only [/var/run/qubes], say). *)
Definition no_lock_world : world :=
  mkWorld (staging None None None) (fun _ => true) false 100 false
          "Ctrl+Shift+V" None [] 1 true [].

(** Every character of [s] satisfies [f]. *)
Fixpoint string_forall (f : ascii -> bool) (s : string) : bool :=
  match s with
  | "" => true
  | String c r => f c && string_forall f r
  end.

(** A character of a decimal literal: a digit or the minus sign. *)
Definition is_decimal_char (c : ascii) : bool :=
  Json.is_digit c || Ascii.eqb c "-".

(** The world once [copy_dom0_clipboard] has written all four files. *)
Definition dom0_copied (text : string) (event_time : Z) (w : world) : world :=
  log EvLockUn
    (set_lock_held false
       (written METADATA
                (dom0_metadata event_time (Z.of_nat (String.length text)))
          (written XEVENT (str_of_Z event_time)
             (written FROM "dom0"
                (written DATA text (locked w)))))).


(** ** Shortcuts and the menu: [_prettify_shortcut], [setup_ui] *)

Definition COPY_FEATURE : string := "gui-default-secure-copy-sequence".
Definition PASTE_FEATURE : string := "gui-default-secure-paste-sequence".

(** [s.split(sep)] for a separator of one character. *)
Fixpoint split_on (sep : ascii) (s : string) : list string :=
  match s with
  | "" => [""]
  | String c r =>
      if Ascii.eqb c sep then "" :: split_on sep r
      else match split_on sep r with
           | p :: ps => String c p :: ps
           | [] => [String c ""]
           end
  end.

(** [sep.join(parts)] *)
Fixpoint join (sep : string) (parts : list string) : string :=
  match parts with
  | [] => ""
  | [p] => p
  | p :: rest => p ++ sep ++ join sep rest
  end.

(** [c.upper()] for an ASCII character. *)
Definition upper_ascii (c : ascii) : ascii :=
  let n := N_of_ascii c in
  if (97 <=? n)%N && (n <=? 122)%N then ascii_of_N (n - 32) else c.

(** [len(key) == 1] counts characters and [upper] follows Unicode, so a
    key with a byte outside ASCII is left unmodelled. *)
Definition _convert_to_readable (key : string) : res string :=
  if String.eqb key "Mod4" then Ok "Win"
  else if String.eqb key "Ins" then Ok "Insert"
  else if negb (all_ascii key) then Unmodelled
  else match key with
       | String c "" => Ok (String (upper_ascii c) "")
       | _ => Ok key
       end.

(** The list comprehension: the parts are converted from left to right. *)
Fixpoint convert_all (parts : list string) : res (list string) :=
  match parts with
  | [] => Ok []
  | p :: rest =>
      rbind (_convert_to_readable p) (fun p' =>
      rbind (convert_all rest) (fun rest' => Ok (p' :: rest')))
  end.

Definition _prettify_shortcut (shortcut : string) : res string :=
  rbind (convert_all (split_on "-" shortcut)) (fun parts => Ok (join "+" parts)).

Definition set_paste_shortcut (s : string) (w : world) : world :=
  mkWorld (files w) (can_write w) (lock_openable w) (now w) (lock_held w)
          s (temporary_watch w) (watches w) (next_wd w)
          (loop_running w) (trace w).

(** [features.get(name, default)] *)
Definition feature_or (default : string) (value : option string) : string :=
  match value with Some v => v | None => default end.

(** [NotificationApp.setup_ui].  The arguments are the two features of
    the GUI domain, [None] when unset.  [copy_shortcut] is read nowhere
    else and stays local; the result is the markup given to the help
    label of the menu that is built. *)
Definition setup_ui (copy_feature paste_feature : option string) : M string :=
  copy_shortcut <- lift (_prettify_shortcut (feature_or "Ctrl-Shift-C" copy_feature)) ;;
  paste <- lift (_prettify_shortcut (feature_or "Ctrl-Shift-V" paste_feature)) ;;
  (fun w => (Ok tt, set_paste_shortcut paste w)) ;;;
  update_clipboard_contents PyNone (PyInt 0) None None ;;;
  lift (format "<i>Use <b>{copy}</b> to copy and <b>{paste}</b> to paste.</i>"
               [("copy", PyStr copy_shortcut); ("paste", PyStr paste)]).

Fixpoint has_char (c : ascii) (s : string) : bool :=
  match s with
  | "" => false
  | String x r => Ascii.eqb x c || has_char c r
  end.

(** A part of a shortcut: ASCII and without a dash. *)
Definition plain_part (p : string) : Prop :=
  all_ascii p = true /\ has_char "-" p = false.

(** ** The virtual browser: which action is taken for a URL *)

Module VirtualBrowser.

(** The three buttons of the dialog; the first carries the name of the
    DispVM template selected in the combo box. *)
Inductive button : Type :=
| button_disposable (template : string)
| button_clipboard
| button_discard.

(** What [main] ends up doing with the URL. *)
Inductive outcome : Type :=
| OpenInDvm (url dvm : string)          (* [_open_url_in_dvm] *)
| CopyToClipboard (url vmname : string) (* [_copy_to_global_clipboard] *)
| Nothing.

(** [s.startswith(prefix)] *)
Definition startswith (prefix s : string) : bool := String.prefix prefix s.

(** [QubesVirtualBrowser.take_action]: the action chosen and the value of
    the feature [virtual-browser-action] afterwards, which is overwritten
    when "save as default" is ticked. *)
Definition take_action (pressed : button) (save_default : bool)
  (feature : option string) : string * option string :=
  let action :=
    match pressed with
    | button_disposable template => "disposable:" ++ template
    | button_clipboard => "clipboard"
    | button_discard => "discard"
    end in
  (action, if save_default then Some action else feature).

(** The condition under which [main] shows the dialog. *)
Definition asks (ask : bool) (action : string) (domains : list string) : bool :=
  ask ||
  (negb (String.eqb action "clipboard" || String.eqb action "discard")
   && negb (startswith "disposable:" action
            && existsb (String.eqb (Json.drop 11 action)) domains)).

(** [main], once the arguments are parsed.  [feature] is the value of
    [virtual-browser-action] of the local qube, [domains] the names of
    the qubes, [user] what the user does with the dialog should it be
    shown: a button and the state of the check box, or [None] for closing
    the window, which leaves the initial action "discard". *)
Definition main (ask : bool) (url : string) (feature : option string)
  (domains : list string) (local_name : string)
  (user : option (button * bool)) : outcome * option string :=
  let action := match feature with Some v => v | None => "" end in
  let '(action, feature') :=
    if asks ask action domains then
      match user with
      | Some (pressed, save_default) => take_action pressed save_default feature
      | None => ("discard", feature)
      end
    else (action, feature) in
  (if startswith "disposable:" action then OpenInDvm url (Json.drop 11 action)
   else if String.eqb action "clipboard" then CopyToClipboard url local_name
   else Nothing,
   feature').

(** What pressing a button is meant to do with the URL. *)
Definition intended (pressed : button) (url local_name : string) : outcome :=
  match pressed with
  | button_disposable template => OpenInDvm url template
  | button_clipboard => CopyToClipboard url local_name
  | button_discard => Nothing
  end.

End VirtualBrowser.

(** [s] holds no line end. *)
Definition no_line_end (s : string) : bool :=
  string_forall (fun c => negb (Ascii.eqb c "010") && negb (Ascii.eqb c "013")) s.


(** A paste and a copy whose [sent_size] no double can hold. *)
Definition huge_paste : TransferMetadata :=
  mkMetadata "work" false true true false true false false (2 ^ 1024) 256000
             (Some 65544) (Some 65544).

Definition huge_copy : TransferMetadata :=
  mkMetadata "work" true false true false true false false (2 ^ 1024) 256000
             (Some 65544) (Some 65544).

(** A source file whose first line is followed by more. *)
Definition two_line_world : world :=
  world_with (staging (Some (RegFile 20 true (replicate 42 "x")))
                      None
                      (Some (RegFile 20 true ("work" ++ nl ++ "other" ++ nl)))).






(** The text [take_action] stores for a button. *)
Definition action_text (pressed : VirtualBrowser.button) : string :=
  match pressed with
  | VirtualBrowser.button_disposable template => "disposable:" ++ template
  | VirtualBrowser.button_clipboard => "clipboard"
  | VirtualBrowser.button_discard => "discard"
  end.

(** ** The menu dismisser: [X11FullscreenWindowHackXWayland] of
       [qui/tray/gtk3_xwayland_menu_dismisser.py] *)

Module Dismisser.

Inductive signal : Type := Map | Unmap.

(** What can go wrong: the two Python exceptions of the class, and the
    disconnection of a handler that is not connected, which GObject leaves
    undefined. *)
Inductive error : Type :=
| AssertionError
| AttributeError
| DoubleDisconnect.

(** Widgets are told apart by a number.  [handlers] are the connections
    GObject holds: widget, handler id, signal, newest first.  [next_id]
    is the id the next [connect] returns; GObject hands out positive ids
    and never one twice. *)
Record state : Type := mkState {
  _widget : option nat;
  _map_signal_id : Z;
  _unmap_signal_id : Z;
  handlers : list (nat * Z * signal);
  next_id : Z;
  window_shown : bool
}.

(** The object as [__init__] leaves it; [first_id] is the id GObject
    will hand out next, whatever was connected before. *)
Definition init (first_id : Z) : state := mkState None 0 0 [] first_id false.

Definition connected (widget : nat) (id : Z) (s : state) : bool :=
  existsb (fun h => Nat.eqb (fst (fst h)) widget && Z.eqb (snd (fst h)) id)
          (handlers s).

(** [widget.connect(signal, handler)] *)
Definition connect (widget : nat) (sig : signal) (s : state) : Z * state :=
  (next_id s,
   mkState (_widget s) (_map_signal_id s) (_unmap_signal_id s)
           ((widget, next_id s, sig) :: handlers s) (next_id s + 1)
           (window_shown s)).

(** [widget.disconnect(id)] *)
Definition disconnect (widget : nat) (id : Z) (s : state) : option error * state :=
  if connected widget id s then
    (None,
     mkState (_widget s) (_map_signal_id s) (_unmap_signal_id s)
             (filter (fun h => negb (Nat.eqb (fst (fst h)) widget
                                     && Z.eqb (snd (fst h)) id))
                     (handlers s))
             (next_id s) (window_shown s))
  else (Some DoubleDisconnect, s).

Definition set_widget (w : option nat) (s : state) : state :=
  mkState w (_map_signal_id s) (_unmap_signal_id s) (handlers s) (next_id s)
          (window_shown s).

Definition set_map_signal_id (id : Z) (s : state) : state :=
  mkState (_widget s) id (_unmap_signal_id s) (handlers s) (next_id s)
          (window_shown s).

Definition set_unmap_signal_id (id : Z) (s : state) : state :=
  mkState (_widget s) (_map_signal_id s) id (handlers s) (next_id s)
          (window_shown s).

Definition set_window_shown (b : bool) (s : state) : state :=
  mkState (_widget s) (_map_signal_id s) (_unmap_signal_id s) (handlers s)
          (next_id s) b.

(** A method either runs to its end or stops at an error, with the
    state it has reached. *)
Definition andthen (r : option error * state)
  (k : state -> option error * state) : option error * state :=
  match r with
  | (None, s) => k s
  | failed => failed
  end.

Definition clear_widget (s : state) : option error * state :=
  let widget := _widget s in
  let map_signal_id := _map_signal_id s in
  let unmap_signal_id := _unmap_signal_id s in
  andthen
    (match widget with
     | Some w =>
         andthen
           (if negb (map_signal_id =? 0)
            then disconnect w map_signal_id (set_map_signal_id 0 s)
            else (None, s))
           (fun s =>
              if negb (unmap_signal_id =? 0)
              then disconnect w unmap_signal_id (set_unmap_signal_id 0 s)
              else (None, s))
     | None => (None, s)
     end)
    (fun s => (None, set_widget None s)).

Definition show_for_widget (widget : nat) (s : state) : option error * state :=
  andthen (clear_widget s) (fun s =>
    let s := set_widget (Some widget) s in
    let '(id, s) := connect widget Unmap s in
    let s := set_unmap_signal_id id s in
    let '(id, s) := connect widget Map s in
    (None, set_map_signal_id id s)).

Definition is_current (widget : nat) (s : state) : bool :=
  match _widget s with
  | Some w => Nat.eqb w widget
  | None => false
  end.

Definition _show (widget : nat) (s : state) : option error * state :=
  if is_current widget s then (None, set_window_shown true s)
  else (Some AssertionError, s).

Definition _hide (widget : nat) (s : state) : option error * state :=
  if is_current widget s then (None, set_window_shown false s)
  else (Some AssertionError, s).

(** The window is hidden first; [self._widget.hide()] then fails when no
    widget is set.  (Hiding the widget makes GTK emit its unmap signal,
    which is an event of its own below.) *)
Definition on_button_press (s : state) : option error * state :=
  let s := set_window_shown false s in
  match _widget s with
  | Some _ => (None, s)
  | None => (Some AttributeError, s)
  end.

(** GTK emits [sig] on [widget]: every handler connected to it for that
    signal is called, the newest connection last; an exception in one is
    reported and does not stop the others. *)
Fixpoint emit_to (hs : list (nat * Z * signal)) (sig : signal) (widget : nat)
  (s : state) : list error * state :=
  match hs with
  | [] => ([], s)
  | (w, _, sg) :: rest =>
      let '(errors, s) := emit_to rest sig widget s in
      if Nat.eqb w widget
         && match sg, sig with Map, Map | Unmap, Unmap => true | _, _ => false end
      then
        let '(e, s) := match sig with
                       | Map => _show widget s
                       | Unmap => _hide widget s
                       end in
        (errors ++ match e with Some x => [x] | None => [] end, s)%list
      else (errors, s)
  end.

(** What happens to the object: calls of its two public methods, signals
    of any widget, clicks on the window. *)
Inductive event : Type :=
| ShowForWidget (widget : nat)
| ClearWidget
| Emit (sig : signal) (widget : nat)
| Click.

Definition report (r : option error * state) : list error * state :=
  (match fst r with Some e => [e] | None => [] end, snd r).

Definition step (s : state) (e : event) : list error * state :=
  match e with
  | ShowForWidget w => report (show_for_widget w s)
  | ClearWidget => report (clear_widget s)
  | Emit sig w => emit_to (handlers s) sig w s
  | Click => report (on_button_press s)
  end.

(** The errors reported along a run, oldest first, and the last state. *)
Fixpoint run (events : list event) (s : state) : list error * state :=
  match events with
  | [] => ([], s)
  | e :: rest =>
      let '(errors, s1) := step s e in
      let '(more, s2) := run rest s1 in
      ((errors ++ more)%list, s2)
  end.

(** The connections are exactly those of the current widget. *)
Definition consistent (s : state) : Prop :=
  0 < next_id s /\
  match _widget s with
  | None => handlers s = [] /\ _map_signal_id s = 0 /\ _unmap_signal_id s = 0
  | Some w =>
      handlers s = [(w, _map_signal_id s, Map); (w, _unmap_signal_id s, Unmap)] /\
      0 < _unmap_signal_id s < _map_signal_id s /\
      _map_signal_id s < next_id s
  end.

End Dismisser.

(** * Properties *)

(** ** Evaluation on small inputs *)

Example format_example :
  format ("{{a}} <b>{vmname}</b> {n}") [("vmname", PyStr "work"); ("n", PyInt 42)]
  = Ok "{a} <b>work</b> 42".
Proof. reflexivity. Qed.

Example str_of_Z_examples :
  (str_of_Z 0, str_of_Z 65544, str_of_Z (-5)) = ("0", "65544", "-5").
Proof. reflexivity. Qed.

Example loads_examples :
  Json.loads ("{ " ++ quoted "a" ++ ": 1, " ++ quoted "b" ++ " : [true, null, -20] }" ++ nl)
  = Ok (PyDict [("a", PyInt 1); ("b", PyList [PyBool true; PyNone; PyInt (-20)])])
  /\ Json.loads ("{" ++ quoted "a" ++ ":1,}") = Raise JSONDecodeError
  /\ Json.loads "{}" = Ok (PyDict [])
  /\ Json.loads "01" = Raise JSONDecodeError
  /\ Json.loads "1.5" = Unmodelled
  /\ Json.loads ("{" ++ quoted "a" ++ ":1," ++ quoted "a" ++ ":2}") = Ok (PyDict [("a", PyInt 2)]).
Proof. repeat split; reflexivity. Qed.

(** Closed statements are settled by evaluation, conjunct by conjunct. *)
Ltac evaluate :=
  repeat match goal with |- _ /\ _ => split end;
  vm_compute; repeat split.

(** ** The monad *)

Lemma bind_ok {A B} (m : M A) (k : A -> M B) (w w' : world) (a : A) :
  m w = (Ok a, w') -> bind m k w = k a w'.
Proof. intros H. unfold bind. now rewrite H. Qed.

Lemma bind_raise {A B} (m : M A) (k : A -> M B) (w w' : world) (e : exn) :
  m w = (Raise e, w') -> bind m k w = (Raise e, w').
Proof. intros H. unfold bind. now rewrite H. Qed.

(** ** Size formatting *)

Lemma float_of_int_ok (n : Z) :
  0 < n -> Z.log2 n < 1023 -> exists x, float_of_int n = Ok x.
Proof.
  intros Hpos Hlog. unfold float_of_int.
  destruct (Z.log2 n + 1 <=? 53) eqn:Hbits; [now eexists|].
  apply Z.leb_gt in Hbits.
  set (sh := Z.log2 n + 1 - 53).
  set (q := Z.shiftr n sh).
  set (q' := if _ : bool then q + 1 else q).
  assert (Hsh : 0 < sh) by (unfold sh; lia).
  assert (Hq : q < 2 ^ 53).
  { unfold q. rewrite Z.shiftr_div_pow2 by lia.
    apply Z.div_lt_upper_bound; [apply Z.pow_pos_nonneg; lia|].
    rewrite <- Z.pow_add_r by lia.
    replace (sh + 53) with (Z.succ (Z.log2 n)) by (unfold sh; lia).
    apply Z.log2_spec; lia. }
  assert (Hq' : q' <= 2 ^ 53) by (unfold q'; destruct (_ || _); lia).
  assert (Hv : Z.shiftl q' sh <= 2 ^ 1023).
  { rewrite Z.shiftl_mul_pow2 by lia.
    apply Z.le_trans with (2 ^ 53 * 2 ^ sh).
    - apply Z.mul_le_mono_nonneg_r; [apply Z.pow_nonneg; lia | exact Hq'].
    - rewrite <- Z.pow_add_r by lia. apply Z.pow_le_mono_r; unfold sh; lia. }
  assert (H1024 : 2 ^ 1023 < Z.shiftl 1 1024).
  { rewrite Z.shiftl_mul_pow2, Z.mul_1_l by lia.
    apply Z.pow_lt_mono_r; lia. }
  destruct (Z.shiftl 1 1024 <=? Z.shiftl q' sh) eqn:Hov; [|now eexists].
  apply Z.leb_le in Hov. lia.
Qed.

Lemma formatted_size_of_int (w : world) (k : Z) :
  (0 < k -> Z.log2 k < 1023) ->
  (positive <- lift (py_gt (PyInt k) (PyInt 0)) ;;
   if positive : bool then
     n <- lift (number_of (PyInt k)) ;;
     let magnitude := magnitude_of n in
     if 0 <? magnitude then
       x <- lift (float_of_int n) ;;
       fb <- lift (if py_eq (PyInt k) (PyInt 1) then Ok "1 byte"
                   else rbind (py_str (PyInt k)) (fun s => Ok (s ++ " bytes"))) ;;
       ret (fb ++ " (" ++ percent_1f x (Z.shiftl 1 (10 * magnitude)) ++ " "
               ++ nth (Z.to_nat magnitude) units "" ++ ")")
     else lift (if py_eq (PyInt k) (PyInt 1) then Ok "1 byte"
                else rbind (py_str (PyInt k)) (fun s => Ok (s ++ " bytes")))
   else lift (if py_eq (PyInt k) (PyInt 1) then Ok "1 byte"
              else rbind (py_str (PyInt k)) (fun s => Ok (s ++ " bytes")))) w
  = (Ok (size_text k), w).
Proof.
  intros Hrange. unfold size_text, bind, lift, py_gt, py_cmp, rbind, number_of, ret.
  cbn [py_eq py_str].
  assert (Hgt : match k ?= 0 with Gt => true | _ => false end = (0 <? k)).
  { rewrite Z.ltb_antisym. unfold Z.leb. now destruct (k ?= 0). }
  rewrite Hgt.
  destruct (0 <? k) eqn:Hpos; cbn [andb].
  - apply Z.ltb_lt in Hpos.
    destruct (0 <? magnitude_of k); [|now destruct (k =? 1)].
    destruct (float_of_int_ok k Hpos (Hrange Hpos)) as [x ->].
    now destruct (k =? 1).
  - now destruct (k =? 1).
Qed.

Lemma clipboard_formatted_size_int (w : world) (n : Z) :
  (n = 0 -> payload_size_ok w = true) ->
  (0 < n -> Z.log2 n < 1023) ->
  clipboard_formatted_size (PyInt n) w = (Ok (size_shown w n), w).
Proof.
  intros Hfile Hrange. unfold clipboard_formatted_size, size_shown.
  cbn [truthy]. destruct (n =? 0) eqn:Hz; cbn [negb].
  - apply Z.eqb_eq in Hz. specialize (Hfile Hz).
    unfold payload_size_ok in Hfile.
    unfold bind at 1. unfold except_OSError, bind, getsize, ret.
    destruct (files w DATA) as [node|] eqn:Hdata; [|reflexivity].
    unfold float_range in Hfile. apply Z.ltb_lt in Hfile as Hlog.
    destruct node; cbn [node_size] in *;
      apply formatted_size_of_int; intros _; exact Hlog.
  - unfold bind at 1. unfold except_OSError, ret.
    apply formatted_size_of_int. exact Hrange.
Qed.

(** ** Dicts that carry a record *)

Lemma bind_ret {A B} (a : A) (k : A -> M B) : bind (ret a) k = k a.
Proof. reflexivity. Qed.

Lemma item_ok (d : dict) (k : string) (v : val) :
  dict_get k d = Some v -> item (PyDict d) k = ret v.
Proof. intros H. unfold item, subscript. now rewrite H. Qed.

Lemma flag_truthy (v : val) (b : bool) : flag_is v b = true -> truthy v = b.
Proof.
  destruct v; cbn; try discriminate; intros H; now apply Bool.eqb_prop in H.
Qed.

Lemma field_flag (d : dict) (k : string) (b : bool) :
  field_is flag_is d k b = true ->
  exists v, dict_get k d = Some v /\ truthy v = b.
Proof.
  unfold field_is. destruct (dict_get k d) as [v|]; [|discriminate].
  intros H. exists v. split; [reflexivity | now apply flag_truthy].
Qed.

Lemma field_int (d : dict) (k : string) (z : Z) :
  field_is int_is d k z = true -> dict_get k d = Some (PyInt z).
Proof.
  unfold field_is. destruct (dict_get k d) as [[]|]; cbn; try discriminate.
  intros H. apply Z.eqb_eq in H. now subst.
Qed.

Lemma field_str (d : dict) (k : string) (s : string) :
  field_is str_is d k s = true -> dict_get k d = Some (PyStr s).
Proof.
  unfold field_is. destruct (dict_get k d) as [[]|]; cbn; try discriminate.
  intros H. apply String.eqb_eq in H. now subst.
Qed.

Lemma optional_int (d : dict) (k : string) (o : option Z) :
  optional_is int_is d k o = true ->
  dict_get k d = match o with Some z => Some (PyInt z) | None => None end.
Proof.
  unfold optional_is. destruct (dict_get k d) as [[]|], o; cbn; try discriminate;
    try reflexivity.
  intros H. apply Z.eqb_eq in H. now subst.
Qed.

Lemma represents_carried (md : val) (r : TransferMetadata) :
  represents md r = true -> exists d, md = PyDict d /\ carried d r.
Proof.
  destruct md as [| | | | |d]; try discriminate. cbn [represents].
  intros H. repeat (apply andb_prop in H as [H ?]).
  exists d. split; [reflexivity|].
  constructor; auto using field_flag, field_int, field_str, optional_int.
Qed.

Lemma format_vmname (tpl : string) (v : string) :
  In tpl [ERROR_MALFORMED_DATA; ERROR_ON_COPY; ERROR_ON_PASTE; WARNING_EMPTY_CLIPBOARD] ->
  exists b, format tpl [("vmname", PyStr v)] = Ok b.
Proof.
  intros [<-|[<-|[<-|[<-|[]]]]]; eexists; reflexivity.
Qed.

Lemma copy_base_ok (w : world) (r : TransferMetadata) :
  exists b, fst (copy_base w r) = Ok b.
Proof.
  unfold copy_base. destruct (copy_case r) as [|[|[|[|[|[|]]]]]]; eexists; reflexivity.
Qed.

(** ** The copy table *)

Lemma append_nonempty_r (a b : string) : b <> "" -> a ++ b <> "".
Proof. destruct a; cbn; [auto | discriminate]. Qed.

Lemma append_nonempty_l (a b : string) : a <> "" -> a ++ b <> "".
Proof. destruct a; cbn; [auto | discriminate]. Qed.

Lemma size_text_nonempty (k : Z) : size_text k <> "".
Proof.
  assert (H : (if k =? 1 then "1 byte" else str_of_Z k ++ " bytes") <> "").
  { destruct (k =? 1); [discriminate | apply append_nonempty_r; discriminate]. }
  unfold size_text. destruct (_ && _); [|exact H].
  destruct (float_of_int k); try exact H. now apply append_nonempty_l.
Qed.

Lemma size_shown_nonempty (w : world) (n : Z) : size_shown w n <> "".
Proof.
  unfold size_shown. destruct (n =? 0); [|apply size_text_nonempty].
  destruct (files w DATA); [apply size_text_nonempty | discriminate].
Qed.

Lemma py_ge_int (a b : Z) : py_ge (PyInt a) (PyInt b) = Ok (b <=? a).
Proof.
  unfold py_ge, py_cmp, rbind, Z.leb. rewrite (Z.compare_antisym a b).
  now destruct (a ?= b).
Qed.

Lemma float_range_log2 (z : Z) : float_range z = true -> Z.log2 z < 1023.
Proof. unfold float_range. apply Z.ltb_lt. Qed.

Ltac format_ok :=
  match goal with
  | |- context [format ?t ?a] =>
      let b := fresh "b" in
      let Hb := fresh "Hb" in
      let Hne := fresh "Hne" in
      assert (exists b, format t a = Ok b /\ b <> "") as (b & Hb & Hne)
        by (eexists; split; [reflexivity | discriminate]);
      rewrite Hb
  end.

Lemma update_copy (w : world) (r : TransferMetadata) (body icon : string) :
  body <> "" ->
  update_clipboard_contents (PyStr (vmname r)) (PyStr (size_shown w (sent_size r)))
                            (Some body) (Some icon) w
  = (Ok tt, log (EvNotify body (Some icon)) (log (EvLabel (copy_label w r)) w)).
Proof.
  intros Hbody. unfold update_clipboard_contents, copy_label. cbn [truthy].
  assert (Hb : String.eqb body "" = false) by now apply String.eqb_neq.
  destruct (String.eqb (size_shown w (sent_size r)) "") eqn:He;
    [apply String.eqb_eq in He; now apply size_shown_nonempty in He|].
  destruct (String.eqb (vmname r) "") eqn:Hvm; cbn [negb orb].
  - unfold bind, effect, send_notify, ret. now rewrite Hb.
  - unfold bind, effect, send_notify, ret, lift.
    assert (Hf : format "<i>Global clipboard contents: {0} from <b>{1}</b></i>"
                   [("0", PyStr (size_shown w (sent_size r))); ("1", PyStr (vmname r))]
                 = Ok ("<i>Global clipboard contents: " ++ size_shown w (sent_size r)
                        ++ " from <b>" ++ vmname r ++ "</b></i>")) by reflexivity.
    rewrite Hf. now rewrite Hb.
Qed.

Lemma _copy_table (md : val) (r : TransferMetadata) (w : world) :
  represents md r = true ->
  float_range (sent_size r) = true ->
  (copy_case r = 3%nat -> float_range (buffer_size r) = true) ->
  payload_size_ok w = true ->
  exists body,
    fst (copy_base w r) = Ok body /\
    _copy md w
    = (Ok tt,
       log (EvNotify (if cleared r then body ++ MSG_WIPED else body)
                     (Some (snd (copy_base w r))))
           (log (EvLabel (copy_label w r)) w)).
Proof.
  intros Hmd Hsent Hbuf Hpay.
  apply float_range_log2 in Hsent.
  destruct (represents_carried _ _ Hmd) as (d & -> & C). destruct C.
  destruct c_successful0 as (vs & Gs & Ts), c_malformed0 as (vm & Gm & Tm),
    c_cleared0 as (vc & Gc & Tc), c_qrexec0 as (vq & Gq & Tq),
    c_oversized0 as (vo & Go & To).
  unfold _copy.
  rewrite !(item_ok _ _ _ c_sent0), !(item_ok _ _ _ Gm), !(item_ok _ _ _ Gs),
    !(item_ok _ _ _ Gc), !(item_ok _ _ _ Gq), !(item_ok _ _ _ Go),
    !(item_ok _ _ _ c_vmname0), !(item_ok _ _ _ c_buffer0).
  cbv beta iota delta [bind ret].
  rewrite clipboard_formatted_size_int by auto.
  cbv beta iota. rewrite Tm, Tq, To, Ts, Tc. clear Tm Tq To Ts Tc.
  rewrite py_ge_int. cbn [py_eq].
  assert (Hfinish : forall b icon, b <> "" ->
            update_clipboard_contents (PyStr (vmname r))
              (PyStr (size_shown w (sent_size r)))
              (Some (if cleared r then b ++ MSG_WIPED else b)) (Some icon) w
            = (Ok tt,
               log (EvNotify (if cleared r then b ++ MSG_WIPED else b) (Some icon))
                   (log (EvLabel (copy_label w r)) w))).
  { intros b icon Hb. apply update_copy.
    destruct (cleared r); [now apply append_nonempty_l | exact Hb]. }
  revert Hbuf. unfold copy_base, copy_case.
  destruct (malformed_request r); intros Hbuf.
  { format_ok. exists b. split; [reflexivity|]. unfold lift. now apply Hfinish. }
  revert Hbuf.
  destruct (qrexec_clipboard r), (buffer_size r <=? sent_size r);
    unfold lift; cbn [andb]; intros Hbuf;
    try (format_ok; exists b; (split; [reflexivity|]); now apply Hfinish).
  all: revert Hbuf; destruct (oversized_request r); intros Hbuf.
  all: try (rewrite clipboard_formatted_size_int
              by (auto; intros _; apply float_range_log2; now apply Hbuf);
            format_ok; exists b; (split; [reflexivity|]); now apply Hfinish).
  all: destruct (successful r), (cleared r), (sent_size r =? 0); cbn [andb negb];
    format_ok; exists b; (split; [reflexivity|]); now apply Hfinish.
Qed.

(** ** The paste table *)

Lemma update_paste (w : world) (body icon : string) :
  body <> "" ->
  update_clipboard_contents PyNone (PyInt 0) (Some body) (Some icon) w
  = (Ok tt, log (EvNotify body (Some icon))
                (log (EvLabel "<i>Global clipboard is empty</i>") w)).
Proof.
  intros Hbody. apply String.eqb_neq in Hbody.
  unfold update_clipboard_contents, bind, effect, send_notify, ret. cbn [truthy negb orb].
  now rewrite Hbody.
Qed.

Lemma _paste_run (md : val) (r : TransferMetadata) (w : world) :
  represents md r = true ->
  (paste_case r = 2%nat ->
   float_range (sent_size r) = true /\ payload_size_ok w = true) ->
  exists body,
    fst (paste_base w r) = Ok body /\
    _paste md w
    = (Ok tt, log (EvNotify body (Some (snd (paste_base w r))))
                  (log (EvLabel "<i>Global clipboard is empty</i>") w)).
Proof.
  intros Hmd Hsize.
  destruct (represents_carried _ _ Hmd) as (d & -> & C). destruct C.
  destruct c_successful0 as (vs & Gs & Ts), c_malformed0 as (vm & Gm & Tm).
  revert Hsize.
  unfold _paste, has_key, dict_has, paste_base, paste_case.
  rewrite !(item_ok _ _ _ Gs), !(item_ok _ _ _ Gm), !(item_ok _ _ _ c_vmname0),
    !(item_ok _ _ _ c_sent0).
  cbv beta iota delta [bind ret]. rewrite Ts, Tm. clear Ts Tm.
  destruct (successful r); cbn [negb orb].
  2:{ intros _. format_ok. unfold lift. eexists. split; [reflexivity|].
      apply update_paste. now apply append_nonempty_l. }
  destruct (malformed_request r).
  { intros _. format_ok. unfold lift. eexists. split; [reflexivity|].
    apply update_paste. now apply append_nonempty_l. }
  rewrite c_xside0.
  destruct (protocol_version_xside r) as [version|].
  - unfold item, subscript. rewrite c_xside0. unfold lift at 1.
    rewrite py_ge_int. unfold lift at 1.
    destruct (65544 <=? version).
    + intros Hsize. destruct (Hsize eq_refl) as [Hsent Hpay].
      apply float_range_log2 in Hsent.
      rewrite clipboard_formatted_size_int by auto.
      format_ok. unfold lift. eexists. split; [reflexivity|].
      now apply update_paste.
    + intros _. eexists. split; [reflexivity|]. apply update_paste. discriminate.
  - intros _. eexists. split; [reflexivity|]. apply update_paste. discriminate.
Qed.

Lemma _paste_table (md : val) (r : TransferMetadata) (w : world) :
  represents md r = true ->
  float_range (sent_size r) = true ->
  payload_size_ok w = true ->
  exists body,
    fst (paste_base w r) = Ok body /\
    _paste md w
    = (Ok tt, log (EvNotify body (Some (snd (paste_base w r))))
                  (log (EvLabel "<i>Global clipboard is empty</i>") w)).
Proof. intros Hmd Hsent Hpay. apply _paste_run; [exact Hmd | now split]. Qed.

(** C8, as the code has it: a paste event is reported as a failure (with
    the wipe suffix) when it did not succeed or was malformed, whatever
    its size.  Otherwise, when the dict carries [protocol_version_xside]
    and it is at least 0x00010008 (65544), it is reported as a paste to
    the named qube with the formatted size, provided the size can be
    formatted: [sent_size] below 2^1023, and so the payload file, which is
    measured when [sent_size] is 0.  Otherwise it is reported by the
    generic legacy message, which has no size. *)
Theorem paste_classification (md : val) (r : TransferMetadata) (w : world) :
  represents md r = true ->
  let shown body icon :=
    _paste md w
    = (Ok tt, log (EvNotify body (Some icon))
                  (log (EvLabel "<i>Global clipboard is empty</i>") w)) in
  (negb (successful r) || malformed_request r = true ->
   shown (("Failed to paste global clipboard contents to qube: <b>"
             ++ vmname r ++ "</b>") ++ MSG_WIPED)
         "dialog-error") /\
  (negb (successful r) || malformed_request r = false ->
   forall version,
     protocol_version_xside r = Some version -> 65544 <= version ->
     float_range (sent_size r) = true -> payload_size_ok w = true ->
     shown ("Global clipboard copied <b>" ++ size_shown w (sent_size r)
              ++ "</b> to <b>" ++ vmname r ++ "</b>." ++ nl
              ++ "Global clipboard has been wiped." ++ nl
              ++ "<small>Paste normally in qube (e.g. Ctrl+V).</small>")
           "dialog-information") /\
  (negb (successful r) || malformed_request r = false ->
   (protocol_version_xside r = None \/
    exists version, protocol_version_xside r = Some version /\ version < 65544) ->
   shown ("Global clipboard copied to qube and wiped.<i/>" ++ nl
            ++ "<small>Paste normally in qube (e.g. Ctrl+V).</small>")
         "dialog-information").
Proof.
  intros Hmd shown. subst shown. cbv beta.
  split; [|split].
  - intros Hfail.
    destruct (_paste_run md r w Hmd) as (body & Hbase & Hrun).
    { unfold paste_case. rewrite Hfail. discriminate. }
    rewrite Hrun. revert Hbase. unfold paste_base, paste_case. rewrite Hfail.
    cbn [fst snd]. intros H. injection H as <-. reflexivity.
  - intros Hgood version Hversion Hmin Hsent Hpay.
    destruct (_paste_run md r w Hmd) as (body & Hbase & Hrun).
    { intros _. now split. }
    rewrite Hrun. revert Hbase. unfold paste_base, paste_case.
    rewrite Hgood, Hversion.
    replace (65544 <=? version) with true by (symmetry; now apply Z.leb_le).
    cbn [fst snd]. intros H. injection H as <-. reflexivity.
  - intros Hgood Hlegacy.
    destruct (_paste_run md r w Hmd) as (body & Hbase & Hrun).
    { unfold paste_case. rewrite Hgood.
      destruct Hlegacy as [-> | (version & -> & Hlt)]; [discriminate|].
      replace (65544 <=? version) with false by (symmetry; apply Z.leb_gt; lia).
      discriminate. }
    rewrite Hrun. revert Hbase. unfold paste_base, paste_case. rewrite Hgood.
    destruct Hlegacy as [-> | (version & -> & Hlt)].
    + cbn [fst snd]. intros H. injection H as <-. reflexivity.
    + replace (65544 <=? version) with false by (symmetry; apply Z.leb_gt; lia).
      cbn [fst snd]. intros H. injection H as <-. reflexivity.
Qed.

Lemma paste_classification_witness :
  represents (to_dict modern_paste) modern_paste = true /\
  negb (successful modern_paste) || malformed_request modern_paste = false /\
  protocol_version_xside modern_paste = Some 65544 /\
  float_range (sent_size modern_paste) = true /\
  payload_size_ok wiped_world = true /\
  _paste (to_dict modern_paste) wiped_world
  = (Ok tt,
     log (EvNotify ("Global clipboard copied <b>42 bytes</b> to <b>work</b>." ++ nl
                      ++ "Global clipboard has been wiped." ++ nl
                      ++ "<small>Paste normally in qube (e.g. Ctrl+V).</small>")
                   (Some "dialog-information"))
         (log (EvLabel "<i>Global clipboard is empty</i>") wiped_world)).
Proof.
  do 5 (split; [reflexivity|]).
  exact (proj1 (proj2 (paste_classification (to_dict modern_paste) modern_paste
                         wiped_world eq_refl))
               eq_refl 65544 eq_refl ltac:(lia) eq_refl eq_refl).
Defined.

(** C8 as stated fails: it speaks of every paste record, but the size of
    a successful paste under protocol 1.8 is formatted, and a [sent_size]
    of 2^1024 makes the formatter, and with it the classifier, raise
    [OverflowError] before anything is shown. *)
Lemma paste_classification_counterexample :
  represents (to_dict huge_paste) huge_paste = true /\
  paste_action huge_paste = true /\
  negb (successful huge_paste) || malformed_request huge_paste = false /\
  protocol_version_xside huge_paste = Some 65544 /\
  _paste (to_dict huge_paste) wiped_world = (Raise OverflowError, wiped_world).
Proof. evaluate. Qed.

(** ** The copy table: the wipe suffix and the empty-clipboard row *)

(** C4, as the code has it: for a copy event that cleared the clipboard
    the wipe suffix is appended to the message of whichever row applies,
    the empty-source-clipboard row (row 4) included.  The sizes it shows
    must be such that the formatter can convert them to a double:
    [sent_size] below 2^1023, [buffer_size] too when the oversized row
    (row 3) applies, and a payload file, which is measured when
    [sent_size] is 0, smaller than 2^1023 bytes. *)
Theorem copy_wiped_suffix (md : val) (r : TransferMetadata) (w : world) :
  represents md r = true ->
  float_range (sent_size r) = true ->
  (copy_case r = 3%nat -> float_range (buffer_size r) = true) ->
  payload_size_ok w = true ->
  copy_action r = true ->
  cleared r = true ->
  exists base,
    fst (copy_base w r) = Ok base /\
    _copy md w
    = (Ok tt, log (EvNotify (base ++ MSG_WIPED) (Some (snd (copy_base w r))))
                  (log (EvLabel (copy_label w r)) w)) /\
    (copy_case r = 4%nat ->
     base = "Empty source qube clipboard." ++ nl ++ "qube: <b>" ++ vmname r
              ++ "</b> attempted to send <b>0</b> bytes to global clipboard.").
Proof.
  intros Hmd Hsent Hbuf Hpay _ Hcleared.
  destruct (_copy_table md r w Hmd Hsent Hbuf Hpay) as (base & Hbase & Hrun).
  rewrite Hcleared in Hrun. exists base. repeat split; try assumption.
  intros Hcase. unfold copy_base in Hbase. rewrite Hcase in Hbase.
  cbn [fst] in Hbase. injection Hbase as <-. reflexivity.
Qed.

Lemma copy_wiped_suffix_witness :
  represents (to_dict empty_copy) empty_copy = true /\
  float_range (sent_size empty_copy) = true /\
  payload_size_ok wiped_world = true /\
  copy_action empty_copy = true /\
  cleared empty_copy = true /\
  exists base,
    fst (copy_base wiped_world empty_copy) = Ok base /\
    _copy (to_dict empty_copy) wiped_world
    = (Ok tt, log (EvNotify (base ++ MSG_WIPED) (Some "dialog-warning"))
                  (log (EvLabel (copy_label wiped_world empty_copy)) wiped_world)) /\
    (copy_case empty_copy = 4%nat ->
     base = "Empty source qube clipboard." ++ nl ++ "qube: <b>work"
              ++ "</b> attempted to send <b>0</b> bytes to global clipboard.").
Proof.
  repeat (split; [reflexivity|]).
  exact (copy_wiped_suffix (to_dict empty_copy) empty_copy wiped_world
           eq_refl eq_refl (fun H => eq_refl) eq_refl eq_refl eq_refl).
Defined.

(** C4 as stated fails: in row 4 the suffix is appended as well.  (And
    a record whose [sent_size] no double can hold gets no notification at
    all: the size is formatted first, and that raises.) *)
Lemma copy_wiped_suffix_counterexample :
  copy_case empty_copy = 4%nat /\
  cleared empty_copy = true /\
  last_notify (snd (_copy (to_dict empty_copy) wiped_world))
  = Some (("Empty source qube clipboard." ++ nl
           ++ "qube: <b>work</b> attempted to send <b>0</b> bytes to global clipboard.")
          ++ MSG_WIPED,
          Some "dialog-warning") /\
  represents (to_dict huge_copy) huge_copy = true /\
  copy_action huge_copy = true /\ cleared huge_copy = true /\
  _copy (to_dict huge_copy) wiped_world = (Raise OverflowError, wiped_world).
Proof. evaluate. Qed.

(** C6, as the code has it: a successful, cleared copy of zero bytes that
    is neither malformed nor oversized gets the empty-source-clipboard
    warning, provided the truncation row does not apply first, that is
    unless [qrexec_clipboard] is set with a [buffer_size] of zero or less. *)
Theorem empty_source_warning (md : val) (r : TransferMetadata) (w : world) :
  represents md r = true ->
  payload_size_ok w = true ->
  copy_action r = true ->
  sent_size r = 0 ->
  successful r = true ->
  cleared r = true ->
  malformed_request r = false ->
  oversized_request r = false ->
  qrexec_clipboard r = false \/ 0 < buffer_size r ->
  _copy md w
  = (Ok tt,
     log (EvNotify (("Empty source qube clipboard." ++ nl ++ "qube: <b>" ++ vmname r
                     ++ "</b> attempted to send <b>0</b> bytes to global clipboard.")
                    ++ MSG_WIPED)
                   (Some "dialog-warning"))
         (log (EvLabel (copy_label w r)) w)).
Proof.
  intros Hmd Hpay _ Hsent Hsucc Hcleared Hmal Hover Hq.
  assert (Hcase : copy_case r = 4%nat).
  { unfold copy_case. rewrite Hmal, Hover, Hsucc, Hcleared, Hsent. cbn [andb negb].
    destruct Hq as [-> | Hbuf]; [reflexivity|].
    apply Z.leb_gt in Hbuf. rewrite Hbuf. now destruct (qrexec_clipboard r). }
  destruct (_copy_table md r w Hmd) as (base & Hbase & Hrun); try assumption.
  - now rewrite Hsent.
  - rewrite Hcase. discriminate.
  - rewrite Hrun, Hcleared. unfold copy_base in *. rewrite Hcase in *.
    cbn [fst snd] in *. injection Hbase as <-. reflexivity.
Qed.

Lemma empty_source_warning_witness :
  represents (to_dict empty_copy) empty_copy = true /\
  payload_size_ok wiped_world = true /\
  copy_action empty_copy = true /\
  sent_size empty_copy = 0 /\
  successful empty_copy = true /\
  cleared empty_copy = true /\
  malformed_request empty_copy = false /\
  oversized_request empty_copy = false /\
  (qrexec_clipboard empty_copy = false \/ 0 < buffer_size empty_copy) /\
  last_notify (snd (_copy (to_dict empty_copy) wiped_world))
  = Some (("Empty source qube clipboard." ++ nl ++ "qube: <b>work"
           ++ "</b> attempted to send <b>0</b> bytes to global clipboard.")
          ++ MSG_WIPED,
          Some "dialog-warning").
Proof.
  repeat (split; [reflexivity|]).
  split; [left; reflexivity|].
  rewrite (empty_source_warning (to_dict empty_copy) empty_copy wiped_world
             eq_refl eq_refl eq_refl eq_refl eq_refl eq_refl eq_refl eq_refl
             (or_introl eq_refl)).
  reflexivity.
Defined.

(** C6 as stated fails: with [qrexec_clipboard] set and a zero
    [buffer_size], the truncation row wins. *)
Lemma empty_source_warning_counterexample :
  copy_action empty_qrexec_copy = true /\
  sent_size empty_qrexec_copy = 0 /\
  successful empty_qrexec_copy = true /\
  cleared empty_qrexec_copy = true /\
  malformed_request empty_qrexec_copy = false /\
  oversized_request empty_qrexec_copy = false /\
  last_notify (snd (_copy (to_dict empty_qrexec_copy) wiped_world))
  = Some (("Global clipboard size limit exceed." ++ nl
           ++ "qube: <b>work</b> attempted to send 0 bytes bytes to global clipboard."
           ++ nl ++ "Global clipboard might have been truncated." ++ nl
           ++ "<small>Use <i>qvm-copy</i> to transfer large amounts of data between "
           ++ "qubes.</small>")
          ++ MSG_WIPED,
          Some "dialog-warning").
Proof. evaluate. Qed.

(** ** The decoder *)

Lemma decode_by_mode (w : world) :
  decode w = match decode_mode w with
             | Some true => decode_structured w
             | Some false => decode_legacy w
             | None => (Raise OSError, w)
             end.
Proof.
  unfold decode, decode_mode, bind, isfile, getmtime, ret.
  destruct (files w METADATA) as [[m rd c|m k]|] eqn:HM;
    destruct (files w DATA) as [[d rd' c'|d k']|] eqn:HD;
    cbv beta iota; rewrite ?HM, ?HD; cbv beta iota; rewrite ?HD;
    try reflexivity; now destruct (d <=? m).
Qed.

Lemma decode_legacy_run (w : world) (t : Z) (content : string) :
  files w FROM = Some (RegFile t true content) ->
  all_ascii content = true ->
  let vm := strip_nl (first_line (universal_newlines content)) in
  let size := match files w DATA with Some n => node_size n | None => 0 end in
  exists md,
    decode_legacy w = (Ok (Some (PyDict md)), w) /\
    represents (PyDict md) (legacy_record vm size) = true /\
    md = [("vmname", PyStr vm);
          ("copy_action", PyBool (negb (String.eqb vm "")));
          ("paste_action", PyBool (String.eqb vm ""));
          ("sent_size", PyInt size);
          ("cleared", PyBool (size =? 0));
          ("qrexec_clipboard", PyBool false);
          ("malformed_request", PyBool false);
          ("oversized_request", PyBool (65000 <=? size));
          ("buffer_size", PyInt 65000);
          ("successful", PyBool (negb (negb (String.eqb vm "") && (size =? 0))))].
Proof.
  intros Hfrom Hascii vm size. eexists. split; [|split; [|reflexivity]].
  - unfold decode_legacy, bind at 1, read_ascii. rewrite Hfrom, Hascii.
    fold vm. unfold bind, except_OSError, getsize, ret.
    assert (Hsize : match files w DATA with
                    | Some (RegFile _ _ c) => (Ok (Z.of_nat (String.length c)), w)
                    | Some (Special _ n) => (Ok n, w)
                    | None => (@Raise Z OSError, w)
                    end
                    = match files w DATA with
                      | Some _ => (Ok size, w)
                      | None => (Raise OSError, w)
                      end).
    { unfold size. now destruct (files w DATA) as [[]|]. }
    rewrite Hsize.
    destruct (files w DATA).
    + destruct (negb (String.eqb vm "") && (size =? 0)); reflexivity.
    + subst size. destruct (String.eqb vm ""); reflexivity.
  - unfold represents, field_is, optional_is, legacy_record. cbn.
    now rewrite String.eqb_refl, !Z.eqb_refl, !Bool.eqb_reflx.
Qed.

(** *** Reading the first line *)

Lemma first_line_plain (name tail : string) :
  no_line_end name = true ->
  first_line (name ++ String "010" tail) = name ++ nl /\
  first_line name = name.
Proof.
  unfold no_line_end. induction name as [|c name IH]; intros Hname.
  - split; reflexivity.
  - cbn [string_forall] in Hname. apply andb_prop in Hname as [Hc Hname].
    apply andb_prop in Hc as [Hc _]. apply negb_true_iff in Hc.
    destruct (IH Hname) as [IH1 IH2].
    cbn [append first_line]. rewrite Hc, IH1, IH2. split; reflexivity.
Qed.

Lemma universal_newlines_plain (name tail : string) :
  no_line_end name = true ->
  universal_newlines (name ++ tail) = name ++ universal_newlines tail.
Proof.
  unfold no_line_end. induction name as [|c name IH]; intros Hname.
  - reflexivity.
  - cbn [string_forall] in Hname. apply andb_prop in Hname as [Hc Hname].
    apply andb_prop in Hc as [_ Hc]. apply negb_true_iff in Hc.
    cbn [append universal_newlines]. now rewrite Hc, (IH Hname).
Qed.

Lemma universal_newlines_line_end (c : ascii) (rest : string) :
  c = "010"%char \/ c = "013"%char ->
  exists tail, universal_newlines (String c rest) = String "010" tail.
Proof.
  intros [-> | ->]; cbn [universal_newlines]; cbn.
  - now eexists.
  - destruct rest as [|d rest]; [now eexists|].
    destruct (Ascii.eqb d "010") eqn:Hd.
    + apply Ascii.eqb_eq in Hd. subst d. now eexists.
    + assert (exists tail,
                 match d with
                 | "010"%char => String "010" (universal_newlines rest)
                 | _ => String "010" (universal_newlines (String d rest))
                 end = String "010" tail) as (tail & ->); [|now eexists].
      destruct d as [[] [] [] [] [] [] [] []]; now eexists.
Qed.

Lemma string_rev_onto_app (a b acc : string) :
  string_rev_onto (a ++ b) acc = string_rev_onto b (string_rev_onto a acc).
Proof. revert acc. induction a as [|c a IH]; intros acc; [reflexivity|]. apply IH. Qed.

Lemma string_rev_onto_spec (s acc : string) :
  string_rev_onto s acc = string_rev s ++ acc.
Proof.
  unfold string_rev. revert acc. induction s as [|c s IH]; intros acc; [reflexivity|].
  cbn [string_rev_onto]. rewrite (IH (String c acc)), (IH (String c "")).
  generalize (string_rev_onto s "") as r. intros r.
  induction r as [|x r IHr]; [reflexivity|]. cbn [append]. now rewrite IHr.
Qed.

Lemma string_rev_involutive (s : string) : string_rev (string_rev s) = s.
Proof.
  induction s as [|c s IH]; [reflexivity|].
  unfold string_rev at 2. cbn [string_rev_onto].
  rewrite string_rev_onto_spec. unfold string_rev at 1.
  rewrite string_rev_onto_app. fold (string_rev (string_rev s)). now rewrite IH.
Qed.

Lemma string_forall_rev (f : ascii -> bool) (s : string) :
  string_forall f s = true -> string_forall f (string_rev s) = true.
Proof.
  intros Hs. unfold string_rev.
  assert (H : forall acc, string_forall f acc = true ->
                          string_forall f (string_rev_onto s acc) = true);
    [|now apply H].
  induction s as [|c s IH]; intros acc Hacc; [exact Hacc|].
  cbn [string_forall] in Hs. apply andb_prop in Hs as [Hc Hs].
  cbn [string_rev_onto]. apply (IH Hs). cbn [string_forall]. now rewrite Hc, Hacc.
Qed.

Lemma lstrip_nl_plain (s : string) : no_line_end s = true -> lstrip_nl s = s.
Proof.
  unfold no_line_end. destruct s as [|c s]; [reflexivity|].
  cbn [string_forall]. intros H. apply andb_prop in H as [Hc _].
  apply andb_prop in Hc as [Hc _]. apply negb_true_iff in Hc.
  apply Ascii.eqb_neq in Hc.
  destruct c as [[] [] [] [] [] [] [] []]; try reflexivity. now destruct Hc.
Qed.

Lemma string_rev_line (a : string) :
  string_rev (a ++ nl) = String "010" (string_rev a).
Proof. unfold string_rev. now rewrite string_rev_onto_app. Qed.

Lemma strip_nl_line (name : string) :
  no_line_end name = true ->
  strip_nl (name ++ nl) = name /\ strip_nl name = name.
Proof.
  intros Hname.
  assert (Hrev : lstrip_nl (string_rev name) = string_rev name).
  { apply lstrip_nl_plain. now apply string_forall_rev. }
  split.
  - destruct name as [|c name]; [reflexivity|].
    unfold strip_nl.
    assert (Hhead : lstrip_nl (String c name ++ nl) = String c name ++ nl).
    { unfold no_line_end in Hname. cbn [string_forall] in Hname.
      apply andb_prop in Hname as [Hc _]. apply andb_prop in Hc as [Hc _].
      apply negb_true_iff in Hc. apply Ascii.eqb_neq in Hc.
      cbn [append].
      destruct c as [[] [] [] [] [] [] [] []]; try reflexivity. now destruct Hc. }
    rewrite Hhead, string_rev_line.
    change (lstrip_nl (String "010" (string_rev (String c name))))
      with (lstrip_nl (string_rev (String c name))).
    rewrite Hrev. apply string_rev_involutive.
  - unfold strip_nl. rewrite (lstrip_nl_plain name Hname), Hrev.
    apply string_rev_involutive.
Qed.

(** The name the legacy branch reads from a source file that starts with
    [name], free of line ends, followed by nothing or by a line end and
    anything. *)
Lemma legacy_name (name content : string) :
  no_line_end name = true ->
  (content = name \/
   exists c rest, content = name ++ String c rest /\
                  (c = "010"%char \/ c = "013"%char)) ->
  strip_nl (first_line (universal_newlines content)) = name.
Proof.
  intros Hname [-> | (c & rest & -> & Hc)].
  - replace name with (name ++ "") at 1
      by (clear; induction name as [|x n IH]; [reflexivity|]; cbn; now rewrite IH).
    rewrite (universal_newlines_plain name "" Hname). cbn [universal_newlines].
    replace (name ++ "") with name
      by (clear; induction name as [|x n IH]; [reflexivity|]; cbn; now rewrite <- IH).
    rewrite (proj2 (first_line_plain name "" Hname)).
    exact (proj2 (strip_nl_line name Hname)).
  - rewrite (universal_newlines_plain name _ Hname).
    destruct (universal_newlines_line_end c rest Hc) as (tail & ->).
    rewrite (proj1 (first_line_plain name tail Hname)).
    exact (proj1 (strip_nl_line name Hname)).
Qed.



(** ** One pass of the handler *)

Lemma close_write_run (w : world) (decoded : option val) :
  lock_openable w = true ->
  decode (locked w) = (Ok decoded, locked w) ->
  process_IN_CLOSE_WRITE w
  = match decoded with
    | None => (Ok tt, released w)
    | Some metadata =>
        (copy_action <- item metadata "copy_action" ;;
         if truthy copy_action then _copy metadata
         else
           paste_action <- item metadata "paste_action" ;;
           if truthy paste_action then _paste metadata else ret tt) (released w)
    end.
Proof.
  intros Hlock Hdecode.
  unfold process_IN_CLOSE_WRITE, bind at 1, appviewer_lock.
  rewrite Hlock. fold (locked w). rewrite Hdecode. fold (released w).
  now destruct decoded.
Qed.

Lemma close_write_raise (w : world) (e : exn) :
  lock_openable w = true ->
  decode (locked w) = (Raise e, locked w) ->
  process_IN_CLOSE_WRITE w = (Raise e, released w).
Proof.
  intros Hlock Hdecode.
  unfold process_IN_CLOSE_WRITE, bind at 1, appviewer_lock.
  rewrite Hlock. fold (locked w). rewrite Hdecode. reflexivity.
Qed.

Lemma decode_structured_run (w : world) (m : Z) (c : string) :
  files w METADATA = Some (RegFile m true c) ->
  all_ascii c = true ->
  decode_structured w
  = match Json.loads (universal_newlines c) with
    | Ok v => (Ok (Some v), w)
    | Raise OSError | Raise JSONDecodeError => (Ok None, w)
    | Raise e => (Raise e, w)
    | Unmodelled => (Unmodelled, w)
    end.
Proof.
  intros Hfile Hascii. unfold decode_structured, bind, read_ascii, lift.
  rewrite Hfile, Hascii. now destruct (Json.loads (universal_newlines c)) as [?|[]|].
Qed.

Lemma decode_structured_unreadable (w : world) (m : Z) (c : string) :
  files w METADATA = Some (RegFile m false c) ->
  decode_structured w = (Ok None, w).
Proof.
  intros Hfile. unfold decode_structured, bind, read_ascii. now rewrite Hfile.
Qed.






(** C5, as the code has it: in legacy mode exactly one of [copy_action]
    and [paste_action] is true in the synthesised record.  A record decoded
    from the structured file carries the two flags as the file gives them,
    unchecked; the pass classifies it as a copy when [copy_action] is
    truthy, otherwise as a paste when [paste_action] is truthy, and
    otherwise ignores the event. *)
Theorem action_flags (w : world) :
  (forall t content,
     decode_mode w = Some false ->
     files w FROM = Some (RegFile t true content) ->
     all_ascii content = true ->
     exists md copy paste,
       decode w = (Ok (Some (PyDict md)), w) /\
       dict_get "copy_action" md = Some (PyBool copy) /\
       dict_get "paste_action" md = Some (PyBool paste) /\
       xorb copy paste = true) /\
  (forall d copy paste,
     lock_openable w = true ->
     decode (locked w) = (Ok (Some (PyDict d)), locked w) ->
     dict_get "copy_action" d = Some copy ->
     dict_get "paste_action" d = Some paste ->
     process_IN_CLOSE_WRITE w
     = if truthy copy then _copy (PyDict d) (released w)
       else if truthy paste then _paste (PyDict d) (released w)
       else (Ok tt, released w)).
Proof.
  split.
  - intros t content Hmode Hfrom Hascii.
    destruct (decode_legacy_run w t content Hfrom Hascii) as (md & Hrun & _ & Hmd).
    exists md. do 2 eexists. rewrite decode_by_mode, Hmode.
    split; [exact Hrun|]. rewrite Hmd.
    split; [reflexivity|]. split; [reflexivity|].
    now destruct (String.eqb _ "").
  - intros d copy paste Hlock Hdecode Hcopy Hpaste.
    rewrite (close_write_run w _ Hlock Hdecode).
    rewrite (item_ok _ _ _ Hcopy), bind_ret.
    destruct (truthy copy); [reflexivity|].
    rewrite (item_ok _ _ _ Hpaste), bind_ret.
    now destruct (truthy paste).
Qed.

Lemma action_flags_witness :
  decode_mode legacy_world = Some false /\
  files legacy_world FROM = Some (RegFile 20 true ("work" ++ nl)) /\
  all_ascii ("work" ++ nl) = true /\
  exists md copy paste,
    decode legacy_world = (Ok (Some (PyDict md)), legacy_world) /\
    dict_get "copy_action" md = Some (PyBool copy) /\
    dict_get "paste_action" md = Some (PyBool paste) /\
    xorb copy paste = true.
Proof.
  repeat (split; [reflexivity|]).
  exact (proj1 (action_flags legacy_world) 20 ("work" ++ nl) eq_refl eq_refl eq_refl).
Defined.

(** C5 as stated fails: a structured file may set both flags, and the
    event is classified all the same (as a copy). *)
Lemma action_flags_counterexample :
  match fst (decode both_flags_world) with
  | Ok (Some (PyDict d)) =>
      dict_get "copy_action" d = Some (PyInt 1) /\
      dict_get "paste_action" d = Some (PyInt 1)
  | _ => False
  end /\
  last_notify (snd (process_IN_CLOSE_WRITE both_flags_world))
  = Some ("Clipboard contents fetched from qube: <b>'work'</b>" ++ nl
          ++ "Copied <b>42 bytes</b> to the global clipboard." ++ nl
          ++ "<small>Press Ctrl+Shift+V in qube to paste to local clipboard.</small>",
          Some "dialog-information").
Proof. evaluate. Qed.

(** ** Size formatting: the cases of the specification *)


Lemma round_half_even_nearest (num den : Z) :
  0 < den ->
  num / den <= round_half_even num den <= num / den + 1 /\
  2 * Z.abs (num - round_half_even num den * den) <= den.
Proof.
  intros Hden. unfold round_half_even.
  pose proof (Z.div_mod num den ltac:(lia)) as Hdm.
  pose proof (Z.mod_pos_bound num den Hden) as Hr.
  destruct (den <? 2 * (num mod den)) eqn:Hhalf.
  - apply Z.ltb_lt in Hhalf. split; [lia|]. nia.
  - apply Z.ltb_ge in Hhalf.
    destruct ((2 * (num mod den) =? den) && Z.odd (num / den)) eqn:Htie.
    + apply andb_true_iff in Htie as [Htie _]. apply Z.eqb_eq in Htie.
      split; [lia|]. nia.
    + split; [lia|]. nia.
Qed.

Lemma magnitude_of_spec (n : Z) :
  1024 <= n ->
  1 <= magnitude_of n <= 3 /\
  2 ^ (10 * magnitude_of n) <= n /\
  (magnitude_of n < 3 -> n < 2 ^ (10 * (magnitude_of n + 1))).
Proof.
  intros Hn. unfold magnitude_of. cbn [units List.length Z.of_nat].
  change (Z.pos (Pos.of_succ_nat 3) - 1) with 3.
  assert (Hlog : 10 <= Z.log2 n).
  { change 10 with (Z.log2 1024). apply Z.log2_le_mono. exact Hn. }
  pose proof (Z.log2_spec n ltac:(lia)) as [Hlo Hhi].
  pose proof (Z.div_mod (Z.log2 n) 10 ltac:(lia)) as Hdm.
  pose proof (Z.mod_pos_bound (Z.log2 n) 10 ltac:(lia)) as Hr.
  set (q := Z.log2 n / 10) in *.
  assert (Hq : 1 <= q) by lia.
  split; [lia|]. split.
  - apply Z.le_trans with (2 ^ Z.log2 n); [|exact Hlo].
    apply Z.pow_le_mono_r; lia.
  - intros Hlt. replace (Z.min q 3) with q by lia.
    apply Z.lt_le_trans with (2 ^ Z.succ (Z.log2 n)); [exact Hhi|].
    apply Z.pow_le_mono_r; lia.
Qed.





(** ** Frame: what a pass of the handler leaves untouched *)

Lemma add_trace_nil (w : world) : add_trace [] w = w.
Proof. now destruct w. Qed.

Lemma add_trace_app (d1 d2 : list io_event) (w : world) :
  add_trace d2 (add_trace d1 w) = add_trace (d2 ++ d1)%list w.
Proof. unfold add_trace. cbn. now rewrite app_assoc. Qed.

Lemma quiet_ret {A} (a : A) : quiet (ret a).
Proof. intros w. exists []. now rewrite add_trace_nil. Qed.

Lemma quiet_lift {A} (r : res A) : quiet (lift r).
Proof. intros w. exists []. now rewrite add_trace_nil. Qed.

Lemma quiet_bind {A B} (m : M A) (k : A -> M B) :
  quiet m -> (forall a, quiet (k a)) -> quiet (bind m k).
Proof.
  intros Hm Hk w. unfold bind.
  destruct (Hm w) as (d1 & H1 & U1). destruct (m w) as [[a|e|] w1]; cbn [snd] in H1.
  - destruct (Hk a w1) as (d2 & H2 & U2). exists (d2 ++ d1)%list.
    rewrite H2, H1, add_trace_app. split; [reflexivity|].
    now rewrite forallb_app, U1, U2.
  - now exists d1.
  - now exists d1.
Qed.

Lemma quiet_effect (e : io_event) : is_ui e = true -> quiet (effect e).
Proof.
  intros He w. exists [e]. cbn. now rewrite He.
Qed.

Lemma quiet_getsize (p : string) : quiet (getsize p).
Proof.
  intros w. exists []. rewrite add_trace_nil. unfold getsize.
  now destruct (files w p) as [[]|].
Qed.

Lemma quiet_except {A} (m h : M A) : quiet m -> quiet h -> quiet (except_OSError m h).
Proof.
  intros Hm Hh w. unfold except_OSError.
  destruct (Hm w) as (d1 & H1 & U1).
  destruct (m w) as [[a|e|] w1]; cbn [snd] in H1; try now exists d1.
  destruct e; try now exists d1.
  destruct (Hh w1) as (d2 & H2 & U2). exists (d2 ++ d1)%list.
  rewrite H2, H1, add_trace_app. split; [reflexivity|].
  now rewrite forallb_app, U1, U2.
Qed.

Lemma quiet_item (md : val) (k : string) : quiet (item md k).
Proof. apply quiet_lift. Qed.

Lemma quiet_has_key (md : val) (k : string) : quiet (has_key md k).
Proof. destruct md; apply quiet_lift. Qed.

Lemma quiet_shortcut : quiet (fun w => (Ok (paste_shortcut w), w)).
Proof. intros w. exists []. now rewrite add_trace_nil. Qed.

Ltac quiet_step :=
  first
    [ apply quiet_ret
    | apply quiet_lift
    | apply quiet_item
    | apply quiet_has_key
    | apply quiet_getsize
    | apply quiet_shortcut
    | apply quiet_effect; reflexivity
    | apply quiet_except
    | apply quiet_bind; [|intros ?]
    | match goal with
      | |- quiet (if ?c then _ else _) => destruct c
      | |- quiet (match ?x with Some _ => _ | None => _ end) => destruct x
      | |- quiet (let (_, _) := ?p in _) => destruct p
      end ].

Lemma quiet_formatted_size (size : val) : quiet (clipboard_formatted_size size).
Proof. unfold clipboard_formatted_size. repeat quiet_step. Qed.

Lemma quiet_update (vm size : val) (message icon : option string) :
  quiet (update_clipboard_contents vm size message icon).
Proof. unfold update_clipboard_contents, send_notify. repeat quiet_step. Qed.

Lemma quiet_copy (md : val) : quiet (_copy md).
Proof.
  unfold _copy.
  repeat first [apply quiet_formatted_size | apply quiet_update | quiet_step].
Qed.

Lemma quiet_paste (md : val) : quiet (_paste md).
Proof.
  unfold _paste.
  repeat first [apply quiet_formatted_size | apply quiet_update | quiet_step].
Qed.

Lemma quiet_isfile (p : string) : quiet (isfile p).
Proof. intros w. exists []. now rewrite add_trace_nil. Qed.

Lemma quiet_getmtime (p : string) : quiet (getmtime p).
Proof.
  intros w. exists []. rewrite add_trace_nil. unfold getmtime.
  now destruct (files w p) as [[]|].
Qed.

Lemma quiet_read_ascii (p : string) : quiet (read_ascii p).
Proof.
  intros w. exists []. rewrite add_trace_nil. unfold read_ascii.
  destruct (files w p) as [[t [] c|]|]; try easy.
  now destruct (all_ascii c).
Qed.

Lemma quiet_decode : quiet decode.
Proof.
  unfold decode.
  repeat first [apply quiet_isfile | apply quiet_getmtime | quiet_step].
  - intros w. unfold decode_structured.
    assert (Hq : quiet (text <- read_ascii METADATA ;; lift (Json.loads text)))
      by (repeat first [apply quiet_read_ascii | quiet_step]).
    destruct (Hq w) as (d & Hd & Ud). exists d. split; [|exact Ud].
    destruct ((text <- read_ascii METADATA ;; lift (Json.loads text)) w)
      as [[v|[]|] w1]; exact Hd.
  - unfold decode_legacy.
    repeat first [apply quiet_read_ascii | quiet_step].
Qed.

Lemma lock_acquisitions_add_trace (delta : list io_event) (w : world) :
  forallb is_ui delta = true ->
  lock_acquisitions (add_trace delta w) = lock_acquisitions w.
Proof.
  unfold lock_acquisitions. cbn [trace add_trace]. intros H.
  induction delta as [|e delta IH]; [reflexivity|].
  cbn in H. apply andb_prop in H as [He Hd].
  cbn [app filter]. destruct e; try discriminate; now apply IH.
Qed.

(** What a pass leaves alone. *)
Lemma pass_frame (w w' : world) (r : res unit) :
  process_IN_CLOSE_WRITE w = (r, w') ->
  files w' = files w /\
  watches w' = watches w /\
  temporary_watch w' = temporary_watch w /\
  next_wd w' = next_wd w /\
  (forall u, r = Ok u -> lock_acquisitions w' = S (lock_acquisitions w)).
Proof.
  unfold process_IN_CLOSE_WRITE, bind at 1, appviewer_lock.
  destruct (lock_openable w).
  2:{ intros H. injection H as <- <-. repeat split. intros u Hu. discriminate Hu. }
  fold (locked w).
  destruct (quiet_decode (locked w)) as (d1 & H1 & U1).
  destruct (decode (locked w)) as [r1 w1]. cbn [snd] in H1. subst w1.
  assert (Hcount : lock_acquisitions
                     (log EvLockUn (set_lock_held false (add_trace d1 (locked w))))
                   = S (lock_acquisitions w)).
  { change (lock_acquisitions (add_trace d1 (locked w)) = S (lock_acquisitions w)).
    now rewrite lock_acquisitions_add_trace. }
  destruct r1 as [[md|]|e|].
  - set (w2 := log EvLockUn (set_lock_held false (add_trace d1 (locked w)))) in *.
    assert (Hq : quiet (copy_action <- item md "copy_action" ;;
                        if truthy copy_action then _copy md
                        else
                          paste_action <- item md "paste_action" ;;
                          if truthy paste_action then _paste md else ret tt))
      by (repeat first [apply quiet_copy | apply quiet_paste | quiet_step]).
    destruct (Hq w2) as (d2 & H2 & U2). intros H. rewrite H in H2.
    cbn [snd] in H2. subst w'. repeat split. intros u _.
    now rewrite lock_acquisitions_add_trace.
  - intros H. injection H as <- <-. repeat split. intros u _. exact Hcount.
  - intros H. injection H as <- <-. repeat split. intros u Hu. discriminate Hu.
  - intros H. injection H as <- <-. repeat split. intros u Hu. discriminate Hu.
Qed.

(** ** The watch controller *)

Lemma setup_watcher_arms (w : world) :
  unarmed w = true ->
  files w FROM <> None ->
  exists w',
    setup_watcher w = (Ok tt, w') /\ armed w' = true /\ trace w' = trace w.
Proof.
  destruct w as [fs cw lo nw lh ps tw ws nwd lr tr].
  unfold unarmed. cbn [watches temporary_watch files trace]. intros Hun Hfrom.
  destruct ws as [|[wd [p mask]] ws']; [discriminate|].
  destruct mask, ws', tw as [[|[p' wd'] [|]]|]; try discriminate.
  apply andb_prop in Hun as [Hun Hwd]. apply Z.eqb_eq in Hwd. subst wd'.
  unfold setup_watcher, bind, rm_watch, add_watch, ret.
  cbn [temporary_watch for_each snd fst watches filter set_watches files find
       next_wd bind ret].
  unfold bind, ret. cbn [watches filter fst set_watches files find next_wd].

  rewrite Z.eqb_refl. cbn [negb filter find files watches set_watches].
  destruct (fs FROM); [|contradiction].
  eexists. split; [reflexivity|]. split; [|reflexivity].
  unfold armed. cbn [set_watches watches]. apply String.eqb_refl.
Qed.

Lemma unarmed_frame (w w' : world) :
  watches w' = watches w -> temporary_watch w' = temporary_watch w ->
  unarmed w' = unarmed w.
Proof. unfold unarmed. now intros -> ->. Qed.

Lemma unarmed_not_armed (w : world) : unarmed w = true -> armed w = false.
Proof.
  unfold unarmed, armed.
  destruct (watches w) as [|[wd [p mask]] ws']; [discriminate|].
  destruct mask, ws'; try discriminate; reflexivity.
Qed.

(** C10, as the code has it: in the Unarmed state a creation event for any
    path other than the source file does nothing; a creation event for the
    source file runs one pass of the handler (one acquisition of the lock)
    and, when that pass returns, arms the controller on the file itself;
    when the pass raises, the exception leaves [process_IN_CREATE] before
    [setup_watcher] and the controller stays Unarmed. *)
Theorem create_event (w : world) (pathname : string) :
  unarmed w = true ->
  (pathname <> FROM -> process_IN_CREATE pathname w = (Ok tt, w)) /\
  (pathname = FROM -> files w FROM <> None ->
   forall w1, process_IN_CLOSE_WRITE w = (Ok tt, w1) ->
   exists w',
     process_IN_CREATE pathname w = (Ok tt, w') /\
     armed w' = true /\
     lock_acquisitions w' = S (lock_acquisitions w) /\
     trace w' = trace w1) /\
  (pathname = FROM ->
   forall e w1, process_IN_CLOSE_WRITE w = (Raise e, w1) ->
   process_IN_CREATE pathname w = (Raise e, w1) /\
   unarmed w1 = true /\ armed w1 = false).
Proof.
  intros Hun. split; [|split].
  - intros Hp. unfold process_IN_CREATE.
    apply String.eqb_neq in Hp. now rewrite Hp.
  - intros -> Hfrom w1 Hpass.
    destruct (pass_frame w w1 (Ok tt) Hpass) as (Hf & Hw & Ht & _ & Hcount).
    destruct (setup_watcher_arms w1) as (w' & Hrun & Harmed & Htrace).
    + now rewrite (unarmed_frame w w1 Hw Ht).
    + now rewrite Hf.
    + exists w'. unfold process_IN_CREATE. rewrite String.eqb_refl.
      unfold bind. rewrite Hpass, Hrun. repeat split; try assumption.
      unfold lock_acquisitions in *. rewrite Htrace. now apply (Hcount tt).
  - intros -> e w1 Hpass.
    destruct (pass_frame w w1 (Raise e) Hpass) as (_ & Hw & Ht & _).
    assert (Hun1 : unarmed w1 = true) by now rewrite (unarmed_frame w w1 Hw Ht).
    unfold process_IN_CREATE. rewrite String.eqb_refl.
    unfold bind. rewrite Hpass. repeat split; [exact Hun1|].
    now apply unarmed_not_armed.
Qed.

Lemma create_event_witness :
  unarmed unarmed_world = true /\
  files unarmed_world FROM <> None /\
  fst (process_IN_CLOSE_WRITE unarmed_world) = Ok tt /\
  exists w',
    process_IN_CREATE FROM unarmed_world = (Ok tt, w') /\
    armed w' = true /\
    lock_acquisitions w' = S (lock_acquisitions unarmed_world).
Proof.
  assert (Hfrom : files unarmed_world FROM <> None) by discriminate.
  split; [reflexivity|]. split; [exact Hfrom|]. split; [reflexivity|].
  destruct (proj1 (proj2 (create_event unarmed_world FROM eq_refl)) eq_refl Hfrom
              (snd (process_IN_CLOSE_WRITE unarmed_world)) eq_refl)
    as (w' & Hrun & Harmed & Hcount & _).
  exists w'. repeat split; assumption.
Defined.

(** C10 as stated fails: when the pass raises, the controller is not armed. *)
Lemma create_event_counterexample :
  unarmed unarmed_no_fields_world = true /\
  fst (process_IN_CREATE FROM unarmed_no_fields_world)
  = Raise (KeyError "copy_action") /\
  armed (snd (process_IN_CREATE FROM unarmed_no_fields_world)) = false /\
  unarmed (snd (process_IN_CREATE FROM unarmed_no_fields_world)) = true.
Proof. evaluate. Qed.

(** ** The writers of the staging files *)

Lemma dom0_metadata_format (event_time sent_size : Z) :
  format dom0_metadata_template
         [("xevent_timestamp", PyStr (str_of_Z event_time));
          ("sent_size", PyInt sent_size);
          ("buffer_size", PyStr "256000")]
  = Ok (dom0_metadata event_time sent_size).
Proof. reflexivity. Qed.

(** Whatever the qube's name and the size, the decoder refuses the text of
    the virtual browser at its second character. *)
Lemma virtual_browser_metadata_rejected (vmname : string) (sent_size : Z) :
  Json.loads (virtual_browser_metadata vmname sent_size) = Raise JSONDecodeError.
Proof. reflexivity. Qed.

(** C1 fails on the code: the metadata text either writer emits is
    refused by the decoder ([JSONDecodeError]: a comma before the closing
    brace, and for the virtual browser doubled braces), so the event the
    write triggers is dropped without a notification. *)
Theorem writers_metadata_rejected :
  let w1 := snd (copy_dom0_clipboard (Some "secret") 12345 no_files_world) in
  let w2 := snd (_copy_to_global_clipboard "https://example.org/" "work" 0
                                           no_files_world) in
  (files w1 METADATA = Some (RegFile 100 true (dom0_metadata 12345 6)) /\
   Json.loads (dom0_metadata 12345 6) = Raise JSONDecodeError /\
   decode_mode w1 = Some true /\
   process_IN_CLOSE_WRITE w1 = (Ok tt, released w1)) /\
  (files w2 METADATA
   = Some (RegFile 100 true (virtual_browser_metadata "work" 20)) /\
   Json.loads (virtual_browser_metadata "work" 20) = Raise JSONDecodeError /\
   decode_mode w2 = Some true /\
   process_IN_CLOSE_WRITE w2 = (Ok tt, released w2)).
Proof. cbv zeta. evaluate. Qed.

(** C2 fails on the code: [_copy_to_global_clipboard] truncates and writes
    the four staging files without ever taking the lock, where
    [copy_dom0_clipboard] does all of it between taking and releasing it. *)
Theorem virtual_browser_writes_unlocked :
  emitted (_copy_to_global_clipboard "https://example.org/" "work" 0) no_files_world
  = [EvTruncate DATA; EvWrite DATA "https://example.org/";
     EvTruncate FROM; EvWrite FROM "work";
     EvTruncate XEVENT; EvWrite XEVENT "0";
     EvTruncate METADATA; EvWrite METADATA (virtual_browser_metadata "work" 20)] /\
  writes_under_lock false
    (emitted (_copy_to_global_clipboard "https://example.org/" "work" 0) no_files_world)
  = false /\
  emitted (copy_dom0_clipboard (Some "https://example.org/") 0) no_files_world
  = [EvLockEx;
     EvTruncate DATA; EvWrite DATA "https://example.org/";
     EvTruncate FROM; EvWrite FROM "dom0";
     EvTruncate XEVENT; EvWrite XEVENT "0";
     EvTruncate METADATA; EvWrite METADATA (dom0_metadata 0 20);
     EvLockUn] /\
  writes_under_lock false
    (emitted (copy_dom0_clipboard (Some "https://example.org/") 0) no_files_world)
  = true.
Proof. evaluate. Qed.

(** * Further properties of the handler *)

(** ** The copy table as a whole *)

(** X1: for every dict that carries a record, [_copy] emits the label and the
    notification of the first row of the table that applies, with the wipe
    suffix exactly when [cleared] is set. *)
Theorem copy_table_refinement (md : val) (r : TransferMetadata) (w : world) :
  represents md r = true ->
  float_range (sent_size r) = true ->
  (copy_case r = 3%nat -> float_range (buffer_size r) = true) ->
  payload_size_ok w = true ->
  exists body,
    fst (copy_base w r) = Ok body /\
    _copy md w
    = (Ok tt,
       log (EvNotify (if cleared r then body ++ MSG_WIPED else body)
                     (Some (snd (copy_base w r))))
           (log (EvLabel (copy_label w r)) w)) /\
    (1 <= copy_case r <= 6)%nat.
Proof.
  intros Hmd Hsent Hbuf Hpay.
  destruct (_copy_table md r w Hmd Hsent Hbuf Hpay) as (body & Hbase & Hrun).
  exists body. split; [exact Hbase|]. split; [exact Hrun|].
  unfold copy_case.
  destruct (malformed_request r); [lia|].
  destruct (qrexec_clipboard r && (buffer_size r <=? sent_size r)); [lia|].
  destruct (oversized_request r); [lia|].
  destruct (successful r && cleared r && (sent_size r =? 0)); [lia|].
  destruct (negb (successful r)); lia.
Qed.

Lemma copy_table_refinement_witness :
  represents (to_dict empty_qrexec_copy) empty_qrexec_copy = true /\
  float_range (sent_size empty_qrexec_copy) = true /\
  payload_size_ok wiped_world = true /\
  copy_case empty_qrexec_copy = 2%nat /\
  snd (copy_base wiped_world empty_qrexec_copy) = "dialog-warning" /\
  exists body,
    _copy (to_dict empty_qrexec_copy) wiped_world
    = (Ok tt,
       log (EvNotify (body ++ MSG_WIPED) (Some "dialog-warning"))
           (log (EvLabel (copy_label wiped_world empty_qrexec_copy)) wiped_world)).
Proof.
  repeat (split; [reflexivity|]).
  destruct (copy_table_refinement (to_dict empty_qrexec_copy) empty_qrexec_copy
              wiped_world eq_refl eq_refl (fun _ => eq_refl) eq_refl)
    as (body & _ & Hrun & _).
  exists body. exact Hrun.
Defined.

(** X2: a malformed request dominates: whatever the other fields, the copy is
    reported as malformed data from the named qube, as an error. *)
Theorem malformed_copy_dominates (md : val) (r : TransferMetadata) (w : world) :
  represents md r = true ->
  float_range (sent_size r) = true ->
  payload_size_ok w = true ->
  malformed_request r = true ->
  last_notify (snd (_copy md w))
  = Some (let body := "Malformed clipboard data received from qube: <b>"
                        ++ vmname r ++ "</b>" in
          if cleared r then body ++ MSG_WIPED else body,
          Some "dialog-error").
Proof.
  intros Hmd Hsent Hpay Hmal.
  assert (Hcase : copy_case r = 1%nat) by (unfold copy_case; now rewrite Hmal).
  destruct (_copy_table md r w Hmd Hsent) as (body & Hbase & Hrun);
    [rewrite Hcase; discriminate | exact Hpay |].
  rewrite Hrun. unfold copy_base in *. rewrite Hcase in *. cbn [fst snd] in *.
  injection Hbase as <-. reflexivity.
Qed.

Lemma malformed_copy_dominates_witness :
  represents (to_dict malformed_copy) malformed_copy = true /\
  float_range (sent_size malformed_copy) = true /\
  payload_size_ok wiped_world = true /\
  malformed_request malformed_copy = true /\
  last_notify (snd (_copy (to_dict malformed_copy) wiped_world))
  = Some (("Malformed clipboard data received from qube: <b>work</b>") ++ MSG_WIPED,
          Some "dialog-error").
Proof.
  repeat (split; [reflexivity|]).
  exact (malformed_copy_dominates (to_dict malformed_copy) malformed_copy wiped_world
           eq_refl eq_refl eq_refl eq_refl).
Defined.

(** ** Legacy mode from the files to the notification *)

Lemma legacy_pass (w : world) (t : Z) (content : string) :
  lock_openable w = true ->
  decode_mode w = Some false ->
  files w FROM = Some (RegFile t true content) ->
  all_ascii content = true ->
  payload_size_ok w = true ->
  let vm := strip_nl (first_line (universal_newlines content)) in
  let size := match files w DATA with Some n => node_size n | None => 0 end in
  exists md,
    represents (PyDict md) (legacy_record vm size) = true /\
    float_range size = true /\
    process_IN_CLOSE_WRITE w
    = if String.eqb vm "" then _paste (PyDict md) (released w)
      else _copy (PyDict md) (released w).
Proof.
  intros Hlock Hmode Hfrom Hascii Hpay vm size.
  assert (Hdec := decode_by_mode (locked w)).
  change (decode_mode (locked w)) with (decode_mode w) in Hdec. rewrite Hmode in Hdec.
  destruct (decode_legacy_run (locked w) t content Hfrom Hascii)
    as (md & Hrun & Hrep & Hmd).
  change (files (locked w) DATA) with (files w DATA) in Hrep, Hmd.
  fold vm size in Hrep, Hmd.
  rewrite Hrun in Hdec. exists md.
  split; [exact Hrep|]. split.
  - unfold payload_size_ok in Hpay. subst size. now destruct (files w DATA).
  - rewrite (close_write_run w _ Hlock Hdec). clear Hrep Hrun Hdec. subst md.
    unfold item, subscript. cbn [dict_get String.eqb Ascii.eqb Bool.eqb].
    unfold lift, bind. cbn [truthy].
    destruct (String.eqb vm ""); reflexivity.
Qed.

(** X3: a legacy paste (empty source line) is always reported by the generic
    legacy message: it cannot fail and carries no size. *)
Theorem legacy_paste_outcome (w : world) (t : Z) (content : string) :
  lock_openable w = true ->
  decode_mode w = Some false ->
  files w FROM = Some (RegFile t true content) ->
  all_ascii content = true ->
  payload_size_ok w = true ->
  (content = "" \/
   exists c rest, content = String c rest /\ (c = "010"%char \/ c = "013"%char)) ->
  process_IN_CLOSE_WRITE w
  = (Ok tt,
     log (EvNotify ("Global clipboard copied to qube and wiped.<i/>" ++ nl
                      ++ "<small>Paste normally in qube (e.g. Ctrl+V).</small>")
                   (Some "dialog-information"))
         (log (EvLabel "<i>Global clipboard is empty</i>") (released w))).
Proof.
  intros Hlock Hmode Hfrom Hascii Hpay Hcontent.
  assert (Hvm : strip_nl (first_line (universal_newlines content)) = "").
  { apply legacy_name; [reflexivity|].
    destruct Hcontent as [-> | (c & rest & -> & Hc)]; [now left|].
    right. now exists c, rest. }
  destruct (legacy_pass w t content Hlock Hmode Hfrom Hascii Hpay)
    as (md & Hrep & Hrange & ->).
  rewrite Hvm in *. cbn [String.eqb].
  destruct (_paste_table (PyDict md) _ (released w) Hrep Hrange Hpay)
    as (body & Hbase & ->).
  unfold paste_base, paste_case in Hbase |- *. cbn in Hbase |- *.
  now injection Hbase as <-.
Qed.

Lemma legacy_paste_outcome_witness :
  lock_openable legacy_paste_world = true /\
  decode_mode legacy_paste_world = Some false /\
  files legacy_paste_world FROM = Some (RegFile 20 true nl) /\
  all_ascii nl = true /\
  payload_size_ok legacy_paste_world = true /\
  last_notify (snd (process_IN_CLOSE_WRITE legacy_paste_world))
  = Some ("Global clipboard copied to qube and wiped.<i/>" ++ nl
            ++ "<small>Paste normally in qube (e.g. Ctrl+V).</small>",
          Some "dialog-information").
Proof.
  do 5 (split; [reflexivity|]).
  rewrite (legacy_paste_outcome legacy_paste_world 20 nl
             eq_refl eq_refl eq_refl eq_refl eq_refl).
  - reflexivity.
  - right. exists "010"%char, "". split; [reflexivity | now left].
Defined.

(** X4: a legacy copy (source line naming a qube) has three outcomes: the
    oversized error from 65000 bytes on, the fetch failure (with the wipe
    suffix) for an empty payload, and the success message otherwise.  The
    empty-source-clipboard warning is out of reach: an empty legacy copy
    is never [successful].  The size shown is the one the formatter
    prints for the payload; in the oversized error it is followed by a
    second "bytes", because the message adds the word to a text that
    already ends in it or in a unit. *)
Theorem legacy_copy_outcome (w : world) (t : Z) (content name : string) :
  lock_openable w = true ->
  decode_mode w = Some false ->
  files w FROM = Some (RegFile t true content) ->
  all_ascii content = true ->
  payload_size_ok w = true ->
  no_line_end name = true ->
  name <> "" ->
  (content = name \/
   exists c rest, content = name ++ String c rest /\
                  (c = "010"%char \/ c = "013"%char)) ->
  let size := match files w DATA with Some n => node_size n | None => 0 end in
  exists w' shown,
    process_IN_CLOSE_WRITE w = (Ok tt, w') /\
    (size <> 0 -> clipboard_formatted_size (PyInt size) w = (Ok shown, w)) /\
    last_notify w'
    = Some (if 65000 <=? size then
              ("Global clipboard size exceeded." ++ nl ++ "qube: <b>" ++ name
               ++ "</b> attempted to send " ++ shown
               ++ " bytes to global clipboard." ++ nl
               ++ "Current global clipboard limit is 65000 bytes (63.5 KiB)"
               ++ ", increase limit or use <i>qvm-copy</i> to transfer large "
               ++ "amounts of data between qubes.",
               Some "dialog-error")
            else if size =? 0 then
              (("Failed to fetch clipboard data from qube: <b>" ++ name ++ "</b>")
               ++ nl ++ "<small>Global clipboard has been wiped</small>",
               Some "dialog-error")
            else
              ("Clipboard contents fetched from qube: <b>'" ++ name ++ "'</b>" ++ nl
               ++ "Copied <b>" ++ shown ++ "</b> to the global clipboard."
               ++ nl ++ "<small>Press " ++ paste_shortcut w
               ++ " in qube to paste to local clipboard.</small>",
               Some "dialog-information")).
Proof.
  intros Hlock Hmode Hfrom Hascii Hpay Hplain Hname Hcontent size.
  pose proof (legacy_name name content Hplain Hcontent) as Hvm.
  destruct (legacy_pass w t content Hlock Hmode Hfrom Hascii Hpay)
    as (md & Hrep & Hrange & Hrun).
  rewrite Hvm in Hrep, Hrun. fold size in Hrep, Hrange, Hrun.
  apply String.eqb_neq in Hname. rewrite Hname in Hrun.
  destruct (_copy_table (PyDict md) (legacy_record name size) (released w) Hrep Hrange
              (fun _ => eq_refl) Hpay) as (body & Hbase & Hcopy).
  rewrite Hcopy in Hrun. exists (snd (process_IN_CLOSE_WRITE w)), (size_text size).
  rewrite Hrun. cbn [snd]. split; [reflexivity|]. split.
  { intros Hnz. rewrite clipboard_formatted_size_int.
    - unfold size_shown. apply Z.eqb_neq in Hnz. now rewrite Hnz.
    - intros H. now destruct Hnz.
    - intros _. now apply float_range_log2. }
  unfold last_notify. cbn [trace log]. f_equal.
  revert Hbase. unfold copy_base, copy_case, legacy_record.
  cbn [malformed_request qrexec_clipboard oversized_request successful cleared
       sent_size buffer_size vmname andb snd fst].
  rewrite Hname. cbn [negb andb].
  destruct (65000 <=? size) eqn:Hbig.
  - assert (Hz : (size =? 0) = false) by (apply Z.leb_le in Hbig; apply Z.eqb_neq; lia).
    unfold size_shown. rewrite Hz. cbn [fst snd].
    intros H. injection H as <-. reflexivity.
  - destruct (size =? 0) eqn:Hz; cbn [negb andb fst snd].
    + intros H. injection H as <-. reflexivity.
    + unfold size_shown. rewrite Hz. intros H. injection H as <-. reflexivity.
Qed.

Lemma legacy_copy_outcome_witness :
  lock_openable two_line_world = true /\
  decode_mode two_line_world = Some false /\
  files two_line_world FROM = Some (RegFile 20 true ("work" ++ nl ++ "other" ++ nl)) /\
  all_ascii ("work" ++ nl ++ "other" ++ nl) = true /\
  payload_size_ok two_line_world = true /\
  no_line_end "work" = true /\
  "work" <> "" /\
  exists w',
    process_IN_CLOSE_WRITE two_line_world = (Ok tt, w') /\
    last_notify w'
    = Some ("Clipboard contents fetched from qube: <b>'work'</b>" ++ nl
            ++ "Copied <b>42 bytes</b> to the global clipboard." ++ nl
            ++ "<small>Press Ctrl+Shift+V in qube to paste to local clipboard.</small>",
            Some "dialog-information").
Proof.
  assert (Hname : "work" <> "") by discriminate.
  do 6 (split; [reflexivity|]). split; [exact Hname|].
  destruct (legacy_copy_outcome two_line_world 20 ("work" ++ nl ++ "other" ++ nl)
              "work" eq_refl eq_refl eq_refl eq_refl eq_refl eq_refl Hname)
    as (w' & shown & Hrun & Hshown & Hlast).
  { right. exists "010"%char, ("other" ++ nl). split; [reflexivity | now left]. }
  exists w'. split; [exact Hrun|].
  cbv zeta in Hshown, Hlast.
  assert (H42 : shown = "42 bytes").
  { assert (Hnz : match files two_line_world DATA with
                  | Some n => node_size n | None => 0 end <> 0) by discriminate.
    specialize (Hshown Hnz). vm_compute in Hshown. now injection Hshown as <-. }
  rewrite Hlast, H42. reflexivity.
Defined.

(** ** What one pass does to the world *)
























(** ** Errors that escape a pass *)

Lemma decode_at_lock (w : world) :
  decode (locked w) = match decode_mode w with
                      | Some true => decode_structured (locked w)
                      | Some false => decode_legacy (locked w)
                      | None => (Raise OSError, locked w)
                      end.
Proof. exact (decode_by_mode (locked w)). Qed.

Lemma structured_pass (w : world) (m : Z) (c : string) (v : val) :
  lock_openable w = true ->
  decode_mode w = Some true ->
  files w METADATA = Some (RegFile m true c) ->
  all_ascii c = true ->
  Json.loads (universal_newlines c) = Ok v ->
  process_IN_CLOSE_WRITE w
  = (copy_action <- item v "copy_action" ;;
     if truthy copy_action then _copy v
     else
       paste_action <- item v "paste_action" ;;
       if truthy paste_action then _paste v else ret tt) (released w).
Proof.
  intros Hlock Hmode Hfile Hascii Hloads.
  assert (Hdec := decode_at_lock w). rewrite Hmode in Hdec.
  rewrite (decode_structured_run (locked w) m c Hfile Hascii), Hloads in Hdec.
  exact (close_write_run w (Some v) Hlock Hdec).
Qed.

(** X6: a metadata file that is valid JSON but not a usable object is not
    tolerated.  A value that is not an object makes the pass raise
    [TypeError]; an object without the key [copy_action] makes it raise
    [KeyError]; an object whose [copy_action] is false and that has no
    [paste_action] raises [KeyError] for that key.  In each case the lock
    has been released and nothing is shown. *)
Theorem unusable_metadata_escapes (w : world) (m : Z) (c : string) (v : val) :
  lock_openable w = true ->
  decode_mode w = Some true ->
  files w METADATA = Some (RegFile m true c) ->
  all_ascii c = true ->
  Json.loads (universal_newlines c) = Ok v ->
  ((forall d, v <> PyDict d) ->
   process_IN_CLOSE_WRITE w = (Raise TypeError, released w)) /\
  (forall d, v = PyDict d -> dict_get "copy_action" d = None ->
   process_IN_CLOSE_WRITE w = (Raise (KeyError "copy_action"), released w)) /\
  (forall d copy, v = PyDict d ->
   dict_get "copy_action" d = Some copy -> truthy copy = false ->
   dict_get "paste_action" d = None ->
   process_IN_CLOSE_WRITE w = (Raise (KeyError "paste_action"), released w)).
Proof.
  intros Hlock Hmode Hfile Hascii Hloads.
  rewrite (structured_pass w m c v Hlock Hmode Hfile Hascii Hloads).
  split; [|split].
  - intros Hnot. destruct v; try reflexivity. now destruct (Hnot d).
  - intros d -> Hcopy. unfold item, subscript, lift, bind. now rewrite Hcopy.
  - intros d copy -> Hcopy Hfalse Hpaste.
    unfold item, subscript, lift, bind. now rewrite Hcopy, Hfalse, Hpaste.
Qed.

Lemma unusable_metadata_escapes_witness :
  lock_openable no_fields_world = true /\
  decode_mode no_fields_world = Some true /\
  files no_fields_world METADATA = Some (RegFile 20 true "{}") /\
  all_ascii "{}" = true /\
  Json.loads (universal_newlines "{}") = Ok (PyDict []) /\
  process_IN_CLOSE_WRITE no_fields_world
  = (Raise (KeyError "copy_action"), released no_fields_world).
Proof.
  repeat (split; [reflexivity|]).
  exact (proj1 (proj2 (unusable_metadata_escapes no_fields_world 20 "{}" (PyDict [])
                         eq_refl eq_refl eq_refl eq_refl eq_refl))
               [] eq_refl eq_refl).
Defined.

(** X7: the structured branch catches [OSError] and [JSONDecodeError]
    only.  A metadata file that cannot be opened for reading is passed
    over in silence, but one that holds a byte outside ASCII makes the
    pass raise [UnicodeDecodeError], once the lock has been released and
    with nothing shown. *)
Theorem undecodable_metadata_escapes (w : world) (m : Z) (rd : bool) (c : string) :
  lock_openable w = true ->
  decode_mode w = Some true ->
  files w METADATA = Some (RegFile m rd c) ->
  (rd = false -> process_IN_CLOSE_WRITE w = (Ok tt, released w)) /\
  (rd = true -> all_ascii c = false ->
   process_IN_CLOSE_WRITE w = (Raise UnicodeDecodeError, released w)).
Proof.
  intros Hlock Hmode Hfile.
  assert (Hdec := decode_at_lock w). rewrite Hmode in Hdec.
  split.
  - intros ->.
    rewrite (decode_structured_unreadable (locked w) m c Hfile) in Hdec.
    exact (close_write_run w None Hlock Hdec).
  - intros -> Hbad. apply close_write_raise; [exact Hlock|].
    rewrite Hdec. unfold decode_structured, bind, read_ascii.
    change (files (locked w) METADATA) with (files w METADATA).
    now rewrite Hfile, Hbad.
Qed.

Lemma undecodable_metadata_escapes_witness :
  lock_openable latin1_world = true /\
  decode_mode latin1_world = Some true /\
  files latin1_world METADATA = Some (RegFile 20 true (String "233" "")) /\
  all_ascii (String "233" "") = false /\
  process_IN_CLOSE_WRITE latin1_world
  = (Raise UnicodeDecodeError, released latin1_world).
Proof.
  repeat (split; [reflexivity|]).
  exact (proj2 (undecodable_metadata_escapes latin1_world 20 true (String "233" "")
                  eq_refl eq_refl eq_refl) eq_refl eq_refl).
Defined.



(** ** The size formatter *)

(** X9: sizes from one kibibyte up, as far as a double holds them
    exactly.  The text is the byte count followed by the size in the
    largest binary unit that does not exceed it, GiB at most, given to the
    nearest tenth.  Below one GiB the figure lies between 1.0 and 1024.0;
    the latter is reached just under the next unit. *)
Theorem formatted_size_units (w : world) (n : Z) :
  1024 <= n < 2 ^ 53 ->
  exists k t,
    clipboard_formatted_size (PyInt n) w
    = (Ok ((str_of_Z n ++ " bytes") ++ " ("
             ++ (str_of_Z (t / 10) ++ "." ++ str_of_Z (t mod 10))
             ++ " " ++ (if k =? 1 then "KiB" else if k =? 2 then "MiB" else "GiB")
             ++ ")"), w) /\
    1 <= k <= 3 /\
    2 ^ (10 * k) <= n /\ (k < 3 -> n < 2 ^ (10 * (k + 1))) /\
    10 <= t /\ (k < 3 -> t <= 10240) /\
    2 * Z.abs (10 * n - t * 2 ^ (10 * k)) <= 2 ^ (10 * k).
Proof.
  intros [Hlo Hhi].
  destruct (magnitude_of_spec n Hlo) as (Hk & Hfit & Hnext).
  set (k := magnitude_of n) in *.
  assert (Hden : Z.shiftl 1 (10 * k) = 2 ^ (10 * k))
    by (rewrite Z.shiftl_mul_pow2 by lia; lia).
  assert (Hpos : 0 < 2 ^ (10 * k)) by (apply Z.pow_pos_nonneg; lia).
  destruct (round_half_even_nearest (10 * n) (2 ^ (10 * k)) Hpos) as (Hq & Hnear).
  set (t := round_half_even (10 * n) (2 ^ (10 * k))) in *.
  exists k, t.
  split; [|split; [exact Hk|split; [exact Hfit|split; [exact Hnext|]]]].
  - assert (Hlog : Z.log2 n < 53) by (apply Z.log2_lt_pow2; lia).
    rewrite clipboard_formatted_size_int by lia.
    unfold size_shown, size_text. fold k.
    replace (n =? 0) with false by (symmetry; apply Z.eqb_neq; lia).
    replace (n =? 1) with false by (symmetry; apply Z.eqb_neq; lia).
    replace (0 <? n) with true by (symmetry; apply Z.ltb_lt; lia).
    replace (0 <? k) with true by (symmetry; apply Z.ltb_lt; lia).
    cbn [andb]. unfold float_of_int.
    replace (Z.log2 n + 1 <=? 53) with true by (symmetry; apply Z.leb_le; lia).
    unfold percent_1f. rewrite Hden. do 5 f_equal.
    clearbody k. assert (Hcase : k = 1 \/ k = 2 \/ k = 3) by lia.
    destruct Hcase as [-> | [-> | ->]]; reflexivity.
  - assert (Hten : 10 <= 10 * n / 2 ^ (10 * k)).
    { apply Z.div_le_lower_bound; lia. }
    split; [lia|]. split; [|exact Hnear].
    intros Hlt. specialize (Hnext Hlt).
    assert (10 * n / 2 ^ (10 * k) < 10240); [|lia].
    apply Z.div_lt_upper_bound; [exact Hpos|].
    replace (10 * (k + 1)) with (10 * k + 10) in Hnext by lia.
    rewrite Z.pow_add_r in Hnext by lia.
    change (2 ^ 10) with 1024 in Hnext. lia.
Qed.

Lemma formatted_size_units_witness :
  1024 <= 1048575 < 2 ^ 53 /\
  fst (clipboard_formatted_size (PyInt 1048575) no_files_world)
  = Ok "1048575 bytes (1024.0 KiB)" /\
  exists k t,
    clipboard_formatted_size (PyInt 1048575) no_files_world
    = (Ok ((str_of_Z 1048575 ++ " bytes") ++ " ("
             ++ (str_of_Z (t / 10) ++ "." ++ str_of_Z (t mod 10))
             ++ " " ++ (if k =? 1 then "KiB" else if k =? 2 then "MiB" else "GiB")
             ++ ")"), no_files_world) /\
    1 <= k <= 3.
Proof.
  split; [lia|]. split; [reflexivity|].
  destruct (formatted_size_units no_files_world 1048575 ltac:(lia))
    as (k & t & Hrun & Hk & _).
  exists k, t. split; [exact Hrun | exact Hk].
Defined.

Lemma float_of_int_overflow (n : Z) :
  2 ^ 1024 <= n -> float_of_int n = Raise OverflowError.
Proof.
  intros Hn. unfold float_of_int.
  assert (Hpos : 0 < n) by (pose proof (Z.pow_pos_nonneg 2 1024); lia).
  assert (Hlog : 1024 <= Z.log2 n).
  { replace 1024 with (Z.log2 (2 ^ 1024)) by (apply Z.log2_pow2; lia).
    apply Z.log2_le_mono. exact Hn. }
  replace (Z.log2 n + 1 <=? 53) with false by (symmetry; apply Z.leb_gt; lia).
  set (sh := Z.log2 n + 1 - 53).
  set (q := Z.shiftr n sh).
  set (q' := if _ : bool then q + 1 else q).
  assert (Hsh : 0 < sh) by (unfold sh; lia).
  assert (Hq : 2 ^ 52 <= q).
  { unfold q. rewrite Z.shiftr_div_pow2 by lia.
    apply Z.div_le_lower_bound; [apply Z.pow_pos_nonneg; lia|].
    rewrite <- Z.pow_add_r by lia.
    replace (sh + 52) with (Z.log2 n) by (unfold sh; lia).
    apply Z.log2_spec. exact Hpos. }
  assert (Hq' : 2 ^ 52 <= q') by (unfold q'; destruct (_ || _); lia).
  assert (Hv : Z.shiftl 1 1024 <= Z.shiftl q' sh).
  { rewrite !Z.shiftl_mul_pow2, Z.mul_1_l by lia.
    apply Z.le_trans with (2 ^ 52 * 2 ^ sh).
    - rewrite <- Z.pow_add_r by lia. apply Z.pow_le_mono_r; unfold sh; lia.
    - apply Z.mul_le_mono_nonneg_r; [apply Z.pow_nonneg; lia | exact Hq']. }
  apply Z.leb_le in Hv. now rewrite Hv.
Qed.

(** X10: the quotient by the unit is taken in floating point, and an
    int of 2^1024 or more does not convert to a double: the formatter
    raises [OverflowError] and returns no text.  (The bound on the right
    keeps the int within what the interpreter agrees to print.) *)
Theorem formatted_size_overflow (w : world) (n : Z) :
  2 ^ 1024 <= n < 10 ^ 4300 ->
  clipboard_formatted_size (PyInt n) w = (Raise OverflowError, w).
Proof.
  intros [Hlo _].
  assert (Hpos : 0 < n) by (pose proof (Z.pow_pos_nonneg 2 1024); lia).
  assert (Hbig : 1024 <= n).
  { apply Z.le_trans with (2 ^ 1024); [|exact Hlo].
    change 1024 with (2 ^ 10) at 1. apply Z.pow_le_mono_r; lia. }
  destruct (magnitude_of_spec n Hbig) as (Hk & _).
  unfold clipboard_formatted_size. cbn [truthy].
  replace (n =? 0) with false by (symmetry; apply Z.eqb_neq; lia).
  cbn [negb]. unfold bind at 1. unfold except_OSError, ret.
  unfold bind, lift, py_gt, py_cmp, rbind, number_of.
  replace (n ?= 0) with Gt by (symmetry; apply Z.compare_gt_iff; lia).
  replace (0 <? magnitude_of n) with true by (symmetry; apply Z.ltb_lt; lia).
  now rewrite (float_of_int_overflow n Hlo).
Qed.

Lemma formatted_size_overflow_witness :
  2 ^ 1024 <= 2 ^ 1024 < 10 ^ 4300 /\
  fst (clipboard_formatted_size (PyInt (2 ^ 1024)) no_files_world)
  = Raise OverflowError.
Proof.
  assert (H : 2 ^ 1024 <= 2 ^ 1024 < 10 ^ 4300) by (vm_compute; split; congruence).
  split; [exact H|].
  exact (f_equal fst (formatted_size_overflow no_files_world (2 ^ 1024) H)).
Defined.



(** ** The writers of the staging files *)

Lemma writer_bind {A B} (m : M A) (k : A -> M B) :
  writer m -> (forall a, writer (k a)) -> writer (bind m k).
Proof.
  intros Hm Hk w. unfold bind.
  destruct (Hm w) as (d1 & Ht1 & Hw1 & Hl1 & Hr1).
  destruct (m w) as [[a| e|] w1]; cbn [fst snd] in *.
  - destruct (Hk a w1) as (d2 & Ht2 & Hw2 & Hl2 & Hr2).
    exists (d2 ++ d1)%list.
    rewrite Ht2, Ht1, Hl2, Hl1, forallb_app, Hw1, Hw2, app_assoc.
    repeat split. exact Hr2.
  - exists d1. repeat split; try assumption. discriminate.
  - now destruct Hr1.
Qed.

Lemma writer_open_w (p : string) : writer (open_w p).
Proof.
  intros w. unfold open_w.
  destruct (can_write w p), (files w p) as [[t r c|t k]|];
    first [ exists [EvTruncate p]; repeat split; discriminate
          | exists []; repeat split; discriminate ].
Qed.

Lemma writer_write_text (b : bool) (p text : string) : writer (write_text b p text).
Proof.
  intros w. unfold write_text.
  destruct (b && negb (all_ascii text));
    first [ exists [EvWrite p text]; repeat split; discriminate
          | exists []; repeat split; discriminate ].
Qed.

Lemma writer_getsize (p : string) : writer (getsize p).
Proof.
  intros w. unfold getsize.
  destruct (files w p) as [[t r c|t k]|]; exists []; repeat split; discriminate.
Qed.

Lemma writer_ok {A} (a : A) : writer (lift (Ok a)).
Proof. intros w. exists []. repeat split. discriminate. Qed.

Lemma emitted_of_trace {A} (m : M A) (w : world) (delta : list io_event) :
  trace (snd (m w)) = (delta ++ trace w)%list -> emitted m w = rev delta.
Proof.
  intros H. unfold emitted. rewrite H, length_app, Nat.add_sub.
  now rewrite firstn_app, Nat.sub_diag, firstn_O, firstn_all, List.app_nil_r.
Qed.

Lemma writes_while_held (l rest : list io_event) :
  forallb is_write l = true ->
  writes_under_lock true (l ++ rest) = writes_under_lock true rest.
Proof.
  induction l as [|e l IH]; [reflexivity|].
  cbn [forallb]. intros H. apply andb_prop in H as [He Hl].
  destruct e; try discriminate; cbn; now apply IH.
Qed.

Lemma forallb_rev {A} (f : A -> bool) (l : list A) :
  forallb f l = true -> forallb f (rev l) = true.
Proof.
  rewrite !forallb_forall. intros H x Hx. apply H. now apply in_rev.
Qed.

Lemma dom0_body_writer (text : string) (event_time : Z) :
  writer
    (open_w DATA ;;; write_text false DATA text ;;;
     open_w FROM ;;; write_text true FROM "dom0" ;;;
     open_w XEVENT ;;; write_text true XEVENT (str_of_Z event_time) ;;;
     open_w METADATA ;;;
     sent_size <- getsize DATA ;;
     metadata <- lift (format dom0_metadata_template
                         [("xevent_timestamp", PyStr (str_of_Z event_time));
                          ("sent_size", PyInt sent_size);
                          ("buffer_size", PyStr "256000")]) ;;
     write_text true METADATA metadata).
Proof.
  repeat first [ apply writer_bind; [|intros ?]
               | apply writer_open_w | apply writer_write_text
               | apply writer_getsize ].
  rewrite dom0_metadata_format. apply writer_ok.
Qed.

(** X12: [copy_dom0_clipboard] is contained.  Whatever the clipboard
    holds and whatever state the staging directory is in, it returns
    normally; every truncation and write it makes lies between taking the
    lock and releasing it; and it leaves the lock released.  With nothing
    on the clipboard it only says so.  When anything fails, the lock file
    included, the last thing it does is send the error notification. *)
Theorem dom0_copy_contained (text : option string) (event_time : Z) (w : world) :
  let w' := snd (copy_dom0_clipboard text event_time w) in
  fst (copy_dom0_clipboard text event_time w) = Ok tt /\
  writes_under_lock false (emitted (copy_dom0_clipboard text event_time) w) = true /\
  (lock_held w = false -> lock_held w' = false) /\
  (text = None \/ text = Some "" ->
   w' = log (EvNotify "Dom0 clipboard is empty!" (Some "dialog-information")) w) /\
  (lock_openable w = false -> text <> None -> text <> Some "" ->
   w' = log (EvNotify "Error while accessing global clipboard!"
                      (Some "dialog-error")) w).
Proof.
  intros w'.
  assert (Hempty : forall m : M unit,
             m = send_notify "Dom0 clipboard is empty!" (Some "dialog-information") ->
             fst (m w) = Ok tt /\
             writes_under_lock false (emitted m w) = true /\
             (lock_held w = false -> lock_held (snd (m w)) = false) /\
             snd (m w)
             = log (EvNotify "Dom0 clipboard is empty!" (Some "dialog-information")) w).
  { intros m ->.
    split; [reflexivity|]. split; [|split; [intros H; exact H | reflexivity]].
    unfold emitted, send_notify, effect. cbn [snd log trace List.length].
    replace (S (List.length (trace w)) - List.length (trace w))%nat with 1%nat by lia.
    reflexivity. }
  destruct text as [[|c text]|].
  - destruct (Hempty _ eq_refl) as (H1 & H2 & H3 & H4).
    split; [exact H1|]. split; [exact H2|]. split; [exact H3|].
    split; [intros _; exact H4|]. intros _ _ Hne. now destruct Hne.
  - subst w'.
    assert (Hone : (S (List.length (trace w)) - List.length (trace w))%nat = 1%nat)
      by lia.
    destruct (lock_openable w) eqn:Hlock.
    + pose proof (dom0_body_writer (String c text) event_time (locked w)) as Hw.
      match type of Hw with
      | context [snd (?b (locked w))] =>
          destruct (b (locked w)) as [r w1] eqn:Hbody
      end.
      destruct Hw as (delta & Htrace & Hwrites & Hheld & Hmod).
      cbn [fst snd] in Htrace, Hheld, Hmod.
      assert (Hrun : copy_dom0_clipboard (Some (String c text)) event_time w
                     = match r with
                       | Raise _ =>
                           (Ok tt,
                            log (EvNotify "Error while accessing global clipboard!"
                                          (Some "dialog-error"))
                                (log EvLockUn (set_lock_held false w1)))
                       | _ => (r, log EvLockUn (set_lock_held false w1))
                       end).
      { unfold copy_dom0_clipboard, appviewer_lock. rewrite Hlock.
        fold (locked w). rewrite Hbody. now destruct r. }
      assert (Hunder : forall tail,
                 writes_under_lock false
                   (rev (tail ++ EvLockUn :: delta ++ [EvLockEx]))
                 = writes_under_lock false (rev tail)).
      { intros tail. rewrite rev_app_distr. cbn [rev].
        rewrite rev_app_distr. cbn [rev app].
        rewrite <- !app_assoc. cbn [app writes_under_lock].
        rewrite writes_while_held by now apply forallb_rev.
        reflexivity. }
      destruct r as [[]|e|]; [| |now destruct Hmod].
      * split; [now rewrite Hrun|]. split.
        -- erewrite emitted_of_trace
             with (delta := ([] ++ EvLockUn :: delta ++ [EvLockEx])%list).
           ++ now rewrite Hunder.
           ++ rewrite Hrun. cbn [snd log trace set_lock_held app].
              rewrite Htrace. cbn [locked log trace].
              now rewrite <- app_assoc.
        -- rewrite Hrun. split; [intros _; reflexivity|].
           split; [intros [H|H]; discriminate H | intros H; discriminate H].
      * split; [now rewrite Hrun|]. split.
        -- erewrite emitted_of_trace
             with (delta := ([EvNotify "Error while accessing global clipboard!"
                                       (Some "dialog-error")]
                             ++ EvLockUn :: delta ++ [EvLockEx])%list).
           ++ now rewrite Hunder.
           ++ rewrite Hrun. cbn [snd log trace set_lock_held app].
              rewrite Htrace. cbn [locked log trace].
              now rewrite <- app_assoc.
        -- rewrite Hrun. split; [intros _; reflexivity|].
           split; [intros [H|H]; discriminate H | intros H; discriminate H].
    + assert (Hrun : copy_dom0_clipboard (Some (String c text)) event_time w
                     = (Ok tt,
                        log (EvNotify "Error while accessing global clipboard!"
                                      (Some "dialog-error")) w)).
      { unfold copy_dom0_clipboard, appviewer_lock. now rewrite Hlock. }
      split; [now rewrite Hrun|]. split.
      * unfold emitted. rewrite Hrun. cbn [snd log trace List.length].
        rewrite Hone. reflexivity.
      * rewrite Hrun. split; [intros H; exact H|].
        split; [intros [H|H]; discriminate H | intros _ _ _; reflexivity].
  - destruct (Hempty _ eq_refl) as (H1 & H2 & H3 & H4).
    split; [exact H1|]. split; [exact H2|]. split; [exact H3|].
    split; [intros _; exact H4|]. intros _ Hne. now destruct Hne.
Qed.

Lemma dom0_copy_contained_witness :
  lock_openable no_lock_world = false /\
  copy_dom0_clipboard (Some "secret") 12345 no_lock_world
  = (Ok tt, log (EvNotify "Error while accessing global clipboard!"
                          (Some "dialog-error")) no_lock_world).
Proof.
  split; [reflexivity|].
  pose proof (dom0_copy_contained (Some "secret") 12345 no_lock_world) as H.
  cbv zeta in H. destruct H as (Hfst & _ & _ & _ & Hsnd).
  specialize (Hsnd eq_refl ltac:(discriminate) ltac:(discriminate)).
  rewrite (surjective_pairing (copy_dom0_clipboard _ _ _)), Hfst, Hsnd.
  reflexivity.
Defined.

Lemma take_digits_uint (d : Decimal.uint) (rest : string) (acc : positive) (cnt : nat) :
  Json.starts_with_digit rest = false ->
  Json.take_digits (NilEmpty.string_of_uint d ++ rest) (Z.pos acc) cnt
  = (Z.pos (Pos.of_uint_acc d acc), (cnt + Decimal.nb_digits d)%nat, rest).
Proof.
  intros Hrest. revert acc cnt.
  induction d; intros acc cnt;
    [ cbn [NilEmpty.string_of_uint append Pos.of_uint_acc Decimal.nb_digits];
      rewrite Nat.add_0_r; destruct rest as [|c r]; [reflexivity|];
      cbn [Json.starts_with_digit] in Hrest; cbn [Json.take_digits];
      now rewrite Hrest
    | .. ].
  all: cbn [NilEmpty.string_of_uint append Json.take_digits].
  all: match goal with
       | |- context [Json.is_digit ?c] => change (Json.is_digit c) with true
       end; cbv iota.
  all: match goal with
       | |- _ = (Z.pos (Pos.of_uint_acc ?D _), _, _) =>
           match goal with
           | |- context [Json.take_digits _ ?v _] =>
               match D with
               | ?C _ =>
                   replace v with (Z.pos (Pos.of_uint_acc (C Decimal.Nil) acc))
                     by (cbn [Pos.of_uint_acc];
                         match goal with
                         | |- context [Json.digit_val ?c] =>
                             let k := eval vm_compute in (Json.digit_val c) in
                             change (Json.digit_val c) with k
                         end; lia)
               end
           end
       end.
  all: rewrite IHd; cbn [Pos.of_uint_acc Decimal.nb_digits];
    rewrite Nat.add_succ_r; reflexivity.
Qed.

(** The digits of a positive number start with a digit other than 0. *)
Lemma to_uint_head (p : positive) :
  match Pos.to_uint p with
  | Decimal.Nil | Decimal.D0 _ => False
  | _ => True
  end.
Proof.
  pose proof (Unsigned.to_of (Pos.to_uint p)) as H.
  rewrite Unsigned.of_to in H. cbn [N.to_uint] in H.
  pose proof (Unsigned.to_uint_nonzero p) as Hnz.
  pose proof (Unsigned.to_uint_nonnil p) as Hnn.
  destruct (Pos.to_uint p) as [|d| | | | | | | | |]; try exact I.
  - now apply Hnn.
  - unfold Decimal.unorm in H. rewrite nzhead_D0 in H.
    destruct (Decimal.nzhead d) eqn:En; try discriminate.
    + injection H as Hd. subst d. now apply Hnz.
    + injection H as Hd. subst. now apply (nzhead_nonzero _ _ En).
Qed.

Lemma of_uint_acc_lower (d : Decimal.uint) (acc : positive) :
  Z.pos acc * 10 ^ Z.of_nat (Decimal.nb_digits d) <= Z.pos (Pos.of_uint_acc d acc).
Proof.
  revert acc. induction d as [|d IH|d IH|d IH|d IH|d IH|d IH|d IH|d IH|d IH|d IH];
    intros acc; [cbn; lia | cbn [Decimal.nb_digits Pos.of_uint_acc] ..].
  all: rewrite Nat2Z.inj_succ, Z.pow_succ_r by lia.
  all: match goal with
       | |- _ <= Z.pos (Pos.of_uint_acc _ ?a) =>
           specialize (IH a);
           assert (10 * Z.pos acc <= Z.pos a) by lia
       end.
  all: assert (0 <= 10 ^ Z.of_nat (Decimal.nb_digits d)) by (apply Z.pow_nonneg; lia).
  all: nia.
Qed.

Lemma digits_bound (d : Decimal.uint) (k p : positive) (N : nat) :
  Pos.of_uint_acc d k = p ->
  Z.pos p < 10 ^ Z.of_nat N ->
  (Decimal.nb_digits d < N)%nat.
Proof.
  intros Hp Hhi.
  pose proof (of_uint_acc_lower d k) as Hlow. rewrite Hp in Hlow.
  assert (Hpos : 0 < 10 ^ Z.of_nat (Decimal.nb_digits d))
    by (apply Z.pow_pos_nonneg; lia).
  assert (Hlt : 10 ^ Z.of_nat (Decimal.nb_digits d) < 10 ^ Z.of_nat N) by nia.
  apply Z.pow_lt_mono_r_iff in Hlt; lia.
Qed.

(** What the decoder makes of the decimal digits of a natural number that
    is followed by something that cannot continue a number. *)
Lemma match_number_str (n : Z) (rest : string) :
  0 <= n < 10 ^ 4300 ->
  Json.starts_with_digit rest = false ->
  Json.is_float_tail rest = false ->
  Json.match_number (str_of_Z n ++ rest) = Some (Ok (PyInt n, rest)).
Proof.
  intros [Hlo Hhi] Hdigit Hfloat.
  destruct n as [|p|p]; [| |now destruct Hlo].
  - cbn. now rewrite Hfloat.
  - clear Hlo. change 4300 with (Z.of_nat Json.int_max_str_digits) in Hhi.
    unfold str_of_Z, Z.to_int, NilZero.string_of_int, NilZero.string_of_uint.
    pose proof (to_uint_head p) as Hhead.
    pose proof (Unsigned.of_to p) as Hval.
    assert (Hcount : forall d k,
              Pos.of_uint_acc d k = p ->
              (Json.int_max_str_digits <? 1 + Decimal.nb_digits d)%nat = false).
    { intros d k Hp. apply Nat.ltb_ge.
      pose proof (digits_bound d k p _ Hp Hhi). lia. }
    clear Hhi.
    destruct (Pos.to_uint p) as [|d|d|d|d|d|d|d|d|d|d]; try contradiction.
    all: cbn [Pos.of_uint] in Hval; injection Hval as Hval.
    all: cbn [NilEmpty.string_of_uint append]; unfold Json.match_number.
    all: cbv beta iota zeta.
    all: match goal with
         | |- context [Json.is_digit ?c] =>
             change (Json.is_digit c) with true;
             change (Ascii.eqb c "0") with false
         end; cbn [negb]; cbv beta iota; cbn [Json.take_digits].
    all: match goal with
         | |- context [Json.is_digit ?c] =>
             change (Json.is_digit c) with true;
             let k := eval vm_compute in (10 * 0 + Json.digit_val c) in
             change (10 * 0 + Json.digit_val c) with k
         end; cbv beta iota.
    all: rewrite (take_digits_uint d rest _ 1 Hdigit).
    all: rewrite Hfloat, (Hcount _ _ Hval), Hval; reflexivity.
Qed.

Lemma str_of_Z_head (n : Z) :
  0 <= n -> exists c s, str_of_Z n = String c s /\ Json.is_digit c = true.
Proof.
  intros Hn. destruct n as [|p|p]; [now exists "0"%char, "" | | lia].
  unfold str_of_Z, Z.to_int, NilZero.string_of_int, NilZero.string_of_uint.
  pose proof (to_uint_head p) as Hhead.
  destruct (Pos.to_uint p); try contradiction; cbn [NilEmpty.string_of_uint];
    do 2 eexists; split; reflexivity.
Qed.

Lemma scan_once_digit (depth : nat) (c : ascii) (t : string) :
  Json.is_digit c = true ->
  Json.scan_once (S depth) (String c t)
  = match Json.match_number (String c t) with
    | Some r => r
    | None => Raise JSONDecodeError
    end.
Proof.
  intros Hc.
  destruct c as [[] [] [] [] [] [] [] []]; try discriminate Hc; reflexivity.
Qed.

Lemma skip_ws_digit (c : ascii) (t : string) :
  Json.is_digit c = true -> Json.skip_ws (String c t) = String c t.
Proof.
  intros Hc.
  destruct c as [[] [] [] [] [] [] [] []]; try discriminate Hc; reflexivity.
Qed.

(** A natural number printed by [str] and followed by a comma is read
    back as that number, the comma left in place. *)
Lemma scan_once_str (depth : nat) (n : Z) (rest : string) :
  0 <= n < 10 ^ 4300 ->
  Json.scan_once (S depth) (Json.skip_ws (str_of_Z n ++ String "," rest))
  = Ok (PyInt n, String "," rest).
Proof.
  intros Hn.
  pose proof (match_number_str n (String "," rest) Hn eq_refl eq_refl) as Hnum.
  destruct (str_of_Z_head n (proj1 Hn)) as (c & s & Hs & Hc).
  rewrite Hs in *. cbn [append] in *.
  rewrite (skip_ws_digit c _ Hc), (scan_once_digit depth c _ Hc). now rewrite Hnum.
Qed.

(** ** The decoder on the text the dom0 writer produces *)

Lemma members_next (scan : string -> res (val * string)) (n : nat)
  (s key r2 r3 r4 r5 r6 : string) (v : val) (acc : dict) :
  Json.scanstring s = Ok (key, r2) ->
  Json.skip_ws r2 = String ":" r3 ->
  scan (Json.skip_ws r3) = Ok (v, r4) ->
  Json.skip_ws r4 = String "," r5 ->
  Json.skip_ws r5 = String "034" r6 ->
  Json.members scan (S n) s acc = Json.members scan n r6 (dict_set key v acc).
Proof.
  intros Hkey Hcolon Hval Hcomma Hquote. cbn [Json.members].
  rewrite Hkey. cbn [rbind]. rewrite Hcolon, Hval. cbn [rbind].
  rewrite Hcomma. cbn. now rewrite Hquote.
Qed.

(** A comma must be followed by the quote of another key. *)
Lemma members_trailing_comma (scan : string -> res (val * string)) (n : nat)
  (s key r2 r3 r4 r5 r6 : string) (v : val) (acc : dict) :
  Json.scanstring s = Ok (key, r2) ->
  Json.skip_ws r2 = String ":" r3 ->
  scan (Json.skip_ws r3) = Ok (v, r4) ->
  Json.skip_ws r4 = String "," r5 ->
  Json.skip_ws r5 = String "}" r6 ->
  Json.members scan (S n) s acc = Raise JSONDecodeError.
Proof.
  intros Hkey Hcolon Hval Hcomma Hbrace. cbn [Json.members].
  rewrite Hkey. cbn [rbind]. rewrite Hcolon, Hval. cbn [rbind].
  rewrite Hcomma. cbn. now rewrite Hbrace.
Qed.

Lemma scan_once_object (depth : nat) (r r1 : string) :
  Json.skip_ws r = String "034" r1 ->
  Json.scan_once (S depth) (String "{" r)
  = Json.members (Json.scan_once depth) (S (String.length r1)) r1 [].
Proof.
  intros Hws. cbn [Json.scan_once].
  change (Ascii.eqb "{" "034") with false.
  change (Ascii.eqb "{" "{") with true.
  cbv iota. rewrite Hws.
  change (Ascii.eqb "034" "}") with false.
  change (Ascii.eqb "034" "034") with true.
  reflexivity.
Qed.

Lemma loads_object (r r1 : string) (outcome : res (val * string)) :
  Json.skip_ws r = String "034" r1 ->
  Json.members (Json.scan_once 99) (S (String.length r1)) r1 [] = outcome ->
  Json.loads (String "{" r)
  = rbind outcome (fun '(v, rest) =>
      match Json.skip_ws rest with "" => Ok v | _ => Raise JSONDecodeError end).
Proof.
  intros Hws Hmembers. unfold Json.loads.
  change (Json.skip_ws (String "{" r)) with (String "{" r).
  change Json.max_depth with (S 99).
  now rewrite (scan_once_object 99 r r1 Hws), Hmembers.
Qed.

Ltac member_of_object :=
  eapply eq_trans;
  [ eapply members_next;
    [ reflexivity | reflexivity
    | first [ reflexivity
            | match goal with
              | H : ?t = str_of_Z _ ++ _ |- context [?t] =>
                  rewrite H; apply scan_once_str; assumption
              end ]
    | reflexivity | reflexivity ]
  | ].

Lemma dom0_metadata_rejected (event_time sent_size : Z) :
  0 <= event_time < 10 ^ 4300 ->
  0 <= sent_size < 10 ^ 4300 ->
  Json.loads (dom0_metadata event_time sent_size) = Raise JSONDecodeError.
Proof.
  intros Htime Hsize. unfold dom0_metadata, quoted, dq, nl. cbn [append].
  match goal with
  | |- context [str_of_Z sent_size ++ ?r] =>
      remember (str_of_Z sent_size ++ r) as size_on eqn:Hsize_on
  end.
  match goal with
  | |- context [str_of_Z event_time ++ ?r] =>
      remember (str_of_Z event_time ++ r) as time_on eqn:Htime_on
  end.
  erewrite loads_object; [| reflexivity |].
  2: { cbn [String.length].
       do 11 member_of_object.
       eapply members_trailing_comma; reflexivity. }
  reflexivity.
Qed.

(** ** What the writers leave behind *)

Lemma string_forall_app (f : ascii -> bool) (a b : string) :
  string_forall f (a ++ b) = string_forall f a && string_forall f b.
Proof.
  induction a as [|c a IH]; [reflexivity|].
  cbn [append string_forall]. now rewrite IH, andb_assoc.
Qed.

Lemma string_forall_impl (f g : ascii -> bool) (s : string) :
  (forall c, f c = true -> g c = true) ->
  string_forall f s = true -> string_forall g s = true.
Proof.
  intros Hfg. induction s as [|c s IH]; [reflexivity|].
  cbn [string_forall]. intros H. apply andb_prop in H as [Hc Hs].
  now rewrite (Hfg c Hc), IH.
Qed.

Lemma string_of_uint_decimal (d : Decimal.uint) :
  string_forall is_decimal_char (NilEmpty.string_of_uint d) = true.
Proof. induction d; cbn [NilEmpty.string_of_uint string_forall]; auto. Qed.

Lemma str_of_Z_decimal (z : Z) : string_forall is_decimal_char (str_of_Z z) = true.
Proof.
  unfold str_of_Z, NilZero.string_of_int, NilZero.string_of_uint.
  destruct (Z.to_int z) as [d|d].
  - destruct d; try reflexivity; apply string_of_uint_decimal.
  - cbn [append string_forall].
    destruct d; try reflexivity; apply string_of_uint_decimal.
Qed.

Lemma all_ascii_forall (s : string) :
  all_ascii s = string_forall (fun c => (N_of_ascii c <? 128)%N) s.
Proof. induction s as [|c s IH]; [reflexivity|]. cbn. now rewrite IH. Qed.

Lemma decimal_char_ascii (c : ascii) :
  is_decimal_char c = true -> (N_of_ascii c <? 128)%N = true.
Proof.
  unfold is_decimal_char, Json.is_digit. intros H.
  apply orb_prop in H as [H | H].
  - apply andb_prop in H as [_ H]. apply N.leb_le in H. apply N.ltb_lt. lia.
  - apply Ascii.eqb_eq in H. now subst c.
Qed.

Lemma decimal_char_not_cr (c : ascii) :
  is_decimal_char c = true -> negb (Ascii.eqb c "013") = true.
Proof.
  unfold is_decimal_char, Json.is_digit. intros H.
  destruct (Ascii.eqb c "013") eqn:Hc; [|reflexivity].
  apply Ascii.eqb_eq in Hc. now subst c.
Qed.

Lemma all_ascii_app (a b : string) :
  all_ascii (a ++ b) = all_ascii a && all_ascii b.
Proof. rewrite !all_ascii_forall. apply string_forall_app. Qed.

Lemma all_ascii_str_of_Z (z : Z) : all_ascii (str_of_Z z) = true.
Proof.
  rewrite all_ascii_forall.
  exact (string_forall_impl _ _ _ decimal_char_ascii (str_of_Z_decimal z)).
Qed.

Lemma universal_newlines_app (a b : string) :
  string_forall (fun c => negb (Ascii.eqb c "013")) a = true ->
  universal_newlines (a ++ b) = a ++ universal_newlines b.
Proof.
  induction a as [|c a IH]; [reflexivity|].
  cbn [string_forall append]. intros H. apply andb_prop in H as [Hc Ha].
  cbn [universal_newlines]. apply negb_true_iff in Hc. rewrite Hc.
  now rewrite IH.
Qed.

Lemma universal_newlines_str_of_Z (z : Z) (rest : string) :
  universal_newlines (str_of_Z z ++ rest) = str_of_Z z ++ universal_newlines rest.
Proof.
  apply universal_newlines_app.
  exact (string_forall_impl _ _ _ decimal_char_not_cr (str_of_Z_decimal z)).
Qed.

Lemma all_ascii_dom0_metadata (event_time sent_size : Z) :
  all_ascii (dom0_metadata event_time sent_size) = true.
Proof.
  unfold dom0_metadata, quoted, dq, nl.
  repeat first [ rewrite all_ascii_str_of_Z | rewrite all_ascii_app ].
  reflexivity.
Qed.

Lemma universal_newlines_dom0_metadata (event_time sent_size : Z) :
  universal_newlines (dom0_metadata event_time sent_size)
  = dom0_metadata event_time sent_size.
Proof.
  unfold dom0_metadata, quoted, dq, nl. cbn [append].
  repeat (cbn [universal_newlines Ascii.eqb Bool.eqb];
          rewrite ?universal_newlines_str_of_Z).
  reflexivity.
Qed.

Lemma open_w_ok (p : string) (w : world) :
  writable w p = true ->
  open_w p w = (Ok tt, log (EvTruncate p) (put p "" w)).
Proof.
  unfold writable, open_w, put, readable_at. intros H.
  apply andb_prop in H as [Hcan Hnode]. rewrite Hcan.
  now destruct (files w p) as [[t r c|t k]|].
Qed.

Lemma open_w_refused (p : string) (w : world) :
  writable w p = false -> open_w p w = (Raise OSError, w).
Proof.
  unfold writable, open_w. intros H.
  destruct (can_write w p); [|reflexivity].
  now destruct (files w p) as [[t r c|t k]|].
Qed.

Lemma write_text_ok (ascii_only : bool) (p text : string) (w : world) :
  ascii_only && negb (all_ascii text) = false ->
  write_text ascii_only p text w = (Ok tt, log (EvWrite p text) (put p text w)).
Proof. unfold write_text, put, readable_at. now intros ->. Qed.

Lemma files_written (q text p : string) (w : world) :
  files (written q text w) p
  = if String.eqb p q then Some (RegFile (now w) (readable_at w q) text)
    else files w p.
Proof.
  unfold written, put, readable_at. cbn [files log set_files now].
  destruct (String.eqb p q) eqn:Hpq; [|reflexivity].
  now rewrite String.eqb_refl.
Qed.

Lemma writable_written (q text p : string) (w : world) :
  writable w p = true -> writable (written q text w) p = true.
Proof.
  unfold writable. rewrite files_written.
  change (can_write (written q text w) p) with (can_write w p).
  intros H. apply andb_prop in H as [-> Hnode].
  now destruct (String.eqb p q).
Qed.

Lemma open_write (ascii_only : bool) (p text : string) {A} (k : M A) (w : world) :
  writable w p = true ->
  ascii_only && negb (all_ascii text) = false ->
  (open_w p ;;; write_text ascii_only p text ;;; k) w = k (written p text w).
Proof.
  intros Hp Htext. unfold bind at 1. rewrite (open_w_ok p w Hp).
  unfold bind at 1. now rewrite (write_text_ok ascii_only p text _ Htext).
Qed.

Lemma rejected_pass (w : world) (m d : Z) (rd rd' : bool) (c c' : string) :
  lock_openable w = true ->
  files w METADATA = Some (RegFile m rd c) ->
  files w DATA = Some (RegFile d rd' c') ->
  d <= m ->
  all_ascii c = true ->
  Json.loads (universal_newlines c) = Raise JSONDecodeError ->
  process_IN_CLOSE_WRITE w = (Ok tt, released w).
Proof.
  intros Hlock Hmeta Hdata Hle Hascii Hbad.
  assert (Hmode : decode_mode w = Some true).
  { unfold decode_mode. rewrite Hmeta, Hdata. f_equal. now apply Z.leb_le. }
  assert (Hdec := decode_at_lock w). rewrite Hmode in Hdec.
  destruct rd.
  - rewrite (decode_structured_run (locked w) m c Hmeta Hascii), Hbad in Hdec.
    exact (close_write_run w None Hlock Hdec).
  - rewrite (decode_structured_unreadable (locked w) m c Hmeta) in Hdec.
    exact (close_write_run w None Hlock Hdec).
Qed.

Lemma dom0_copy_run (text : string) (event_time : Z) (w : world) :
  text <> "" ->
  lock_openable w = true ->
  writable w DATA = true -> writable w FROM = true ->
  writable w XEVENT = true -> writable w METADATA = true ->
  copy_dom0_clipboard (Some text) event_time w
  = (Ok tt, dom0_copied text event_time w).
Proof.
  intros Htext Hlock Hdata Hfrom Hxevent Hmeta.
  destruct text as [|c text]; [now destruct Htext|].
  unfold copy_dom0_clipboard, appviewer_lock. rewrite Hlock. fold (locked w).
  rewrite open_write by (exact Hdata || reflexivity).
  rewrite open_write by (now apply writable_written || reflexivity).
  rewrite open_write
    by (now repeat apply writable_written || now rewrite all_ascii_str_of_Z).
  unfold bind at 1. rewrite open_w_ok by now repeat apply writable_written.
  unfold bind at 1. unfold getsize at 1.
  cbn [files log set_files put]. rewrite !files_written.
  cbn [String.eqb Ascii.eqb Bool.eqb DATA METADATA XEVENT FROM].
  unfold bind at 1. rewrite dom0_metadata_format. unfold lift.
  rewrite write_text_ok by now rewrite all_ascii_dom0_metadata.
  reflexivity.
Qed.

Lemma readable_at_written (q text p : string) (w : world) :
  readable_at (written q text w) p = readable_at w p.
Proof.
  unfold readable_at at 1. rewrite files_written.
  destruct (String.eqb p q) eqn:Hpq; [|reflexivity].
  apply String.eqb_eq in Hpq. now subst p.
Qed.

Lemma now_written (q text : string) (w : world) : now (written q text w) = now w.
Proof. reflexivity. Qed.

Lemma files_log (e : io_event) (w : world) : files (log e w) = files w.
Proof. reflexivity. Qed.

Lemma files_set_lock_held (b : bool) (w : world) :
  files (set_lock_held b w) = files w.
Proof. reflexivity. Qed.

Lemma trace_written (q text : string) (w : world) :
  trace (written q text w) = EvWrite q text :: EvTruncate q :: trace w.
Proof. reflexivity. Qed.

Lemma lock_openable_written (q text : string) (w : world) :
  lock_openable (written q text w) = lock_openable w.
Proof. reflexivity. Qed.

Lemma dom0_copied_files (text : string) (event_time : Z) (w : world) (p : string) :
  files (dom0_copied text event_time w) p
  = if String.eqb p METADATA
    then Some (RegFile (now w) (readable_at w METADATA)
                       (dom0_metadata event_time (Z.of_nat (String.length text))))
    else if String.eqb p XEVENT
    then Some (RegFile (now w) (readable_at w XEVENT) (str_of_Z event_time))
    else if String.eqb p FROM
    then Some (RegFile (now w) (readable_at w FROM) "dom0")
    else if String.eqb p DATA
    then Some (RegFile (now w) (readable_at w DATA) text)
    else files w p.
Proof.
  unfold dom0_copied.
  rewrite files_log, files_set_lock_held.
  rewrite !files_written, !readable_at_written, !now_written.
  reflexivity.
Qed.

Lemma trace_log (e : io_event) (w : world) : trace (log e w) = e :: trace w.
Proof. reflexivity. Qed.

Lemma trace_set_lock_held (b : bool) (w : world) :
  trace (set_lock_held b w) = trace w.
Proof. reflexivity. Qed.

Lemma dom0_copied_trace (text : string) (event_time : Z) (w : world) :
  trace (dom0_copied text event_time w)
  = ([EvLockUn;
      EvWrite METADATA (dom0_metadata event_time (Z.of_nat (String.length text)));
      EvTruncate METADATA;
      EvWrite XEVENT (str_of_Z event_time); EvTruncate XEVENT;
      EvWrite FROM "dom0"; EvTruncate FROM;
      EvWrite DATA text; EvTruncate DATA;
      EvLockEx] ++ trace w)%list.
Proof.
  unfold dom0_copied.
  rewrite trace_log, trace_set_lock_held, !trace_written.
  reflexivity.
Qed.

Lemma dom0_copied_lock (text : string) (event_time : Z) (w : world) :
  lock_openable (dom0_copied text event_time w) = lock_openable w /\
  lock_held (dom0_copied text event_time w) = false.
Proof. split; reflexivity. Qed.

(** X13: when the lock and the four staging files can be opened,
    [copy_dom0_clipboard] leaves the clipboard text in the payload file,
    "dom0" in the source file, the event time in the xevent file and the
    metadata text in the metadata file, all written under the lock, and
    shows nothing.  The pass that the write triggers shows nothing either:
    for every clipboard text and event time the decoder refuses the
    metadata (a comma before the closing brace), so a copy from dom0 is
    never announced. *)
Theorem dom0_copy_success (text : string) (event_time : Z) (w : world) :
  text <> "" ->
  lock_openable w = true ->
  writable w DATA = true -> writable w FROM = true ->
  writable w XEVENT = true -> writable w METADATA = true ->
  let w' := dom0_copied text event_time w in
  copy_dom0_clipboard (Some text) event_time w = (Ok tt, w') /\
  content_of w' DATA = Some text /\
  content_of w' FROM = Some "dom0" /\
  content_of w' XEVENT = Some (str_of_Z event_time) /\
  content_of w' METADATA
  = Some (dom0_metadata event_time (Z.of_nat (String.length text))) /\
  lock_held w' = false /\
  notifications w' = notifications w /\
  (0 <= event_time < 10 ^ 4300 ->
   Z.of_nat (String.length text) < 10 ^ 4300 ->
   process_IN_CLOSE_WRITE w' = (Ok tt, released w')).
Proof.
  intros Htext Hlock Hdata Hfrom Hxevent Hmeta w'. subst w'.
  split; [now apply dom0_copy_run|].
  unfold content_of. rewrite !dom0_copied_files.
  split; [reflexivity|]. split; [reflexivity|].
  split; [reflexivity|]. split; [reflexivity|].
  split; [apply dom0_copied_lock|].
  split.
  - unfold notifications. rewrite dom0_copied_trace. reflexivity.
  - intros Htime Hsize.
    eapply rejected_pass with (m := now w) (d := now w).
    + rewrite (proj1 (dom0_copied_lock text event_time w)). exact Hlock.
    + rewrite dom0_copied_files. reflexivity.
    + rewrite dom0_copied_files. reflexivity.
    + apply Z.le_refl.
    + apply all_ascii_dom0_metadata.
    + rewrite universal_newlines_dom0_metadata.
      apply dom0_metadata_rejected;
        [exact Htime | split; [apply Nat2Z.is_nonneg | exact Hsize]].
Qed.

Lemma dom0_copy_success_witness :
  lock_openable no_files_world = true /\
  writable no_files_world DATA = true /\ writable no_files_world FROM = true /\
  writable no_files_world XEVENT = true /\ writable no_files_world METADATA = true /\
  copy_dom0_clipboard (Some "secret") 12345 no_files_world
  = (Ok tt, dom0_copied "secret" 12345 no_files_world) /\
  process_IN_CLOSE_WRITE (dom0_copied "secret" 12345 no_files_world)
  = (Ok tt, released (dom0_copied "secret" 12345 no_files_world)).
Proof.
  assert (Htime : 0 <= 12345 < 10 ^ 4300) by (vm_compute; split; congruence).
  assert (Hsize : Z.of_nat (String.length "secret") < 10 ^ 4300) by reflexivity.
  assert (Htext : "secret" <> "") by discriminate.
  pose proof (dom0_copy_success "secret" 12345 no_files_world Htext
                eq_refl eq_refl eq_refl eq_refl eq_refl) as H.
  cbv zeta in H. destruct H as (Hrun & _ & _ & _ & _ & _ & _ & Hpass).
  do 5 (split; [reflexivity|]).
  split; [exact Hrun | exact (Hpass Htime Hsize)].
Defined.

(** ** The writer of the virtual browser *)











(** ** Start-up of the watch controller *)

(** X15: what the widget listens to once it has started, from a watch
    manager without watches.  If the source file exists it is watched for
    all events.  If not, and the staging directory exists, the directory
    is watched for creations and the watch is remembered as temporary.
    If the directory is missing too, the watch manager answers with a
    negative descriptor, which is stored without being looked at: the
    widget comes up with no watch at all and nothing will ever reach it.
    No file is touched and nothing is shown in any of the cases. *)
Theorem init_watch_outcome (w : world) :
  watches w = [] -> temporary_watch w = None ->
  exists w',
    init_watch w = (Ok tt, w') /\ files w' = files w /\ trace w' = trace w /\
    match files w FROM, files w FROM_DIR with
    | Some _, _ =>
        armed w' = true /\ temporary_watch w' = None /\
        watches w' = [(next_wd w, (FROM, ALL_EVENTS))]
    | None, Some _ =>
        unarmed w' = true /\
        watches w' = [(next_wd w, (FROM_DIR, IN_CREATE))]
    | None, None =>
        watches w' = [] /\ armed w' = false /\ unarmed w' = false /\
        temporary_watch w' = Some [(FROM_DIR, -1)]
    end.
Proof.
  destruct w as [fs cw lo nw lh ps tw ws nwd lr tr].
  cbn [watches temporary_watch files next_wd trace]. intros -> ->.
  unfold init_watch, bind at 1, exists_. cbn [files].
  destruct (fs FROM) as [n|] eqn:Hfrom.
  - unfold setup_watcher, bind, add_watch, ret. cbn [temporary_watch files].
    rewrite Hfrom. cbn [watches find set_watches next_wd].
    eexists. split; [reflexivity|]. split; [reflexivity|]. split; [reflexivity|].
    split; [|split; reflexivity].
    unfold armed. cbn [watches]. apply String.eqb_refl.
  - unfold bind, add_watch. cbn [files].
    destruct (fs FROM_DIR) as [n|] eqn:Hdir.
    + cbn [watches find set_watches next_wd].
      eexists. split; [reflexivity|]. split; [reflexivity|]. split; [reflexivity|].
      split; [|reflexivity].
      unfold unarmed. cbn [watches temporary_watch set_watches set_temporary_watch].
      now rewrite String.eqb_refl, Z.eqb_refl.
    + eexists. split; [reflexivity|]. split; [reflexivity|]. split; [reflexivity|].
      split; [reflexivity|]. split; [reflexivity|]. split; reflexivity.
Qed.

Lemma init_watch_outcome_witness :
  watches no_files_world = [] /\ temporary_watch no_files_world = None /\
  exists w',
    init_watch no_files_world = (Ok tt, w') /\
    unarmed w' = true /\
    watches w' = [(next_wd no_files_world, (FROM_DIR, IN_CREATE))].
Proof.
  split; [reflexivity|]. split; [reflexivity|].
  destruct (init_watch_outcome no_files_world eq_refl eq_refl)
    as (w' & Hrun & _ & _ & Hcase).
  exists w'. split; [exact Hrun | exact Hcase].
Defined.

(** ** Shortcuts *)

Example prettify_examples :
  _prettify_shortcut "Ctrl-Mod4-c" = Ok "Ctrl+Win+C" /\
  _prettify_shortcut "Shift-Ins" = Ok "Shift+Insert" /\
  _prettify_shortcut "Ctrl--v" = Ok "Ctrl++V" /\
  _prettify_shortcut "" = Ok "".
Proof. repeat split. Qed.

Lemma split_on_cons (sep : ascii) (s : string) :
  exists p ps, split_on sep s = p :: ps.
Proof.
  induction s as [|c s (p & ps & IH)]; [now exists "", []|].
  cbn [split_on]. destruct (Ascii.eqb c sep); [now eexists _, _|].
  rewrite IH. now eexists _, _.
Qed.

Lemma split_on_app (sep : ascii) (a b : string) :
  split_on sep (a ++ String sep b) = (split_on sep a ++ split_on sep b)%list.
Proof.
  induction a as [|c a IH]; cbn [append split_on].
  - now rewrite Ascii.eqb_refl.
  - destruct (Ascii.eqb c sep); [now rewrite IH|].
    rewrite IH. destruct (split_on_cons sep a) as (p & ps & ->). reflexivity.
Qed.

Lemma string_append_assoc (a b c : string) : (a ++ b) ++ c = a ++ b ++ c.
Proof. induction a as [|x a IH]; [reflexivity|]. cbn. now rewrite IH. Qed.

Lemma join_app (sep : string) (l1 l2 : list string) :
  l1 <> [] -> l2 <> [] ->
  join sep (l1 ++ l2) = join sep l1 ++ sep ++ join sep l2.
Proof.
  intros H1 H2. induction l1 as [|p l1 IH]; [now destruct H1|].
  destruct l1 as [|q l1].
  - cbn [app join]. now destruct l2.
  - change (join sep ((p :: q :: l1) ++ l2))
      with (p ++ sep ++ join sep ((q :: l1) ++ l2)).
    rewrite IH by discriminate.
    change (join sep (p :: q :: l1)) with (p ++ sep ++ join sep (q :: l1)).
    now rewrite !string_append_assoc.
Qed.

Lemma convert_all_app (l1 l2 : list string) :
  convert_all (l1 ++ l2)
  = rbind (convert_all l1) (fun x =>
    rbind (convert_all l2) (fun y => Ok (x ++ y)%list)).
Proof.
  induction l1 as [|p l1 IH]; cbn [app convert_all rbind].
  - now destruct (convert_all l2).
  - destruct (_convert_to_readable p); cbn [rbind]; try reflexivity.
    rewrite IH. destruct (convert_all l1); cbn [rbind]; try reflexivity.
    destruct (convert_all l2); reflexivity.
Qed.

Lemma convert_all_length (l l' : list string) :
  convert_all l = Ok l' -> List.length l' = List.length l.
Proof.
  revert l'. induction l as [|p l IH]; intros l' H; cbn [convert_all] in H.
  - now injection H as <-.
  - destruct (_convert_to_readable p); try discriminate. cbn [rbind] in H.
    destruct (convert_all l) as [r| |]; try discriminate. cbn [rbind] in H.
    injection H as <-. cbn [List.length]. now rewrite (IH r).
Qed.

(** X16: the dashes of a shortcut are its only structure.  Prettifying
    two shortcuts joined by a dash gives the two prettified shortcuts
    joined by a plus sign, whatever they are. *)
Theorem prettify_dash (a b : string) :
  _prettify_shortcut (a ++ "-" ++ b)
  = rbind (_prettify_shortcut a) (fun x =>
    rbind (_prettify_shortcut b) (fun y => Ok (x ++ "+" ++ y))).
Proof.
  unfold _prettify_shortcut. change ("-" ++ b) with (String "-" b).
  rewrite split_on_app, convert_all_app.
  destruct (convert_all (split_on "-" a)) as [x| |] eqn:Ha; try reflexivity.
  destruct (convert_all (split_on "-" b)) as [y| |] eqn:Hb; try reflexivity.
  cbn [rbind]. f_equal. apply join_app.
  - apply convert_all_length in Ha.
    destruct (split_on_cons "-" a) as (p & ps & Hs). rewrite Hs in Ha.
    now destruct x.
  - apply convert_all_length in Hb.
    destruct (split_on_cons "-" b) as (p & ps & Hs). rewrite Hs in Hb.
    now destruct y.
Qed.

Lemma upper_ascii_facts (c : ascii) :
  upper_ascii (upper_ascii c) = upper_ascii c /\
  ((N_of_ascii c <? 128)%N = true -> (N_of_ascii (upper_ascii c) <? 128)%N = true) /\
  (Ascii.eqb c "-" = false -> Ascii.eqb (upper_ascii c) "-" = false).
Proof.
  destruct c as [[] [] [] [] [] [] [] []]; vm_compute; repeat split; congruence.
Qed.

Lemma eqb_single_long (x a b : ascii) (r : string) :
  String.eqb (String x "") (String a (String b r)) = false.
Proof. cbn [String.eqb]. apply andb_false_r. Qed.

Lemma split_on_parts (s : string) :
  all_ascii s = true -> Forall plain_part (split_on "-" s).
Proof.
  induction s as [|c s IH]; intros Hs.
  - repeat constructor.
  - cbn [all_ascii] in Hs. apply andb_prop in Hs as [Hc Hs]. specialize (IH Hs).
    cbn [split_on]. destruct (Ascii.eqb c "-") eqn:Hdash.
    + constructor; [now split | exact IH].
    + destruct (split_on_cons "-" s) as (p & ps & Hsplit). rewrite Hsplit in *.
      inversion IH as [|? ? [Hp1 Hp2] Hps]; subst.
      constructor; [|exact Hps]. split; cbn; now rewrite ?Hc, ?Hdash.
Qed.

Lemma convert_plain (p : string) :
  plain_part p ->
  exists p', _convert_to_readable p = Ok p' /\ plain_part p' /\
             _convert_to_readable p' = Ok p'.
Proof.
  intros [Hascii Hdash]. unfold _convert_to_readable at 1.
  destruct (String.eqb p "Mod4") eqn:Hmod; [exists "Win"; now repeat split|].
  destruct (String.eqb p "Ins") eqn:Hins; [exists "Insert"; now repeat split|].
  rewrite Hascii. cbn [negb].
  destruct p as [|c [|d p]].
  - exists "". now repeat split.
  - destruct (upper_ascii_facts c) as (Hidem & Hup & Hnodash).
    cbn in Hascii, Hdash. rewrite andb_true_r in Hascii. rewrite orb_false_r in Hdash.
    exists (String (upper_ascii c) ""). split; [reflexivity|]. split.
    + split; cbn; now rewrite ?Hup, ?Hnodash.
    + unfold _convert_to_readable.
      rewrite !eqb_single_long.
      cbn [all_ascii]. rewrite (Hup Hascii). cbn [andb negb]. now rewrite Hidem.
  - exists (String c (String d p)). split; [reflexivity|]. split; [now split|].
    unfold _convert_to_readable. now rewrite Hmod, Hins, Hascii.
Qed.

Lemma convert_all_plain (l : list string) :
  Forall plain_part l ->
  exists l', convert_all l = Ok l' /\ List.length l' = List.length l /\
             Forall (fun p => plain_part p /\ _convert_to_readable p = Ok p) l'.
Proof.
  induction 1 as [|p l Hp Hl (l' & Hrun & Hlen & Hall)].
  - exists []. now repeat split.
  - destruct (convert_plain p Hp) as (p' & Hconv & Hplain & Hfix).
    exists (p' :: l'). cbn [convert_all]. rewrite Hconv, Hrun. cbn [rbind List.length].
    split; [reflexivity|]. split; [now rewrite Hlen|]. now constructor.
Qed.

Lemma has_char_app (c : ascii) (a b : string) :
  has_char c (a ++ b) = has_char c a || has_char c b.
Proof.
  induction a as [|x a IH]; [reflexivity|]. cbn. now rewrite IH, orb_assoc.
Qed.

Lemma join_plain (l : list string) :
  Forall plain_part l -> plain_part (join "+" l).
Proof.
  induction 1 as [|p l [Hp1 Hp2] Hl [IH1 IH2]]; [now split|].
  destruct l as [|q l]; [now split|].
  change (join "+" (p :: q :: l)) with (p ++ "+" ++ join "+" (q :: l)).
  split.
  - now rewrite !all_ascii_app, Hp1, IH1.
  - now rewrite !has_char_app, Hp2, IH2.
Qed.

Lemma split_on_plain (sep : ascii) (s : string) :
  has_char sep s = false -> split_on sep s = [s].
Proof.
  induction s as [|c s IH]; [reflexivity|].
  cbn. intros H. apply orb_false_elim in H as [Hc Hs].
  now rewrite Hc, (IH Hs).
Qed.

Lemma convert_with_plus (r : string) :
  all_ascii r = true -> has_char "+" r = true -> _convert_to_readable r = Ok r.
Proof.
  intros Hascii Hplus. unfold _convert_to_readable.
  destruct (String.eqb r "Mod4") eqn:Hmod.
  { apply String.eqb_eq in Hmod. now subst r. }
  destruct (String.eqb r "Ins") eqn:Hins.
  { apply String.eqb_eq in Hins. now subst r. }
  rewrite Hascii. cbn [negb].
  destruct r as [|c [|d r]]; try reflexivity.
  cbn in Hplus. rewrite orb_false_r in Hplus.
  apply Ascii.eqb_eq in Hplus. now subst c.
Qed.

(** X17: on an ASCII shortcut [_prettify_shortcut] succeeds, leaves no
    dash in the result, and the result is a fixed point: prettifying a
    shortcut that has been prettified changes nothing. *)
Theorem prettify_readable (shortcut : string) :
  all_ascii shortcut = true ->
  exists pretty,
    _prettify_shortcut shortcut = Ok pretty /\
    has_char "-" pretty = false /\
    all_ascii pretty = true /\
    _prettify_shortcut pretty = Ok pretty.
Proof.
  intros Hascii. unfold _prettify_shortcut at 1.
  destruct (convert_all_plain _ (split_on_parts shortcut Hascii))
    as (l' & Hrun & Hlen & Hall).
  rewrite Hrun. cbn [rbind]. exists (join "+" l').
  assert (Hplain : plain_part (join "+" l')).
  { apply join_plain. eapply Forall_impl; [|exact Hall]. now intros p [Hp _]. }
  destruct Hplain as [Hjascii Hjdash].
  split; [reflexivity|]. split; [exact Hjdash|]. split; [exact Hjascii|].
  unfold _prettify_shortcut. rewrite (split_on_plain _ _ Hjdash).
  cbn [convert_all].
  assert (Hfix : _convert_to_readable (join "+" l') = Ok (join "+" l')).
  { destruct l' as [|p [|q l']].
    - reflexivity.
    - now inversion Hall as [|? ? [_ Hp] _].
    - apply convert_with_plus; [exact Hjascii|].
      change (join "+" (p :: q :: l')) with (p ++ "+" ++ join "+" (q :: l')).
      rewrite !has_char_app. cbn. now rewrite orb_true_r. }
  now rewrite Hfix.
Qed.

Lemma prettify_readable_witness :
  all_ascii "Ctrl-Mod4-c" = true /\
  _prettify_shortcut "Ctrl-Mod4-c" = Ok "Ctrl+Win+C" /\
  exists pretty,
    _prettify_shortcut "Ctrl-Mod4-c" = Ok pretty /\
    _prettify_shortcut pretty = Ok pretty.
Proof.
  split; [reflexivity|]. split; [reflexivity|].
  destruct (prettify_readable "Ctrl-Mod4-c" eq_refl) as (pretty & Hrun & _ & _ & Hfix).
  exists pretty. split; [exact Hrun | exact Hfix].
Defined.

(** X18: [setup_ui], which also runs whenever one of the two shortcut
    features of the GUI domain is set or deleted.  It stores the
    prettified paste shortcut, builds the help line from both shortcuts,
    and resets the clipboard label to "empty" whatever the clipboard
    holds; it sends no notification.  The shortcut it stored is the one
    the next successful copy tells the user to press. *)
Theorem setup_ui_outcome (copy_feature paste_feature : option string) (w : world) :
  all_ascii (feature_or "Ctrl-Shift-C" copy_feature) = true ->
  all_ascii (feature_or "Ctrl-Shift-V" paste_feature) = true ->
  exists copy paste,
    _prettify_shortcut (feature_or "Ctrl-Shift-C" copy_feature) = Ok copy /\
    _prettify_shortcut (feature_or "Ctrl-Shift-V" paste_feature) = Ok paste /\
    let w' := log (EvLabel "<i>Global clipboard is empty</i>")
                  (set_paste_shortcut paste w) in
    setup_ui copy_feature paste_feature w
    = (Ok ("<i>Use <b>" ++ copy ++ "</b> to copy and <b>" ++ paste
             ++ "</b> to paste.</i>"), w') /\
    forall md r,
      represents md r = true ->
      float_range (sent_size r) = true ->
      payload_size_ok w = true ->
      copy_case r = 6%nat ->
      last_notify (snd (_copy md w'))
      = Some (let body :=
                "Clipboard contents fetched from qube: <b>'" ++ vmname r ++ "'</b>"
                  ++ nl ++ "Copied <b>" ++ size_shown w (sent_size r)
                  ++ "</b> to the global clipboard." ++ nl
                  ++ "<small>Press " ++ paste
                  ++ " in qube to paste to local clipboard.</small>" in
              if cleared r then body ++ MSG_WIPED else body,
              Some "dialog-information").
Proof.
  intros Hcopy Hpaste.
  destruct (prettify_readable _ Hcopy) as (copy & Hc & _).
  destruct (prettify_readable _ Hpaste) as (paste & Hp & _).
  exists copy, paste. split; [exact Hc|]. split; [exact Hp|].
  intros w'. split.
  - unfold setup_ui, bind, lift. rewrite Hc, Hp. reflexivity.
  - intros md r Hmd Hsent Hpay Hcase.
    destruct (_copy_table md r w' Hmd Hsent) as (body & Hbase & Hrun);
      [rewrite Hcase; discriminate | exact Hpay |].
    rewrite Hrun. unfold copy_base in *. rewrite Hcase in *. cbn [fst snd] in *.
    injection Hbase as <-. reflexivity.
Qed.

Lemma setup_ui_outcome_witness :
  all_ascii (feature_or "Ctrl-Shift-C" None) = true /\
  all_ascii (feature_or "Ctrl-Shift-V" (Some "Ctrl-Mod4-v")) = true /\
  exists copy paste,
    _prettify_shortcut "Ctrl-Mod4-v" = Ok paste /\
    setup_ui None (Some "Ctrl-Mod4-v") legacy_world
    = (Ok ("<i>Use <b>" ++ copy ++ "</b> to copy and <b>" ++ paste
             ++ "</b> to paste.</i>"),
       log (EvLabel "<i>Global clipboard is empty</i>")
           (set_paste_shortcut paste legacy_world)).
Proof.
  split; [reflexivity|]. split; [reflexivity|].
  destruct (setup_ui_outcome None (Some "Ctrl-Mod4-v") legacy_world eq_refl eq_refl)
    as (copy & paste & _ & Hp & Hrun & _).
  exists copy, paste. split; [exact Hp | exact Hrun].
Defined.

(** ** The virtual browser's choice of action *)

Lemma prefix_append (p s : string) : String.prefix p (p ++ s) = true.
Proof.
  induction p as [|c p IH]; [now destruct s|].
  cbn [append String.prefix]. now destruct (ascii_dec c c).
Qed.

Lemma prefix_split (p s : string) :
  String.prefix p s = true -> s = p ++ Json.drop (String.length p) s.
Proof.
  revert s. induction p as [|c p IH]; intros s H; [reflexivity|].
  destruct s as [|d s]; [discriminate|].
  cbn [String.prefix] in H. destruct (ascii_dec c d) as [<-|]; [|discriminate].
  cbn [String.length Json.drop append]. now rewrite <- (IH s H).
Qed.

Lemma disposable_prefix (template : string) :
  VirtualBrowser.startswith "disposable:" ("disposable:" ++ template) = true /\
  Json.drop 11 ("disposable:" ++ template) = template.
Proof. split; [apply prefix_append | reflexivity]. Qed.

Lemma existsb_name (name : string) (domains : list string) :
  existsb (String.eqb name) domains = true <-> In name domains.
Proof.
  rewrite existsb_exists. split.
  - intros (x & Hx & Heq). apply String.eqb_eq in Heq. now subst x.
  - intros H. exists name. split; [exact H | apply String.eqb_refl].
Qed.

(** The dialog is shown with [--ask], and otherwise unless the saved
    action is "clipboard", "discard" or "disposable:" followed by the
    name of a qube that exists. *)
Lemma asks_spec (ask : bool) (action : string) (domains : list string) :
  VirtualBrowser.asks ask action domains = true <->
  ask = true \/
  (action <> "clipboard" /\ action <> "discard" /\
   forall template, action = "disposable:" ++ template -> ~ In template domains).
Proof.
  unfold VirtualBrowser.asks, VirtualBrowser.startswith. split.
  - intros H. apply orb_prop in H as [H | H]; [now left|]. right.
    apply andb_prop in H as [Hknown Hdvm].
    apply negb_true_iff in Hknown. apply orb_false_elim in Hknown as [Hc Hd].
    apply String.eqb_neq in Hc. apply String.eqb_neq in Hd.
    split; [exact Hc|]. split; [exact Hd|].
    intros template -> Hin. apply negb_true_iff in Hdvm.
    rewrite prefix_append in Hdvm. cbn [andb Json.drop append] in Hdvm.
    apply existsb_name in Hin. congruence.
  - intros [-> | (Hc & Hd & Hdvm)]; [reflexivity|].
    apply String.eqb_neq in Hc. apply String.eqb_neq in Hd.
    rewrite Hc, Hd. cbn [orb negb andb].
    destruct ask; [reflexivity|]. cbn [orb].
    destruct (String.prefix "disposable:" action) eqn:Hp; [|reflexivity].
    cbn [andb]. apply negb_true_iff.
    destruct (existsb (String.eqb (Json.drop 11 action)) domains) eqn:Hex;
      [|reflexivity].
    apply existsb_name in Hex. apply prefix_split in Hp.
    now destruct (Hdvm _ Hp).
Qed.

Lemma main_dialog (ask : bool) (url : string) (feature : option string)
  (domains : list string) (local_name : string) :
  VirtualBrowser.asks ask (match feature with Some v => v | None => "" end) domains
  = true ->
  (forall pressed save_default,
     VirtualBrowser.main ask url feature domains local_name
                         (Some (pressed, save_default))
     = (VirtualBrowser.intended pressed url local_name,
        if save_default then Some (action_text pressed) else feature)) /\
  VirtualBrowser.main ask url feature domains local_name None
  = (VirtualBrowser.Nothing, feature).
Proof.
  intros Hasks. split.
  - intros pressed save_default. unfold VirtualBrowser.main. rewrite Hasks.
    destruct pressed as [template| |];
      cbn [VirtualBrowser.take_action fst action_text];
      cbv beta iota zeta;
      rewrite ?(proj1 (disposable_prefix template)),
              ?(proj2 (disposable_prefix template));
      now destruct save_default.
  - unfold VirtualBrowser.main. now rewrite Hasks.
Qed.

(** X19: when the dialog is shown, the button decides.  With [--ask],
    or with a saved action that is none of "clipboard", "discard" and
    "disposable:" followed by the name of an existing qube (an unset
    feature, read as the empty text, included), the URL goes where the
    button says: to a disposable of the selected template, to the global
    clipboard under the name of the local qube, or nowhere.  The saved
    action becomes the text of the button exactly when the box is ticked.
    Closing the window discards the URL and saves nothing. *)
Theorem dialog_decides (ask : bool) (url : string) (feature : option string)
  (domains : list string) (local_name : string) :
  let action := match feature with Some v => v | None => "" end in
  ask = true \/
  (action <> "clipboard" /\ action <> "discard" /\
   forall template, action = "disposable:" ++ template -> ~ In template domains) ->
  (forall pressed save_default,
     VirtualBrowser.main ask url feature domains local_name
                         (Some (pressed, save_default))
     = (match pressed with
        | VirtualBrowser.button_disposable template =>
            VirtualBrowser.OpenInDvm url template
        | VirtualBrowser.button_clipboard =>
            VirtualBrowser.CopyToClipboard url local_name
        | VirtualBrowser.button_discard => VirtualBrowser.Nothing
        end,
        if save_default
        then Some (match pressed with
                   | VirtualBrowser.button_disposable template =>
                       "disposable:" ++ template
                   | VirtualBrowser.button_clipboard => "clipboard"
                   | VirtualBrowser.button_discard => "discard"
                   end)
        else feature)) /\
  VirtualBrowser.main ask url feature domains local_name None
  = (VirtualBrowser.Nothing, feature).
Proof.
  intros action Hcase. apply asks_spec in Hcase.
  exact (main_dialog ask url feature domains local_name Hcase).
Qed.

Lemma dialog_decides_witness :
  ("disposable:gone" <> "clipboard" /\ "disposable:gone" <> "discard" /\
   forall template, "disposable:gone" = "disposable:" ++ template ->
                    ~ In template ["dom0"; "work"]) /\
  VirtualBrowser.main false "https://example.org/" (Some "disposable:gone")
                      ["dom0"; "work"] "dom0"
                      (Some (VirtualBrowser.button_clipboard, false))
  = (VirtualBrowser.CopyToClipboard "https://example.org/" "dom0",
     Some "disposable:gone").
Proof.
  assert (H : "disposable:gone" <> "clipboard" /\ "disposable:gone" <> "discard" /\
              forall template, "disposable:gone" = "disposable:" ++ template ->
                               ~ In template ["dom0"; "work"]).
  { split; [discriminate|]. split; [discriminate|].
    intros template Heq. injection Heq as <-.
    intros [Hin | [Hin | []]]; discriminate Hin. }
  split; [exact H|].
  exact (proj1 (dialog_decides false "https://example.org/" (Some "disposable:gone")
                  ["dom0"; "work"] "dom0" (or_intror H))
               VirtualBrowser.button_clipboard false).
Defined.

(** X20: a saved default is honoured on the next run.  After a button
    was pressed with the box ticked, a run without [--ask] shows no
    dialog (whatever the user would answer is ignored), does for the new
    URL what that button does, and leaves the saved action alone;
    for the disposable button this holds as long as the template still
    exists, and the URL opens in exactly that template.  So once
    "discard" has been saved every later URL is dropped without a word.
    If the template is gone the dialog is shown again and the button
    pressed there decides. *)
Theorem saved_default_round_trip (pressed : VirtualBrowser.button)
  (feature : option string) (url : string) (domains : list string)
  (local_name : string) :
  let saved := snd (VirtualBrowser.take_action pressed true feature) in
  ((forall template, pressed = VirtualBrowser.button_disposable template ->
                     In template domains) ->
   forall user,
     VirtualBrowser.main false url saved domains local_name user
     = (match pressed with
        | VirtualBrowser.button_disposable template =>
            VirtualBrowser.OpenInDvm url template
        | VirtualBrowser.button_clipboard =>
            VirtualBrowser.CopyToClipboard url local_name
        | VirtualBrowser.button_discard => VirtualBrowser.Nothing
        end, saved)) /\
  (forall template, pressed = VirtualBrowser.button_disposable template ->
                    ~ In template domains ->
   forall again save_default,
     VirtualBrowser.main false url saved domains local_name
                         (Some (again, save_default))
     = (match again with
        | VirtualBrowser.button_disposable template' =>
            VirtualBrowser.OpenInDvm url template'
        | VirtualBrowser.button_clipboard =>
            VirtualBrowser.CopyToClipboard url local_name
        | VirtualBrowser.button_discard => VirtualBrowser.Nothing
        end,
        if save_default
        then Some (match again with
                   | VirtualBrowser.button_disposable template' =>
                       "disposable:" ++ template'
                   | VirtualBrowser.button_clipboard => "clipboard"
                   | VirtualBrowser.button_discard => "discard"
                   end)
        else saved)).
Proof.
  intros saved. split.
  - intros Hexists user. subst saved. unfold VirtualBrowser.main.
    destruct pressed as [template| |]; try reflexivity.
    cbn [VirtualBrowser.take_action snd].
    assert (Hasks : VirtualBrowser.asks false ("disposable:" ++ template) domains
                    = false).
    { destruct (VirtualBrowser.asks false ("disposable:" ++ template) domains)
        eqn:Hasks; [|reflexivity].
      apply asks_spec in Hasks as [Hask | (_ & _ & Hgone)]; [discriminate|].
      now destruct (Hgone template eq_refl (Hexists template eq_refl)). }
    rewrite Hasks. destruct (disposable_prefix template) as [-> ->]. reflexivity.
  - intros template -> Hgone again save_default. subst saved.
    cbn [VirtualBrowser.take_action snd].
    apply (main_dialog false url (Some ("disposable:" ++ template))).
    apply asks_spec. right. split; [discriminate|]. split; [discriminate|].
    intros template' Heq Hin.
    assert (template' = template); [|now subst].
    clear -Heq. cbn in Heq. now injection Heq as ->.
Qed.

Lemma saved_default_round_trip_witness :
  In "dvm" ["dom0"; "dvm"] /\
  VirtualBrowser.main false "https://example.org/"
    (snd (VirtualBrowser.take_action (VirtualBrowser.button_disposable "dvm") true None))
    ["dom0"; "dvm"] "dom0" None
  = (VirtualBrowser.OpenInDvm "https://example.org/" "dvm", Some "disposable:dvm").
Proof.
  assert (Hin : In "dvm" ["dom0"; "dvm"]) by (right; left; reflexivity).
  split; [exact Hin|].
  apply (proj1 (saved_default_round_trip (VirtualBrowser.button_disposable "dvm")
                  None "https://example.org/" ["dom0"; "dvm"] "dom0")).
  intros template H. injection H as <-. exact Hin.
Defined.

(** ** The menu dismisser *)

Lemma clear_widget_consistent (s : Dismisser.state) :
  Dismisser.consistent s ->
  exists s',
    Dismisser.clear_widget s = (None, s') /\
    Dismisser.consistent s' /\
    Dismisser._widget s' = None /\
    Dismisser.next_id s' = Dismisser.next_id s /\
    Dismisser.window_shown s' = Dismisser.window_shown s.
Proof.
  destruct s as [wd mid uid hs nid shown]. unfold Dismisser.consistent.
  cbn [Dismisser._widget Dismisser._map_signal_id Dismisser._unmap_signal_id
       Dismisser.handlers Dismisser.next_id].
  intros [Hnext Hcase]. destruct wd as [w|].
  - destruct Hcase as (-> & Hids & Hlt).
    assert (Hm : (mid =? 0) = false) by (apply Z.eqb_neq; lia).
    assert (Hu : (uid =? 0) = false) by (apply Z.eqb_neq; lia).
    assert (Hum : (uid =? mid) = false) by (apply Z.eqb_neq; lia).
    unfold Dismisser.clear_widget, Dismisser.disconnect, Dismisser.connected.
    cbn -[Z.eqb Nat.eqb]. rewrite Hm, Hu. cbn -[Z.eqb Nat.eqb].
    rewrite !Nat.eqb_refl, !Z.eqb_refl. cbn -[Z.eqb Nat.eqb].
    rewrite ?Nat.eqb_refl, ?Z.eqb_refl, ?Hum. cbn -[Z.eqb Nat.eqb].
    rewrite ?Nat.eqb_refl, ?Z.eqb_refl, ?Hum. cbn -[Z.eqb Nat.eqb].
    rewrite ?Nat.eqb_refl, ?Z.eqb_refl, ?Hum. cbn -[Z.eqb Nat.eqb].
    eexists. split; [reflexivity|]. cbn. repeat split; assumption.
  - destruct Hcase as (-> & -> & ->).
    eexists. split; [reflexivity|]. cbn. repeat split; assumption.
Qed.

Lemma show_for_widget_consistent (widget : nat) (s : Dismisser.state) :
  Dismisser.consistent s ->
  exists s',
    Dismisser.show_for_widget widget s = (None, s') /\
    Dismisser.consistent s' /\
    Dismisser._widget s' = Some widget /\
    Dismisser.window_shown s' = Dismisser.window_shown s.
Proof.
  intros Hs. unfold Dismisser.show_for_widget.
  destruct (clear_widget_consistent s Hs) as (s1 & -> & [Hnext Hc] & Hw & _ & Hshown).
  rewrite Hw in Hc. destruct Hc as (Hh & Hm & Hu).
  destruct s1 as [wd mid uid hs nid shown].
  cbn [Dismisser._widget Dismisser._map_signal_id Dismisser._unmap_signal_id
       Dismisser.handlers Dismisser.next_id Dismisser.window_shown] in *.
  subst. cbn. eexists. split; [reflexivity|].
  unfold Dismisser.consistent. cbn. repeat split; lia.
Qed.

Lemma emit_consistent (sig : Dismisser.signal) (widget : nat) (s : Dismisser.state) :
  Dismisser.consistent s ->
  exists s',
    Dismisser.emit_to (Dismisser.handlers s) sig widget s = ([], s') /\
    Dismisser.consistent s' /\
    Dismisser._widget s' = Dismisser._widget s /\
    Dismisser.window_shown s'
    = if Dismisser.is_current widget s
      then match sig with Dismisser.Map => true | Dismisser.Unmap => false end
      else Dismisser.window_shown s.
Proof.
  destruct s as [wd mid uid hs nid shown]. unfold Dismisser.consistent.
  cbn [Dismisser._widget Dismisser._map_signal_id Dismisser._unmap_signal_id
       Dismisser.handlers Dismisser.next_id].
  intros [Hnext Hcase]. destruct wd as [w|].
  - destruct Hcase as (-> & Hids & Hlt).
    cbn [Dismisser.emit_to]. unfold Dismisser.is_current at 1.
    cbn [Dismisser._widget].
    destruct (Nat.eqb w widget) eqn:Hw.
    + apply Nat.eqb_eq in Hw. subst widget.
      destruct sig; cbn [andb];
        unfold Dismisser._show, Dismisser._hide, Dismisser.is_current;
        cbn [Dismisser._widget]; rewrite Nat.eqb_refl;
        (eexists; split; [reflexivity|]); cbn; repeat split; try assumption; lia.
    + cbn [andb]. eexists. split; [reflexivity|]. cbn. repeat split; try assumption; lia.
  - destruct Hcase as (-> & -> & ->).
    eexists. split; [reflexivity|]. cbn. repeat split; assumption.
Qed.

Lemma step_consistent (s : Dismisser.state) (e : Dismisser.event) :
  Dismisser.consistent s ->
  Dismisser.consistent (snd (Dismisser.step s e)) /\
  (fst (Dismisser.step s e) = [] \/
   fst (Dismisser.step s e) = [Dismisser.AttributeError] /\
   e = Dismisser.Click /\ Dismisser._widget s = None).
Proof.
  intros Hs. destruct e as [w| |sig w|]; cbn [Dismisser.step].
  - destruct (show_for_widget_consistent w s Hs) as (s' & -> & Hc & _).
    split; [exact Hc | now left].
  - destruct (clear_widget_consistent s Hs) as (s' & -> & Hc & _).
    split; [exact Hc | now left].
  - destruct (emit_consistent sig w s Hs) as (s' & -> & Hc & _).
    split; [exact Hc | now left].
  - unfold Dismisser.on_button_press, Dismisser.report.
    destruct s as [wd mid uid hs nid shown].
    cbn [Dismisser.set_window_shown Dismisser._widget].
    destruct wd as [w|]; cbn [fst snd]; (split; [exact Hs|]).
    + now left.
    + right. now repeat split.
Qed.

(** X21: the dismisser keeps its signal bookkeeping straight.  From the
    state the constructor leaves, whatever calls of [show_for_widget] and
    [clear_widget], signals and clicks follow: no handler is ever
    disconnected twice, the assertions of [_show] and [_hide] never fail,
    and the handlers connected at any time are the two of the current
    widget, or none when there is no widget.  The only error a run can
    report is the [AttributeError] of a click that arrives while no widget
    is set. *)
Theorem dismisser_consistent (first_id : Z) (events : list Dismisser.event) :
  0 < first_id ->
  Dismisser.consistent (snd (Dismisser.run events (Dismisser.init first_id))) /\
  Forall (fun e => e = Dismisser.AttributeError)
         (fst (Dismisser.run events (Dismisser.init first_id))).
Proof.
  intros Hfirst.
  assert (Hinit : Dismisser.consistent (Dismisser.init first_id)).
  { unfold Dismisser.consistent. cbn. repeat split; try lia. }
  revert Hinit. generalize (Dismisser.init first_id) as s.
  induction events as [|e events IH]; intros s Hs.
  - split; [exact Hs | constructor].
  - cbn [Dismisser.run].
    destruct (step_consistent s e Hs) as [Hc Herr].
    destruct (Dismisser.step s e) as [errors s1]. cbn [fst snd] in Hc, Herr.
    destruct (IH s1 Hc) as [Hc2 Hall].
    destruct (Dismisser.run events s1) as [more s2]. cbn [fst snd] in *.
    split; [exact Hc2|].
    apply Forall_app. split; [|exact Hall].
    destruct Herr as [-> | [-> _]]; repeat constructor.
Qed.

Lemma dismisser_consistent_witness :
  0 < 3 /\
  Dismisser.run [Dismisser.ShowForWidget 7; Dismisser.Emit Dismisser.Map 7;
                 Dismisser.ShowForWidget 8; Dismisser.Emit Dismisser.Unmap 7;
                 Dismisser.Click; Dismisser.ClearWidget; Dismisser.Click]
                (Dismisser.init 3)
  = ([Dismisser.AttributeError],
     Dismisser.mkState None 0 0 [] 7 false) /\
  Dismisser.consistent
    (snd (Dismisser.run [Dismisser.ShowForWidget 7; Dismisser.Emit Dismisser.Map 7;
                         Dismisser.ShowForWidget 8; Dismisser.Emit Dismisser.Unmap 7;
                         Dismisser.Click; Dismisser.ClearWidget; Dismisser.Click]
                        (Dismisser.init 3))).
Proof.
  assert (H : 0 < 3) by lia.
  split; [exact H|]. split; [reflexivity|].
  exact (proj1 (dismisser_consistent 3 _ H)).
Defined.

(** X22: [clear_widget] does not hide the window.  If it is called
    while the menu is mapped, the transparent fullscreen window stays up
    with no widget behind it and no handler left that could hide it, and
    the click that takes it down raises [AttributeError] (after hiding
    the window), whichever widget it was. *)
Theorem dismisser_stale_window (first_id : Z) (widget : nat) :
  0 < first_id ->
  let outcome := Dismisser.run [Dismisser.ShowForWidget widget;
                                Dismisser.Emit Dismisser.Map widget;
                                Dismisser.ClearWidget]
                               (Dismisser.init first_id) in
  fst outcome = [] /\
  Dismisser.window_shown (snd outcome) = true /\
  Dismisser._widget (snd outcome) = None /\
  Dismisser.handlers (snd outcome) = [] /\
  Dismisser.on_button_press (snd outcome)
  = (Some Dismisser.AttributeError,
     Dismisser.set_window_shown false (snd outcome)).
Proof.
  intros Hfirst outcome.
  assert (Hrun : exists s3,
             outcome = ([], s3) /\ Dismisser.window_shown s3 = true /\
             Dismisser._widget s3 = None /\ Dismisser.handlers s3 = []).
  { assert (Hinit : Dismisser.consistent (Dismisser.init first_id)).
    { unfold Dismisser.consistent. cbn. repeat split; try lia. }
    destruct (show_for_widget_consistent widget _ Hinit)
      as (s1 & Hs1 & Hc1 & Hw1 & _).
    destruct (emit_consistent Dismisser.Map widget s1 Hc1)
      as (s2 & Hs2 & Hc2 & Hw2 & Hshown2).
    unfold Dismisser.is_current in Hshown2. rewrite Hw1, Nat.eqb_refl in Hshown2.
    destruct (clear_widget_consistent s2 Hc2)
      as (s3 & Hs3 & Hc3 & Hw3 & _ & Hshown3).
    destruct Hc3 as [_ Hcase]. rewrite Hw3 in Hcase. destruct Hcase as (Hh3 & _).
    exists s3. subst outcome. cbn [Dismisser.run Dismisser.step].
    rewrite Hs1. unfold Dismisser.report. cbn [fst snd].
    rewrite Hs2, Hs3. cbn [fst snd app].
    split; [reflexivity|]. split; [now rewrite Hshown3|]. now split. }
  destruct Hrun as (s3 & -> & Hshown & Hwidget & Hhandlers). cbn [fst snd].
  split; [reflexivity|]. split; [exact Hshown|].
  split; [exact Hwidget|]. split; [exact Hhandlers|].
  unfold Dismisser.on_button_press.
  destruct s3 as [wd mid uid hs nid shown]. cbn in Hwidget |- *. now subst wd.
Qed.

Lemma dismisser_stale_window_witness :
  0 < 3 /\
  Dismisser.run [Dismisser.ShowForWidget 7; Dismisser.Emit Dismisser.Map 7;
                 Dismisser.ClearWidget; Dismisser.Click] (Dismisser.init 3)
  = ([Dismisser.AttributeError], Dismisser.mkState None 0 0 [] 5 false) /\
  Dismisser.window_shown
    (snd (Dismisser.run [Dismisser.ShowForWidget 7; Dismisser.Emit Dismisser.Map 7;
                         Dismisser.ClearWidget] (Dismisser.init 3))) = true.
Proof.
  assert (H : 0 < 3) by lia.
  split; [exact H|]. split; [reflexivity|].
  exact (proj1 (proj2 (dismisser_stale_window 3 7 H))).
Defined.
